(** * Migration manager and dashboard controller: a shallow embedding

    The development follows the two TypeScript units of the repository:
    the [useMigrationManager] hook, which talks to the hosted relational
    store, and the [Dashboard] page, which owns the client-side state.

    Modelling conventions.
    - A backend request is an awaited round trip that resolves to a
      [{data, error}] pair.  Whether the store carries a request out is
      not decided by the client, so the store's verdicts are part of the
      world ([backend]), one per request, and every theorem quantifies
      over them.
    - Instants are milliseconds since the epoch ([Date.now()]); the store
      compares [created_at] values as instants.
    - React state of the hook ([currentMigrationId], [isCreatingMigration])
      is a pair of fields of the world; a callback reads the value of the
      render it was created in, and every callback below reads it before
      it writes it. *)

From Stdlib Require Import ZArith Lia Ascii.
From stdpp Require Import gmap strings list fin_maps pretty.

Set Warnings "-register-all".

Open Scope string_scope.
Open Scope Z_scope.
Open Scope list_scope.

(** ** JavaScript values *)

(** Values that travel in request payloads and columns of type [any]. *)
Inductive json : Type :=
| JNull
| JBool (b : bool)
| JNum (n : Z)
| JStr (s : string)
| JTime (ms : Z)                       (* an instant, sent as its ISO-8601 text *)
| JArr (items : list json)
| JObj (fields : list (string * json)).

(** Truthiness of a string: the empty string is falsy. *)
Definition truthy_string (s : string) : bool :=
  match s with
  | EmptyString => false
  | String _ _ => true
  end.

(** Truthiness of a [string | null | undefined]. *)
Definition truthy (o : option string) : bool :=
  match o with
  | Some s => truthy_string s
  | None => false
  end.

(** [a || b] on optional strings. *)
Definition or_else (o : option string) (d : string) : string :=
  match o with
  | Some s => if truthy_string s then s else d
  | None => d
  end.

(** [s.replace(/:/g, '')] *)
Fixpoint remove_colons (s : string) : string :=
  match s with
  | EmptyString => EmptyString
  | String c rest =>
      if Ascii.eqb c ":"%char then remove_colons rest
      else String c (remove_colons rest)
  end.

(** ** Data model *)

Inductive file_type := table | procedure | trigger | other.

Inductive conversion_status := pending | success | failed | deployed.

(** The text stored in the [conversion_status] column. *)
Definition status_text (s : conversion_status) : string :=
  match s with
  | pending => "pending"
  | success => "success"
  | failed => "failed"
  | deployed => "deployed"
  end.

(** [interface FileItem] *)
Record FileItem := {
  fi_id : string;
  fi_name : string;
  fi_path : string;
  fi_type : file_type;
  fi_content : string;
  fi_conversionStatus : conversion_status;
  fi_convertedContent : option string;
  fi_errorMessage : option string;
  fi_dataTypeMapping : option (list json);
  fi_issues : option (list json);
  fi_performanceMetrics : option json
}.

(** A row of [migrations]. *)
Record migration := {
  m_id : string;
  m_user_id : string;
  m_project_name : string;
  m_created_at : Z
}.

(** A row of [migration_files].  The columns written through
    [update] payloads hold JSON values ([JNull] for SQL NULL). *)
Record migration_file := {
  mf_id : string;
  mf_migration_id : string;
  mf_file_name : string;
  mf_file_path : string;
  mf_file_type : file_type;
  mf_original_content : string;
  mf_conversion_status : json;
  mf_converted_content : json;
  mf_error_message : json;
  mf_data_type_mapping : json;
  mf_performance_metrics : json;
  mf_issues : json;
  mf_deployment_timestamp : json;
  mf_updated_at : json
}.

(** What a request resolves to. *)
Record response (A : Type) := {
  data : option A;
  error : option string
}.
Arguments data {A} _.
Arguments error {A} _.

Definition resolved {A} (x : A) : response A :=
  {| data := Some x; error := None |}.
Definition refused {A} (msg : string) : response A :=
  {| data := None; error := Some msg |}.

(** Row shapes returned by the two queries that embed
    [migration_files(id)]. *)
Record migration_with_files := {
  mw_id : string;
  mw_created_at : Z;
  mw_migration_files : option (list string)
}.

(** ** The world: store, verdicts, hook state, observable output *)

(** The store's verdict on one request.  An accepted insert is given
    the identifier of the new row. *)
Inductive reply :=
| Accept (fresh_id : string)
| Reject (reason : string).

Inductive request :=
| InsertMigration (user_id project_name : string)
| SelectRecentMigration (user_id : option string) (since : Z)
| DeleteMigrationById (id : string)
| SelectFileNames (migration_id : string)
| InsertFile (migration_id file_name file_path : string)
    (ftype : file_type) (original_content : string)
| UpdateFile (file_id : string) (payload : gmap string json)
| SelectOldMigrations (user_id : option string) (before : Z)
| DeleteMigrationsIn (ids : list string)
| DeleteFilesOf (migration_id : string)
| SelectStatuses (migration_id : string).

Record toast := {
  title : string;
  description : string;
  destructive : bool
}.

Record world := {
  user : option string;                 (* [user?.id] of [useAuth] *)
  currentMigrationId : option string;
  isCreatingMigration : bool;
  migrations : list migration;
  migration_files : list migration_file;
  now : Z;                              (* [Date.now()] *)
  localTime : string;                   (* [toLocaleTimeString('en-GB')] *)
  backend : nat -> reply;               (* verdict on the n-th request *)
  tick : nat;                           (* requests sent so far *)
  requests : list request;
  toasts : list toast;
  console : list string
}.

Definition setCurrentMigrationId (v : option string) (w : world) : world :=
  {| user := user w; currentMigrationId := v;
     isCreatingMigration := isCreatingMigration w;
     migrations := migrations w; migration_files := migration_files w;
     now := now w; localTime := localTime w; backend := backend w;
     tick := tick w; requests := requests w; toasts := toasts w;
     console := console w |}.

Definition setIsCreatingMigration (v : bool) (w : world) : world :=
  {| user := user w; currentMigrationId := currentMigrationId w;
     isCreatingMigration := v;
     migrations := migrations w; migration_files := migration_files w;
     now := now w; localTime := localTime w; backend := backend w;
     tick := tick w; requests := requests w; toasts := toasts w;
     console := console w |}.

Definition set_migrations (v : list migration) (w : world) : world :=
  {| user := user w; currentMigrationId := currentMigrationId w;
     isCreatingMigration := isCreatingMigration w;
     migrations := v; migration_files := migration_files w;
     now := now w; localTime := localTime w; backend := backend w;
     tick := tick w; requests := requests w; toasts := toasts w;
     console := console w |}.

Definition set_migration_files (v : list migration_file) (w : world) : world :=
  {| user := user w; currentMigrationId := currentMigrationId w;
     isCreatingMigration := isCreatingMigration w;
     migrations := migrations w; migration_files := v;
     now := now w; localTime := localTime w; backend := backend w;
     tick := tick w; requests := requests w; toasts := toasts w;
     console := console w |}.

Definition sent (rq : request) (w : world) : world :=
  {| user := user w; currentMigrationId := currentMigrationId w;
     isCreatingMigration := isCreatingMigration w;
     migrations := migrations w; migration_files := migration_files w;
     now := now w; localTime := localTime w; backend := backend w;
     tick := S (tick w); requests := requests w ++ [rq]; toasts := toasts w;
     console := console w |}.

Definition push_toast (t : toast) (w : world) : world :=
  {| user := user w; currentMigrationId := currentMigrationId w;
     isCreatingMigration := isCreatingMigration w;
     migrations := migrations w; migration_files := migration_files w;
     now := now w; localTime := localTime w; backend := backend w;
     tick := tick w; requests := requests w; toasts := toasts w ++ [t];
     console := console w |}.

Definition push_console (line : string) (w : world) : world :=
  {| user := user w; currentMigrationId := currentMigrationId w;
     isCreatingMigration := isCreatingMigration w;
     migrations := migrations w; migration_files := migration_files w;
     now := now w; localTime := localTime w; backend := backend w;
     tick := tick w; requests := requests w; toasts := toasts w;
     console := console w ++ [line] |}.

(** ** A state monad over the world *)

Definition M (A : Type) : Type := world -> A * world.

Definition ret {A} (x : A) : M A := fun w => (x, w).

Definition bind {A B} (m : M A) (k : A -> M B) : M B :=
  fun w => let (x, w') := m w in k x w'.

Definition get : M world := fun w => (w, w).

Definition modify (f : world -> world) : M unit := fun w => (tt, f w).

Notation "'let*' x ':=' m 'in' k" := (bind m (fun x => k))
  (at level 10, x name, m at level 100, k at level 200, only parsing).


(** Sends one request and reads the store's verdict on it. *)
Definition await (rq : request) : M reply :=
  fun w => (backend w (tick w), sent rq w).

Definition showToast (t d : string) (bad : bool) : M unit :=
  modify (push_toast {| title := t; description := d; destructive := bad |}).

Definition consoleLog (line : string) : M unit :=
  modify (push_console line).

(** ** The store: what each request does when it is carried out *)

Definition owned_by (uid : option string) (m : migration) : bool :=
  bool_decide (uid = Some (m_user_id m)).

(** Identifiers of the file rows of session [mid]: the embedded
    resource [migration_files(id)]. *)
Definition files_of (fs : list migration_file) (mid : string) : list migration_file :=
  filter (fun f => mf_migration_id f = mid) fs.

Definition with_files (fs : list migration_file) (m : migration) : migration_with_files :=
  {| mw_id := m_id m;
     mw_created_at := m_created_at m;
     mw_migration_files := Some (map mf_id (files_of fs (m_id m))) |}.

(** [.order('created_at', { ascending: false }).limit(1)]: the newest
    row, the earliest stored one among equally new rows. *)
Fixpoint newest (ms : list migration) : option migration :=
  match ms with
  | [] => None
  | m :: rest =>
      match newest rest with
      | Some m' => if m_created_at m' >? m_created_at m then Some m' else Some m
      | None => Some m
      end
  end.

(** Rows matched by [.eq('user_id', uid).gte('created_at', since)]. *)
Definition recent_of (ms : list migration) (uid : option string) (since : Z) : list migration :=
  filter (fun m => owned_by uid m = true /\ since <= m_created_at m) ms.

(** Rows matched by [.eq('user_id', uid).lt('created_at', before)]. *)
Definition old_of (ms : list migration) (uid : option string) (before : Z) : list migration :=
  filter (fun m => owned_by uid m = true /\ m_created_at m < before) ms.

(** [from('migrations').insert({user_id, project_name}).select().single()] *)
Definition insert_migration (uid pname : string) : M (response migration) :=
  let* v := await (InsertMigration uid pname) in
  match v with
  | Accept new_id =>
      let* w := get in
      let row := {| m_id := new_id; m_user_id := uid;
                    m_project_name := pname; m_created_at := now w |} in
      let* _ := modify (set_migrations (migrations w ++ [row])) in
      ret (resolved row)
  | Reject msg => ret (refused msg)
  end.

(** [from('migrations').select('id, created_at, migration_files(id)')
      .eq('user_id', uid).gte('created_at', since)
      .order('created_at', { ascending: false }).limit(1).single()];
    [single()] reports an error when no row matches. *)
Definition select_recent_migration (uid : option string) (since : Z)
  : M (response migration_with_files) :=
  let* v := await (SelectRecentMigration uid since) in
  match v with
  | Accept _ =>
      let* w := get in
      match newest (recent_of (migrations w) uid since) with
      | Some m => ret (resolved (with_files (migration_files w) m))
      | None => ret (refused "PGRST116")
      end
  | Reject msg => ret (refused msg)
  end.

(** [from('migrations').delete().eq('id', id)] *)
Definition delete_migration_by_id (id : string) : M (response unit) :=
  let* v := await (DeleteMigrationById id) in
  match v with
  | Accept _ =>
      let* w := get in
      let* _ := modify (set_migrations (filter (fun m => m_id m <> id) (migrations w))) in
      ret (resolved tt)
  | Reject msg => ret (refused msg)
  end.

(** [from('migration_files').select('file_name').eq('migration_id', mid)] *)
Definition select_file_names (mid : string) : M (response (list string)) :=
  let* v := await (SelectFileNames mid) in
  match v with
  | Accept _ =>
      let* w := get in
      ret (resolved (map mf_file_name (files_of (migration_files w) mid)))
  | Reject msg => ret (refused msg)
  end.

(** [from('migration_files').insert({...})]; the columns the client
    does not send are NULL. *)
Definition insert_file (mid fname fpath : string) (ftype : file_type)
    (original status : string) : M (response unit) :=
  let* v := await (InsertFile mid fname fpath ftype original) in
  match v with
  | Accept new_id =>
      let* w := get in
      let row := {| mf_id := new_id; mf_migration_id := mid;
                    mf_file_name := fname; mf_file_path := fpath;
                    mf_file_type := ftype; mf_original_content := original;
                    mf_conversion_status := JStr status;
                    mf_converted_content := JNull;
                    mf_error_message := JNull;
                    mf_data_type_mapping := JNull;
                    mf_performance_metrics := JNull;
                    mf_issues := JNull;
                    mf_deployment_timestamp := JNull;
                    mf_updated_at := JTime (now w) |} in
      let* _ := modify (set_migration_files (migration_files w ++ [row])) in
      ret (resolved tt)
  | Reject msg => ret (refused msg)
  end.

(** A column keeps its value unless the payload names it. *)
Definition column (payload : gmap string json) (key : string) (old : json) : json :=
  default old (payload !! key).

Definition apply_update (payload : gmap string json) (r : migration_file) : migration_file :=
  {| mf_id := mf_id r; mf_migration_id := mf_migration_id r;
     mf_file_name := mf_file_name r; mf_file_path := mf_file_path r;
     mf_file_type := mf_file_type r;
     mf_original_content := mf_original_content r;
     mf_conversion_status := column payload "conversion_status" (mf_conversion_status r);
     mf_converted_content := column payload "converted_content" (mf_converted_content r);
     mf_error_message := column payload "error_message" (mf_error_message r);
     mf_data_type_mapping := column payload "data_type_mapping" (mf_data_type_mapping r);
     mf_performance_metrics := column payload "performance_metrics" (mf_performance_metrics r);
     mf_issues := column payload "issues" (mf_issues r);
     mf_deployment_timestamp := column payload "deployment_timestamp" (mf_deployment_timestamp r);
     mf_updated_at := column payload "updated_at" (mf_updated_at r) |}.

(** [from('migration_files').update(payload).eq('id', fileId)] *)
Definition update_file (fileId : string) (payload : gmap string json) : M (response unit) :=
  let* v := await (UpdateFile fileId payload) in
  match v with
  | Accept _ =>
      let* w := get in
      let* _ := modify (set_migration_files
                (map (fun r => if bool_decide (mf_id r = fileId)
                               then apply_update payload r else r)
                     (migration_files w))) in
      ret (resolved tt)
  | Reject msg => ret (refused msg)
  end.

(** [from('migrations').select('id, migration_files(id)')
      .eq('user_id', uid).lt('created_at', before)] *)
Definition select_old_migrations (uid : option string) (before : Z)
  : M (response (list migration_with_files)) :=
  let* v := await (SelectOldMigrations uid before) in
  match v with
  | Accept _ =>
      let* w := get in
      ret (resolved (map (with_files (migration_files w))
                         (old_of (migrations w) uid before)))
  | Reject msg => ret (refused msg)
  end.

(** [from('migrations').delete().in('id', ids)] *)
Definition delete_migrations_in (ids : list string) : M (response unit) :=
  let* v := await (DeleteMigrationsIn ids) in
  match v with
  | Accept _ =>
      let* w := get in
      let* _ := modify (set_migrations (filter (fun m => m_id m ∉ ids) (migrations w))) in
      ret (resolved tt)
  | Reject msg => ret (refused msg)
  end.

(** [from('migration_files').delete().eq('migration_id', mid)] *)
Definition delete_files_of (mid : string) : M (response unit) :=
  let* v := await (DeleteFilesOf mid) in
  match v with
  | Accept _ =>
      let* w := get in
      let* _ := modify (set_migration_files
                (filter (fun f => mf_migration_id f <> mid) (migration_files w))) in
      ret (resolved tt)
  | Reject msg => ret (refused msg)
  end.

(** [from('migration_files').select('conversion_status').eq('migration_id', mid)] *)
Definition select_statuses (mid : string) : M (response (list json)) :=
  let* v := await (SelectStatuses mid) in
  match v with
  | Accept _ =>
      let* w := get in
      ret (resolved (map mf_conversion_status (files_of (migration_files w) mid)))
  | Reject msg => ret (refused msg)
  end.

(** ** The migration manager hook *)

Definition dquote : string := String (ascii_of_nat 34) EmptyString.

Section MigrationManager.

(** [String.prototype.toLowerCase], kept abstract: nothing below depends
    on how it folds case. *)
Variable toLowerCase : string -> string.

(** [startNewMigration(projectName?)] *)
Definition startNewMigration (projectName : option string) : M (option string) :=
  let* w := get in
  match user w with
  | None =>
      let* _ := showToast "Authentication Required"
                  "Please sign in to start a migration" true in
      ret None
  | Some uid =>
      let* _ := modify (setIsCreatingMigration true) in
      let defaultProjectName :=
        or_else projectName ("Migration_" +:+ remove_colons (localTime w)) in
      let* r := insert_migration uid defaultProjectName in
      let* result :=
        match error r with
        | Some e =>
            let* _ := consoleLog ("Error starting new migration: " +:+ e) in
            let* _ := showToast "Migration Error"
                        "Failed to start new migration" true in
            ret None
        | None =>
            match data r with
            | Some row =>
                let* _ := modify (setCurrentMigrationId (Some (m_id row))) in
                let* _ := showToast "Migration Started"
                            ("New migration project " +:+ dquote +:+ defaultProjectName
                               +:+ dquote +:+ " created successfully") false in
                ret (Some (m_id row))
            | None =>
                (* [data.id] on [null] raises; the [catch] block runs *)
                let* _ := consoleLog "Error starting new migration: TypeError" in
                let* _ := showToast "Migration Error"
                            "An unexpected error occurred while starting migration" true in
                ret None
            end
        end in
      (* finally *)
      let* _ := modify (setIsCreatingMigration false) in
      ret result
  end.

(** [recentMigration.migration_files?.length > 0] *)
Definition has_files (m : migration_with_files) : bool :=
  match mw_migration_files m with
  | Some (_ :: _) => true
  | _ => false
  end.

(** [!m.migration_files || m.migration_files.length === 0] *)
Definition no_files (m : migration_with_files) : bool :=
  match mw_migration_files m with
  | None => true
  | Some l => (length l =? 0)%nat
  end.

(** [getOrCreateMigrationId()] *)
Definition getOrCreateMigrationId : M (option string) :=
  let* w := get in
  if truthy (currentMigrationId w) then ret (currentMigrationId w)
  else
    let twentyFourHoursAgo := now w - 24 * 60 * 60 * 1000 in
    let* r := select_recent_migration (user w) twentyFourHoursAgo in
    let recentMigration := data r in
    match recentMigration with
    | Some rm =>
        if truthy_string (mw_id rm) && has_files rm then
          let* _ := modify (setCurrentMigrationId (Some (mw_id rm))) in
          ret (Some (mw_id rm))
        else
          let* _ :=
            if truthy_string (mw_id rm) && no_files rm
            then let* _ := delete_migration_by_id (mw_id rm) in ret tt
            else ret tt in
          startNewMigration None
    | None => startNewMigration None
    end.

(** The object built by [uploadedFiles.map(file => ({...}))]. *)
Definition toPendingItem (file : FileItem) : FileItem :=
  {| fi_id := fi_id file;
     fi_name := fi_name file;
     fi_path := fi_name file;
     fi_type := fi_type file;
     fi_content := fi_content file;
     fi_conversionStatus := pending;
     fi_dataTypeMapping := Some [];
     fi_issues := Some [];
     fi_performanceMetrics := None;
     fi_convertedContent := None;
     fi_errorMessage := None |}.

(** The [for (const file of convertedFiles)] loop of [handleCodeUpload];
    [existingFileNames] is the [Set] it reads and extends. *)
Fixpoint saveFiles (migrationId : string) (convertedFiles : list FileItem)
    (existingFileNames : gset string) : M (gset string) :=
  match convertedFiles with
  | [] => ret existingFileNames
  | file :: rest =>
      if bool_decide (toLowerCase (fi_name file) ∈ existingFileNames) then
        let* _ := consoleLog ("Skipping duplicate file: " +:+ fi_name file) in
        saveFiles migrationId rest existingFileNames
      else
        let* r := insert_file migrationId (fi_name file) (fi_path file)
                    (fi_type file) (fi_content file) "pending" in
        match error r with
        | Some insertError =>
            let* _ := consoleLog ("Error saving file " +:+ fi_name file
                                    +:+ ": " +:+ insertError) in
            saveFiles migrationId rest existingFileNames
        | None =>
            saveFiles migrationId rest
              ({[ toLowerCase (fi_name file) ]} ∪ existingFileNames)
        end
  end.

(** [handleCodeUpload(uploadedFiles)].  No statement of the [try] block
    raises here, so its [catch] block is not reached. *)
Definition handleCodeUpload (uploadedFiles : list FileItem) : M (list FileItem) :=
  let* w := get in
  match user w with
  | None =>
      let* _ := showToast "Authentication Required"
                  "Please sign in to upload files" true in
      ret []
  | Some _ =>
      let* migrationId := getOrCreateMigrationId in
      if negb (truthy migrationId) then
        let* _ := showToast "Upload Failed" "No migration ID available" true in
        ret []
      else
        let mid := default EmptyString migrationId in
        let convertedFiles := map toPendingItem uploadedFiles in
        let* r := select_file_names mid in
        let existingFileNames : gset string :=
          list_to_set (map toLowerCase (default [] (data r))) in
        let* _ := saveFiles mid convertedFiles existingFileNames in
        let* _ := showToast "Files Uploaded"
                    ("Successfully uploaded " +:+ pretty (length convertedFiles)
                       +:+ " file"
                       +:+ (if (1 <? length convertedFiles)%nat then "s" else EmptyString)
                       +:+ " to migration") false in
        ret convertedFiles
  end.

(** The [updateData] object of [updateFileStatus]. *)
Definition updateData (timestamp : Z) (status : conversion_status)
    (convertedContent errorMessage : option string)
    (dataTypeMapping performanceMetrics issues : option json) : gmap string json :=
  let u0 : gmap string json :=
    <["updated_at" := JTime timestamp]>
      (<["conversion_status" := JStr (status_text status)]> ∅) in
  let u1 := match convertedContent with
            | Some v => <["converted_content" := JStr v]> u0
            | None => u0
            end in
  let u2 := match errorMessage with
            | Some v => <["error_message" := JStr v]> u1
            | None => u1
            end in
  let u3 := match dataTypeMapping with
            | Some v => <["data_type_mapping" := v]> u2
            | None => u2
            end in
  let u4 := match performanceMetrics with
            | Some v => <["performance_metrics" := v]> u3
            | None => u3
            end in
  match issues with
  | Some v => <["issues" := v]> u4
  | None => u4
  end.

(** [updateFileStatus(fileId, status, convertedContent?, errorMessage?,
    dataTypeMapping?, performanceMetrics?, issues?)]; an omitted
    argument is [None]. *)
Definition updateFileStatus (fileId : string) (status : conversion_status)
    (convertedContent errorMessage : option string)
    (dataTypeMapping performanceMetrics issues : option json) : M bool :=
  let* w := get in
  let payload := updateData (now w) status convertedContent errorMessage
                   dataTypeMapping performanceMetrics issues in
  let* r := update_file fileId payload in
  match error r with
  | Some e =>
      let* _ := consoleLog ("Error updating file status: " +:+ e) in
      ret false
  | None => ret true
  end.

(** [cleanupEmptyMigrations()] *)
Definition cleanupEmptyMigrations : M unit :=
  let* w := get in
  let twentyFourHoursAgo := now w - 24 * 60 * 60 * 1000 in
  let* r := select_old_migrations (user w) twentyFourHoursAgo in
  match data r with
  | Some emptyMigrations =>
      let migrationsToDelete :=
        map mw_id (List.filter no_files emptyMigrations) in
      if (0 <? length migrationsToDelete)%nat then
        let* _ := delete_migrations_in migrationsToDelete in
        consoleLog ("Cleaned up " +:+ pretty (length migrationsToDelete)
                      +:+ " empty migrations")
      else ret tt
  | None => ret tt
  end.

(** [deleteMigration(migrationId)] *)
Definition deleteMigration (migrationId : string) : M bool :=
  let* rf := delete_files_of migrationId in
  match error rf with
  | Some filesError =>
      let* _ := consoleLog ("Error deleting migration files: " +:+ filesError) in
      ret false
  | None =>
      let* rm := delete_migration_by_id migrationId in
      match error rm with
      | Some migrationError =>
          let* _ := consoleLog ("Error deleting migration: " +:+ migrationError) in
          ret false
      | None =>
          let* w := get in
          let* _ :=
            if bool_decide (currentMigrationId w = Some migrationId)
            then modify (setCurrentMigrationId None)
            else ret tt in
          let* _ := showToast "Migration Deleted"
                      "Migration and all associated files have been deleted" false in
          ret true
      end
  end.

(** The summary object of [getMigrationStats]. *)
Record stats := {
  st_total : nat;
  st_success : nat;
  st_failed : nat;
  st_pending : nat;
  st_deployed : nat
}.

(** [f.conversion_status === text] *)
Definition status_is (text : string) (v : json) : bool :=
  match v with
  | JStr s => String.eqb s text
  | _ => false
  end.

(** [getMigrationStats(migrationId)] *)
Definition getMigrationStats (migrationId : string) : M (option stats) :=
  let* r := select_statuses migrationId in
  match error r with
  | Some e =>
      let* _ := consoleLog ("Error fetching migration stats: " +:+ e) in
      ret None
  | None =>
      let files := default [] (data r) in
      ret (Some {| st_total := length files;
                   st_success := length (List.filter (status_is "success") files);
                   st_failed := length (List.filter (status_is "failed") files);
                   st_pending := length (List.filter (status_is "pending") files);
                   st_deployed := length (List.filter (status_is "deployed") files) |})
  end.

End MigrationManager.

(** ** The dashboard controller *)

Inductive tab := tab_upload | tab_conversion | tab_pending.

Section Dashboard.

Variable toLowerCase : string -> string.

(** [ConversionResult] and [ConversionReport] come from [@/types]. *)
Variables ConversionResult ConversionReport : Type.

(** The [useState] cells of the page. *)
Record dashboard := {
  activeTab : tab;
  files : list FileItem;
  selectedFile : option FileItem;
  conversionResults : list ConversionResult;
  selectedAiModel : string;
  report : option ConversionReport;
  showReport : bool;
  showHelp : bool;
  customPrompt : string;
  showWizard : bool;
  wizardStep : nat
}.

Definition setActiveTab (v : tab) (d : dashboard) : dashboard :=
  {| activeTab := v; files := files d; selectedFile := selectedFile d;
     conversionResults := conversionResults d;
     selectedAiModel := selectedAiModel d; report := report d;
     showReport := showReport d; showHelp := showHelp d;
     customPrompt := customPrompt d; showWizard := showWizard d;
     wizardStep := wizardStep d |}.

Definition setFiles (v : list FileItem) (d : dashboard) : dashboard :=
  {| activeTab := activeTab d; files := v; selectedFile := selectedFile d;
     conversionResults := conversionResults d;
     selectedAiModel := selectedAiModel d; report := report d;
     showReport := showReport d; showHelp := showHelp d;
     customPrompt := customPrompt d; showWizard := showWizard d;
     wizardStep := wizardStep d |}.

Definition setSelectedFile (v : option FileItem) (d : dashboard) : dashboard :=
  {| activeTab := activeTab d; files := files d; selectedFile := v;
     conversionResults := conversionResults d;
     selectedAiModel := selectedAiModel d; report := report d;
     showReport := showReport d; showHelp := showHelp d;
     customPrompt := customPrompt d; showWizard := showWizard d;
     wizardStep := wizardStep d |}.

Definition setConversionResults (v : list ConversionResult) (d : dashboard) : dashboard :=
  {| activeTab := activeTab d; files := files d; selectedFile := selectedFile d;
     conversionResults := v;
     selectedAiModel := selectedAiModel d; report := report d;
     showReport := showReport d; showHelp := showHelp d;
     customPrompt := customPrompt d; showWizard := showWizard d;
     wizardStep := wizardStep d |}.

Definition setReport (v : option ConversionReport) (d : dashboard) : dashboard :=
  {| activeTab := activeTab d; files := files d; selectedFile := selectedFile d;
     conversionResults := conversionResults d;
     selectedAiModel := selectedAiModel d; report := v;
     showReport := showReport d; showHelp := showHelp d;
     customPrompt := customPrompt d; showWizard := showWizard d;
     wizardStep := wizardStep d |}.

(** [{ ...selectedFile, convertedContent: newContent }] *)
Definition withConvertedContent (f : FileItem) (newContent : string) : FileItem :=
  {| fi_id := fi_id f; fi_name := fi_name f; fi_path := fi_path f;
     fi_type := fi_type f; fi_content := fi_content f;
     fi_conversionStatus := fi_conversionStatus f;
     fi_convertedContent := Some newContent;
     fi_errorMessage := fi_errorMessage f;
     fi_dataTypeMapping := fi_dataTypeMapping f;
     fi_issues := fi_issues f;
     fi_performanceMetrics := fi_performanceMetrics f |}.

(** [handleManualEdit(newContent)] *)
Definition handleManualEdit (newContent : string) (d : dashboard) : dashboard :=
  match selectedFile d with
  | Some sel =>
      let updatedFile := withConvertedContent sel newContent in
      let d1 :=
        setFiles (map (fun file => if bool_decide (fi_id file = fi_id sel)
                                   then updatedFile else file)
                      (files d)) d in
      setSelectedFile (Some updatedFile) d1
  | None => d
  end.

(** [handleCodeUploadWrapper(uploadedFiles)] *)
Definition handleCodeUploadWrapper (uploadedFiles : list FileItem)
    (d : dashboard) : M dashboard :=
  let* convertedFiles := handleCodeUpload toLowerCase uploadedFiles in
  ret (setActiveTab tab_conversion (setFiles convertedFiles d)).

(** [handleResetMigration()] *)
Definition handleResetMigration (d : dashboard) : M dashboard :=
  let d1 := setFiles [] d in
  let d2 := setConversionResults [] d1 in
  let d3 := setSelectedFile None d2 in
  let d4 := setReport None d3 in
  let d5 := setActiveTab tab_upload d4 in
  let* _ := handleCodeUpload toLowerCase [] in
  let* _ := showToast "Migration Reset"
              "The current migration has been reset. You can start a new conversion."
              false in
  ret d5.

End Dashboard.

Arguments activeTab {_ _} _.
Arguments files {_ _} _.
Arguments selectedFile {_ _} _.
Arguments conversionResults {_ _} _.
Arguments report {_ _} _.
Arguments handleManualEdit {_ _} _ _.
Arguments handleResetMigration _ {_ _} _.

(** ** The migration manager hook: the remaining callbacks *)

(** [createFailedFileMigration(fileName, originalMigrationId?)]; the
    second argument is not read. *)
Definition createFailedFileMigration (fileName : string)
    (originalMigrationId : option string) : M (option string) :=
  let* w := get in
  match user w with
  | None =>
      let* _ := showToast "Authentication Required"
                  "Please sign in to create migration" true in
      ret None
  | Some uid =>
      let* _ := modify (setIsCreatingMigration true) in
      let projectName := "Failed: " +:+ fileName in
      let* r := insert_migration uid projectName in
      let* result :=
        match error r with
        | Some e =>
            let* _ := consoleLog ("Error creating failed file migration: " +:+ e) in
            let* _ := showToast "Migration Error"
                        "Failed to create migration for failed file" true in
            ret None
        | None =>
            match data r with
            | Some row =>
                let* _ := showToast "Failed File Migration Created"
                            ("Created separate migration for failed file: "
                               +:+ fileName) false in
                ret (Some (m_id row))
            | None =>
                (* [data.id] on [null] raises; the [catch] block runs *)
                let* _ := consoleLog
                            "Error creating failed file migration: TypeError" in
                let* _ := showToast "Migration Error"
                            "An unexpected error occurred while creating failed file migration"
                            true in
                ret None
            end
        end in
      (* finally *)
      let* _ := modify (setIsCreatingMigration false) in
      ret result
  end.

(** ** The callback of one render

    [currentMigrationId] is a state cell of the hook.  A render reads it
    once, and [useCallback] (dependency list of line 112) builds
    [getOrCreateMigrationId] anew only for a render that sees another
    value: a callback obtained from one render goes on testing the value
    of that render, whatever [setCurrentMigrationId] has written since.
    [getOrCreateMigrationId_of captured] is the callback of a render in
    which the cell held [captured]; the clock and the store are read
    when the call runs, and so is the user, whom no callback changes.
    [getOrCreateMigrationId] above is the callback of the render that
    sees the cell as it is when the call is made. *)
Definition getOrCreateMigrationId_of (captured : option string)
  : M (option string) :=
  let* w := get in
  if truthy captured then ret captured
  else
    let twentyFourHoursAgo := now w - 24 * 60 * 60 * 1000 in
    let* r := select_recent_migration (user w) twentyFourHoursAgo in
    let recentMigration := data r in
    match recentMigration with
    | Some rm =>
        if truthy_string (mw_id rm) && has_files rm then
          let* _ := modify (setCurrentMigrationId (Some (mw_id rm))) in
          ret (Some (mw_id rm))
        else
          let* _ :=
            if truthy_string (mw_id rm) && no_files rm
            then let* _ := delete_migration_by_id (mw_id rm) in ret tt
            else ret tt in
          startNewMigration None
    | None => startNewMigration None
    end.

(** The object passed to [update] by [markFileAsDeployed]. *)
Definition deployedData (timestamp : Z) : gmap string json :=
  <["updated_at" := JTime timestamp]>
    (<["deployment_timestamp" := JTime timestamp]>
       (<["conversion_status" := JStr "deployed"]> ∅)).

(** [markFileAsDeployed(fileId)] *)
Definition markFileAsDeployed (fileId : string) : M bool :=
  let* w := get in
  let* r := update_file fileId (deployedData (now w)) in
  match error r with
  | Some e =>
      let* _ := consoleLog ("Error marking file as deployed: " +:+ e) in
      ret false
  | None => ret true
  end.

(** A row of [deployment_logs]. *)
Inductive deployment_status := Success | Failed.

Record deployment_log := {
  dl_id : string;
  dl_user_id : string;
  dl_migration_id : option string;
  dl_status : deployment_status;
  dl_lines_of_sql : Z;
  dl_file_count : Z;
  dl_error_message : option string;
  dl_created_at : Z
}.

(** One round trip that is not written to [requests]: that log lists
    the requests to [migrations] and [migration_files]. *)
Definition ticked (w : world) : world :=
  {| user := user w; currentMigrationId := currentMigrationId w;
     isCreatingMigration := isCreatingMigration w;
     migrations := migrations w; migration_files := migration_files w;
     now := now w; localTime := localTime w; backend := backend w;
     tick := S (tick w); requests := requests w; toasts := toasts w;
     console := console w |}.

(** [a || b] where both may be absent. *)
Definition or_option (a b : option string) : option string :=
  if truthy a then a else b.

(** [from('deployment_logs').insert({...}).select().single()] over the
    table [logs]. *)
Definition insert_deployment_log (uid : string) (mid : option string)
    (status : deployment_status) (lines count : Z) (msg : option string)
    (logs : list deployment_log)
  : M (response deployment_log * list deployment_log) :=
  fun w =>
    match backend w (tick w) with
    | Accept new_id =>
        let row := {| dl_id := new_id; dl_user_id := uid;
                      dl_migration_id := mid; dl_status := status;
                      dl_lines_of_sql := lines; dl_file_count := count;
                      dl_error_message := msg; dl_created_at := now w |} in
        ((resolved row, logs ++ [row]), ticked w)
    | Reject reason => ((refused reason, logs), ticked w)
    end.

(** [saveDeploymentLog(status, linesOfSql, fileCount, errorMessage?,
    migrationId?)]; the table is passed in and handed back. *)
Definition saveDeploymentLog (status : deployment_status)
    (linesOfSql fileCount : Z) (errorMessage migrationId : option string)
    (logs : list deployment_log)
  : M (option deployment_log * list deployment_log) :=
  let* w := get in
  match user w with
  | None => ret (None, logs)
  | Some uid =>
      let* rl := insert_deployment_log uid
                   (or_option migrationId (currentMigrationId w))
                   status linesOfSql fileCount
                   (or_option errorMessage None) logs in
      match error (fst rl) with
      | Some e =>
          let* _ := consoleLog ("Error saving deployment log: " +:+ e) in
          ret (None, snd rl)
      | None => ret (data (fst rl), snd rl)
      end
  end.

(** ** The dashboard controller: the remaining handlers *)

(** [array.findIndex(p)], [None] for [-1]. *)
Fixpoint findIndex {A} (p : A -> bool) (l : list A) : option nat :=
  match l with
  | [] => None
  | x :: rest => if p x then Some 0%nat else S <$> findIndex p rest
  end.

(** [object[key]]; an object lists each key once. *)
Fixpoint field (key : string) (fields : list (string * json)) : option json :=
  match fields with
  | [] => None
  | (k, v) :: rest => if String.eqb k key then Some v else field key rest
  end.

(** [i.id]: [None] when the read raises ([i] is [null]), [Some None]
    when it gives [undefined]. *)
Definition issue_id (i : json) : option (option json) :=
  match i with
  | JNull => None
  | JObj fields => Some (field "id" fields)
  | _ => Some None
  end.

(** [v !== issueId] for a string [issueId]. *)
Definition differs_from (issueId : string) (v : option json) : bool :=
  match v with
  | Some (JStr s) => negb (String.eqb s issueId)
  | _ => true
  end.

(** [issues.filter(i => i.id !== issueId)]; [None] when a read raises. *)
Fixpoint filterIssues (issueId : string) (issues : list json) : option (list json) :=
  match issues with
  | [] => Some []
  | i :: rest =>
      match issue_id i, filterIssues issueId rest with
      | Some v, Some kept =>
          Some (if differs_from issueId v then i :: kept else kept)
      | _, _ => None
      end
  end.

(** [{ ...f, issues: updatedIssues }] *)
Definition withIssues (f : FileItem) (updatedIssues : list json) : FileItem :=
  {| fi_id := fi_id f; fi_name := fi_name f; fi_path := fi_path f;
     fi_type := fi_type f; fi_content := fi_content f;
     fi_conversionStatus := fi_conversionStatus f;
     fi_convertedContent := fi_convertedContent f;
     fi_errorMessage := fi_errorMessage f;
     fi_dataTypeMapping := fi_dataTypeMapping f;
     fi_issues := Some updatedIssues;
     fi_performanceMetrics := fi_performanceMetrics f |}.

Section DashboardHandlers.

Variables ConversionResult ConversionReport : Type.

Local Abbreviation board := (dashboard ConversionResult ConversionReport).

Definition setWizardStep (v : nat) (d : board) : board :=
  {| activeTab := activeTab d; files := files d; selectedFile := selectedFile d;
     conversionResults := conversionResults d;
     selectedAiModel := selectedAiModel _ _ d; report := report d;
     showReport := showReport _ _ d; showHelp := showHelp _ _ d;
     customPrompt := customPrompt _ _ d; showWizard := showWizard _ _ d;
     wizardStep := v |}.

(** [handleFileSelect(file)] *)
Definition handleFileSelect (file : FileItem) (d : board) : board :=
  setSelectedFile _ _ (Some file) d.

(** The effect on [[files, selectedFile]] that picks a file to show. *)
Definition autoSelect (d : board) : board :=
  match files d, selectedFile d with
  | _ :: _, None =>
      let firstConvertedFile :=
        List.find (fun f => truthy (fi_convertedContent f)) (files d) in
      setSelectedFile _ _
        (match firstConvertedFile with
         | Some f => Some f
         | None => head (files d)
         end) d
  | _, _ => d
  end.

(** [handleDismissIssue(issueId)].  When a read of [i.id] raises, the
    handler stops before either state cell is written. *)
Definition handleDismissIssue (issueId : string) (d : board) : board :=
  match selectedFile d with
  | None => d
  | Some sel =>
      match findIndex (fun f => String.eqb (fi_id f) (fi_id sel)) (files d) with
      | None => d
      | Some fileIdx =>
          match (match fi_issues sel with
                 | Some issues => filterIssues issueId issues
                 | None => Some []
                 end) with
          | None => d
          | Some updatedIssues =>
              let d1 :=
                setFiles _ _
                  (imap (fun idx f => if (idx =? fileIdx)%nat
                                      then withIssues f updatedIssues else f)
                        (files d)) d in
              setSelectedFile _ _
                (match selectedFile d1 with
                 | Some prev =>
                     if String.eqb (fi_id prev) (fi_id sel)
                     then Some (withIssues prev updatedIssues)
                     else Some prev
                 | None => None
                 end) d1
          end
      end
  end.

(** The [Next] button of the wizard: [setWizardStep(s => Math.min(s + 1, 3))]. *)
Definition wizardNext (d : board) : board :=
  setWizardStep (Nat.min (wizardStep _ _ d + 1) 3) d.

End DashboardHandlers.

Arguments setWizardStep {_ _} _ _.
Arguments handleFileSelect {_ _} _ _.
Arguments autoSelect {_ _} _.
Arguments handleDismissIssue {_ _} _ _.
Arguments wizardNext {_ _} _.

(** ** Vocabulary of the statements *)


(** What an update may do to a stored row, given which optional
    arguments were passed. *)
Definition update_frame (cc em : option string) (dtm pm iss : option json)
    (r r' : migration_file) : Prop :=
  mf_id r' = mf_id r
  /\ mf_migration_id r' = mf_migration_id r
  /\ mf_file_name r' = mf_file_name r
  /\ mf_file_path r' = mf_file_path r
  /\ mf_file_type r' = mf_file_type r
  /\ mf_original_content r' = mf_original_content r
  /\ mf_deployment_timestamp r' = mf_deployment_timestamp r
  /\ (cc = None -> mf_converted_content r' = mf_converted_content r)
  /\ (em = None -> mf_error_message r' = mf_error_message r)
  /\ (dtm = None -> mf_data_type_mapping r' = mf_data_type_mapping r)
  /\ (pm = None -> mf_performance_metrics r' = mf_performance_metrics r)
  /\ (iss = None -> mf_issues r' = mf_issues r).

(** The four values of the [conversion_status] column. *)
Definition known_status (v : json) : Prop :=
  v = JStr "pending" \/ v = JStr "success" \/ v = JStr "failed" \/ v = JStr "deployed".

Definition summarize (rows : list json) : stats :=
  {| st_total := length rows;
     st_success := length (List.filter (status_is "success") rows);
     st_failed := length (List.filter (status_is "failed") rows);
     st_pending := length (List.filter (status_is "pending") rows);
     st_deployed := length (List.filter (status_is "deployed") rows) |}.

(** The insert request the upload loop sends for one item. *)
Definition insert_request (mid : string) (f : FileItem) : request :=
  InsertFile mid (fi_name f) (fi_path f) (fi_type f) (fi_content f).

(** The names of the file rows of a session. *)
Definition session_names (w : world) (mid : string) : list string :=
  map mf_file_name (files_of (migration_files w) mid).

(** The fields of the world the upload loop never writes. *)
Definition loop_frame (w w' : world) : Prop :=
  user w' = user w
  /\ currentMigrationId w' = currentMigrationId w
  /\ isCreatingMigration w' = isCreatingMigration w
  /\ migrations w' = migrations w
  /\ now w' = now w
  /\ localTime w' = localTime w
  /\ backend w' = backend w
  /\ toasts w' = toasts w.

(** One upload toast: the one [handleCodeUpload] ends with. *)
Definition uploaded_toast (n : nat) : toast :=
  {| title := "Files Uploaded";
     description := "Successfully uploaded " +:+ pretty n +:+ " file"
                      +:+ (if (1 <? n)%nat then "s" else EmptyString)
                      +:+ " to migration";
     destructive := false |}.

(** What [toPendingItem] keeps of an input file and what it resets. *)
Definition pending_copy (file item : FileItem) : Prop :=
  fi_id item = fi_id file
  /\ fi_name item = fi_name file
  /\ fi_path item = fi_name file
  /\ fi_type item = fi_type file
  /\ fi_content item = fi_content file
  /\ fi_conversionStatus item = pending
  /\ fi_convertedContent item = None
  /\ fi_errorMessage item = None
  /\ fi_performanceMetrics item = None
  /\ fi_dataTypeMapping item = Some []
  /\ fi_issues item = Some [].

Definition twentyFourHours : Z := 24 * 60 * 60 * 1000.

(** The row the recent-session query is about: the user's newest session
    created within the last 24 hours. *)
Definition recent_session (w : world) : option migration :=
  newest (recent_of (migrations w) (user w) (now w - twentyFourHours)).

(** The row [startNewMigration()] asks the store to create. *)
Definition new_session (w : world) (u id : string) : migration :=
  {| m_id := id; m_user_id := u;
     m_project_name := "Migration_" +:+ remove_colons (localTime w);
     m_created_at := now w |}.

Definition recent_query (w : world) : request :=
  SelectRecentMigration (user w) (now w - twentyFourHours).

Definition create_request (w : world) (u : string) : request :=
  InsertMigration u ("Migration_" +:+ remove_colons (localTime w)).

(** A session that cleanup is after: of user [u], created more than 24
    hours before now, without file rows. *)
Definition stale (w : world) (u : string) (m : migration) : Prop :=
  m_user_id m = u
  /\ m_created_at m < now w - twentyFourHours
  /\ length (files_of (migration_files w) (m_id m)) = 0%nat.

Global Instance stale_dec w u m : Decision (stale w u m).
Proof. unfold stale. apply _. Defined.

(** The ids [cleanupEmptyMigrations] asks the store to delete. *)
Definition migrationsToDelete (w : world) : list string :=
  map mw_id
    (List.filter no_files
       (map (with_files (migration_files w))
          (old_of (migrations w) (user w) (now w - twentyFourHours)))).

(** ** Sample data *)

(** Case folding of the ASCII letters, enough for the names below. *)
Definition lower_ascii (c : ascii) : ascii :=
  let n := nat_of_ascii c in
  if ((65 <=? n) && (n <=? 90))%nat then ascii_of_nat (n + 32) else c.

Fixpoint asciiLowerCase (s : string) : string :=
  match s with
  | EmptyString => EmptyString
  | String c rest => String (lower_ascii c) (asciiLowerCase rest)
  end.

Definition sample_item (name : string) : FileItem :=
  {| fi_id := name; fi_name := name; fi_path := "/tmp/" +:+ name;
     fi_type := procedure; fi_content := "select 1";
     fi_conversionStatus := success;
     fi_convertedContent := Some "SELECT 1 FROM dual";
     fi_errorMessage := Some "old";
     fi_dataTypeMapping := Some [JNum 1];
     fi_issues := None;
     fi_performanceMetrics := Some (JNum 2) |}.

Definition sample_row (id mid name : string) : migration_file :=
  {| mf_id := id; mf_migration_id := mid; mf_file_name := name;
     mf_file_path := name; mf_file_type := table;
     mf_original_content := "create table t (c int)";
     mf_conversion_status := JStr "success";
     mf_converted_content := JStr "CREATE TABLE t (c NUMBER)";
     mf_error_message := JNull; mf_data_type_mapping := JNull;
     mf_performance_metrics := JNull; mf_issues := JNull;
     mf_deployment_timestamp := JNull; mf_updated_at := JTime 5 |}.

Definition day : Z := 24 * 60 * 60 * 1000.

(** A signed-in user "u1", the clock at ten days, and a store that
    carries every request out. *)
Definition sample_world (cur : option string) (ms : list migration)
    (fs : list migration_file) (verdicts : nat -> reply) : world :=
  {| user := Some "u1"; currentMigrationId := cur; isCreatingMigration := false;
     migrations := ms; migration_files := fs;
     now := 10 * day; localTime := "13:45:07"; backend := verdicts;
     tick := 0; requests := []; toasts := []; console := [] |}.

Definition always_accept (n : nat) : reply := Accept ("id-" +:+ pretty n).

Definition reject_at (k n : nat) : reply :=
  if (n =? k)%nat then Reject "unavailable" else always_accept n.

Definition session (id uid : string) (created_at : Z) : migration :=
  {| m_id := id; m_user_id := uid; m_project_name := "Migration_090000";
     m_created_at := created_at |}.

(** The session "m1", created an hour before the sample clock. *)
Definition m1 : migration := session "m1" "u1" (10 * day - 3600000).

Definition signed_out (w : world) : world :=
  {| user := None; currentMigrationId := currentMigrationId w;
     isCreatingMigration := isCreatingMigration w;
     migrations := migrations w; migration_files := migration_files w;
     now := now w; localTime := localTime w; backend := backend w;
     tick := tick w; requests := requests w; toasts := toasts w;
     console := console w |}.

(** A dashboard in the middle of a conversion. *)
Definition busy_dashboard : dashboard unit unit :=
  {| activeTab := tab_conversion;
     files := [sample_item "orders.sql"; sample_item "users.sql"];
     selectedFile := Some (sample_item "orders.sql");
     conversionResults := [tt];
     selectedAiModel := "gemini-2.5-pro";
     report := Some tt;
     showReport := false; showHelp := false; customPrompt := EmptyString;
     showWizard := false; wizardStep := 0 |}.

(** An old empty session, an old session with a file, a young empty
    session, and somebody else's old empty session. *)
Definition cleanup_store : list migration :=
  [session "old-empty" "u1" (8 * day);
   session "old-full" "u1" (8 * day);
   session "young-empty" "u1" (10 * day - 3600000);
   session "theirs" "u2" (8 * day)].

(** ** Vocabulary of the further statements *)

(** Whether a text contains a colon. *)
Fixpoint has_colon (s : string) : bool :=
  match s with
  | EmptyString => false
  | String c rest => Ascii.eqb c ":"%char || has_colon rest
  end.

(** The name [startNewMigration(projectName)] gives the new session. *)
Definition project_name_for (projectName : option string) (w : world) : string :=
  or_else projectName ("Migration_" +:+ remove_colons (localTime w)).

(** The row an accepted [createFailedFileMigration(fileName)] adds. *)
Definition failed_session (w : world) (u fileName id : string) : migration :=
  {| m_id := id; m_user_id := u; m_project_name := "Failed: " +:+ fileName;
     m_created_at := now w |}.

(** The world at a moment when the clock reads [t] and the local time
    of day is [lt]: between two calls only the clock moves. *)
Definition clock_at (t : Z) (lt : string) (w : world) : world :=
  {| user := user w; currentMigrationId := currentMigrationId w;
     isCreatingMigration := isCreatingMigration w;
     migrations := migrations w; migration_files := migration_files w;
     now := t; localTime := lt; backend := backend w;
     tick := tick w; requests := requests w; toasts := toasts w;
     console := console w |}.

(** The row an accepted [startNewMigration(projectName)] adds. *)
Definition started_session (projectName : option string) (w : world)
    (u id : string) : migration :=
  {| m_id := id; m_user_id := u;
     m_project_name := project_name_for projectName w;
     m_created_at := now w |}.

(** A store that carries out every request. *)
Definition always_accepts (w : world) : Prop :=
  forall n, exists y, backend w n = Accept y.

(** A file row as the upload loop writes it for one of [items]. *)
Definition uploaded_row (mid : string) (items : list FileItem)
    (r : migration_file) : Prop :=
  mf_migration_id r = mid
  /\ mf_conversion_status r = JStr "pending"
  /\ exists f, f ∈ items
       /\ mf_file_name r = fi_name f
       /\ mf_file_path r = fi_path f
       /\ mf_file_type r = fi_type f
       /\ mf_original_content r = fi_content f.

(** The toasts of the two ways an upload is turned away. *)
Definition sign_in_toast : toast :=
  {| title := "Authentication Required";
     description := "Please sign in to upload files";
     destructive := true |}.

Definition no_session_toast : toast :=
  {| title := "Upload Failed";
     description := "No migration ID available";
     destructive := true |}.

(** How [updateFileStatus] changes a row it addresses. *)
Definition status_written (t : Z) (status : conversion_status)
    (cc em : option string) (dtm pm iss : option json)
    (r r' : migration_file) : Prop :=
  mf_conversion_status r' = JStr (status_text status)
  /\ mf_updated_at r' = JTime t
  /\ mf_converted_content r' = default (mf_converted_content r) (JStr <$> cc)
  /\ mf_error_message r' = default (mf_error_message r) (JStr <$> em)
  /\ mf_data_type_mapping r' = default (mf_data_type_mapping r) dtm
  /\ mf_performance_metrics r' = default (mf_performance_metrics r) pm
  /\ mf_issues r' = default (mf_issues r) iss
  /\ mf_deployment_timestamp r' = mf_deployment_timestamp r
  /\ mf_id r' = mf_id r
  /\ mf_migration_id r' = mf_migration_id r
  /\ mf_file_name r' = mf_file_name r
  /\ mf_file_path r' = mf_file_path r
  /\ mf_file_type r' = mf_file_type r
  /\ mf_original_content r' = mf_original_content r.

(** How [markFileAsDeployed] changes a row it addresses. *)
Definition marked_deployed (t : Z) (r r' : migration_file) : Prop :=
  mf_conversion_status r' = JStr "deployed"
  /\ mf_deployment_timestamp r' = JTime t
  /\ mf_updated_at r' = JTime t
  /\ mf_converted_content r' = mf_converted_content r
  /\ mf_error_message r' = mf_error_message r
  /\ mf_data_type_mapping r' = mf_data_type_mapping r
  /\ mf_performance_metrics r' = mf_performance_metrics r
  /\ mf_issues r' = mf_issues r
  /\ mf_id r' = mf_id r
  /\ mf_migration_id r' = mf_migration_id r
  /\ mf_file_name r' = mf_file_name r
  /\ mf_file_path r' = mf_file_path r
  /\ mf_file_type r' = mf_file_type r
  /\ mf_original_content r' = mf_original_content r.

(** The sum of the four counts of a summary. *)
Definition counted (s : stats) : nat :=
  (st_success s + st_failed s + st_pending s + st_deployed s)%nat.

Definition no_stats : stats :=
  {| st_total := 0; st_success := 0; st_failed := 0;
     st_pending := 0; st_deployed := 0 |}.

(** The query [cleanupEmptyMigrations] sends. *)
Definition old_query (w : world) : request :=
  SelectOldMigrations (user w) (now w - twentyFourHours).

(** The issue carries the id [issueId]. *)
Definition has_id (issueId : string) (i : json) : Prop :=
  issue_id i = Some (Some (JStr issueId)).

(** The toast [handleResetMigration] ends with. *)
Definition reset_toast : toast :=
  {| title := "Migration Reset";
     description :=
       "The current migration has been reset. You can start a new conversion.";
     destructive := false |}.

(** A file whose converted content is a non-empty text. *)
Definition converted (f : FileItem) : bool := truthy (fi_convertedContent f).

(** ** Proof steps *)

(** Unfolds the monadic plumbing of one callback. *)
Ltac run :=
  unfold bind, ret, get, modify, await, showToast, consoleLog; simpl.

(** Splits on the two tests of the slow path. *)
Ltac split_recent :=
  match goal with
  | |- context [truthy_string ?i && has_files ?r] =>
      destruct (truthy_string i && has_files r); simpl
  | |- context [truthy_string ?i && no_files ?r] =>
      destruct (truthy_string i && no_files r); simpl
  end.

(** * Properties *)

Lemma truthy_Some (id : string) :
  id <> EmptyString -> truthy (Some id) = true.
Proof. destruct id; [congruence | reflexivity]. Qed.

(** ** getOrCreateMigrationId: the fast path *)



(** ** getOrCreateMigrationId: the slow path *)

(** An id returned by a call is the current id afterwards, so the calls
    that follow take the fast path whenever that id is non-empty. *)
Lemma startNewMigration_result_is_current (p : option string) (w w' : world)
    (id : string) :
  startNewMigration p w = (Some id, w') -> currentMigrationId w' = Some id.
Proof.
  unfold startNewMigration, insert_migration. run.
  destruct (user w) as [uid|]; simpl; [| discriminate].
  destruct (backend w (tick w)) as [new_id|msg]; simpl; [| discriminate].
  intros H. inversion H; subst. reflexivity.
Qed.

Lemma startNewMigration_keeps_files (p : option string) (w : world) :
  migration_files (snd (startNewMigration p w)) = migration_files w.
Proof.
  unfold startNewMigration, insert_migration. run.
  destruct (user w) as [uid|]; simpl; [| reflexivity].
  destruct (backend w (tick w)) as [new_id|msg]; reflexivity.
Qed.

Lemma getOrCreateMigrationId_result_is_current (w w' : world) (id : string) :
  getOrCreateMigrationId w = (Some id, w') -> currentMigrationId w' = Some id.
Proof.
  unfold getOrCreateMigrationId, select_recent_migration, delete_migration_by_id.
  unfold bind at 1, get at 1.
  destruct (truthy (currentMigrationId w)) eqn:Hcur.
  - unfold ret. intros H. inversion H; subst. congruence.
  - unfold bind, ret, get, modify, await. simpl.
    destruct (backend w (tick w)) as [x|msg]; simpl.
    + destruct (newest _) as [m|]; simpl.
      * split_recent.
        -- intros H. inversion H; subst. reflexivity.
        -- split_recent; [destruct (backend w (S (tick w))); simpl |];
             apply startNewMigration_result_is_current.
      * apply startNewMigration_result_is_current.
    + apply startNewMigration_result_is_current.
Qed.

(** No path of [getOrCreateMigrationId] writes a file row. *)
Lemma getOrCreateMigrationId_keeps_files (w : world) :
  migration_files (snd (getOrCreateMigrationId w)) = migration_files w.
Proof.
  unfold getOrCreateMigrationId, select_recent_migration, delete_migration_by_id.
  unfold bind at 1, get at 1.
  destruct (truthy (currentMigrationId w)) eqn:Hcur; [reflexivity |].
  unfold bind, ret, get, modify, await. simpl.
  destruct (backend w (tick w)) as [x|msg]; simpl.
  - destruct (newest _) as [m|]; simpl.
    + split_recent; [reflexivity |].
      split_recent; [destruct (backend w (S (tick w))); simpl |];
        rewrite startNewMigration_keeps_files; reflexivity.
    + rewrite startNewMigration_keeps_files. reflexivity.
  - rewrite startNewMigration_keeps_files. reflexivity.
Qed.

Lemma newest_spec (ms : list migration) :
  match newest ms with
  | Some m => m ∈ ms /\ forall m', m' ∈ ms -> m_created_at m' <= m_created_at m
  | None => ms = []
  end.
Proof.
  induction ms as [|m rest IH]; simpl; [reflexivity |].
  destruct (newest rest) as [m'|].
  - destruct IH as [Hin Hmax].
    destruct (Z.gtb_spec (m_created_at m') (m_created_at m)) as [Hgt|Hle].
    + split; [right; exact Hin |].
      intros m0 Hm0. apply elem_of_cons in Hm0 as [-> | Hm0]; [lia | auto].
    + split; [left |].
      intros m0 Hm0. apply elem_of_cons in Hm0 as [-> | Hm0]; [lia |].
      specialize (Hmax m0 Hm0). lia.
  - subst rest. split; [left |].
    intros m0 Hm0. apply elem_of_cons in Hm0 as [-> | Hm0]; [lia |].
    inversion Hm0.
Qed.

(** [recent_session] is the newest of the user's sessions of the last 24
    hours, and is absent exactly when the user has none. *)
Lemma recent_session_spec (w : world) (u : string) :
  user w = Some u ->
  match recent_session w with
  | Some m =>
      m ∈ migrations w /\ m_user_id m = u
      /\ now w - twentyFourHours <= m_created_at m
      /\ forall m', m' ∈ migrations w -> m_user_id m' = u ->
           now w - twentyFourHours <= m_created_at m' ->
           m_created_at m' <= m_created_at m
  | None =>
      forall m', m' ∈ migrations w -> m_user_id m' = u ->
        m_created_at m' < now w - twentyFourHours
  end.
Proof.
  intros Hu. unfold recent_session, recent_of. rewrite Hu.
  pose proof (newest_spec
    (filter (fun m => owned_by (Some u) m = true
                      /\ now w - twentyFourHours <= m_created_at m)
       (migrations w))) as Hn.
  destruct (newest _) as [m|].
  - destruct Hn as [Hin Hmax].
    apply list_elem_of_filter in Hin as [[Hown Hnew] Hin].
    unfold owned_by in Hown. apply bool_decide_eq_true in Hown.
    split_and!; [exact Hin | congruence | exact Hnew |].
    intros m' Hin' Hu' Hnew'. apply Hmax, list_elem_of_filter.
    split; [| exact Hin']. split; [| exact Hnew'].
    unfold owned_by. apply bool_decide_eq_true. congruence.
  - intros m' Hin' Hu'.
    destruct (Z.lt_ge_cases (m_created_at m') (now w - twentyFourHours))
      as [Hlt|Hge]; [exact Hlt | exfalso].
    assert (Hm' : m' ∈ filter (fun m => owned_by (Some u) m = true
                                 /\ now w - twentyFourHours <= m_created_at m)
                         (migrations w)).
    { apply list_elem_of_filter. split; [| exact Hin']. split; [| exact Hge].
      unfold owned_by. apply bool_decide_eq_true. congruence. }
    rewrite Hn in Hm'. inversion Hm'.
Qed.

(** C2 (amended). A call by a signed-in user with no current session id
    whose recent-session query is answered, over a store whose session
    ids are non-empty.  If the user's newest session of the last 24 hours
    has a file row, it is returned and made current and nothing is
    written.  If it has none, a delete request for it is sent, which
    removes it when the store carries it out, and a new session is then
    requested.  If there is no such session, a new session is requested
    right away.  A requested session that the store accepts is the one
    new row, and its id is returned and made current; when the store
    rejects it, no row is created and [null] is returned. *)
Theorem getOrCreateMigrationId_cases (w : world) (u x : string) :
  truthy (currentMigrationId w) = false ->
  user w = Some u ->
  backend w (tick w) = Accept x ->
  Forall (fun m => m_id m <> EmptyString) (migrations w) ->
  let '(r, w') := getOrCreateMigrationId w in
  migration_files w' = migration_files w
  /\ match recent_session w with
     | Some m =>
         match files_of (migration_files w) (m_id m) with
         | _ :: _ =>
             r = Some (m_id m)
             /\ currentMigrationId w' = Some (m_id m)
             /\ migrations w' = migrations w
             /\ requests w' = requests w ++ [recent_query w]
         | [] =>
             let remaining :=
               match backend w (S (tick w)) with
               | Accept _ => filter (fun m' => m_id m' <> m_id m) (migrations w)
               | Reject _ => migrations w
               end in
             requests w' = requests w ++ [recent_query w;
                                          DeleteMigrationById (m_id m);
                                          create_request w u]
             /\ match backend w (S (S (tick w))) with
                | Accept new_id =>
                    r = Some new_id
                    /\ currentMigrationId w' = Some new_id
                    /\ migrations w' = remaining ++ [new_session w u new_id]
                | Reject _ =>
                    r = None
                    /\ currentMigrationId w' = currentMigrationId w
                    /\ migrations w' = remaining
                end
         end
     | None =>
         requests w' = requests w ++ [recent_query w; create_request w u]
         /\ match backend w (S (tick w)) with
            | Accept new_id =>
                r = Some new_id
                /\ currentMigrationId w' = Some new_id
                /\ migrations w' = migrations w ++ [new_session w u new_id]
            | Reject _ =>
                r = None
                /\ currentMigrationId w' = currentMigrationId w
                /\ migrations w' = migrations w
            end
     end.
Proof.
  intros Hcur Hu Hsel Hids.
  pose proof (recent_session_spec w u Hu) as Hspec.
  unfold getOrCreateMigrationId, select_recent_migration. run.
  rewrite Hcur. simpl. rewrite Hsel. simpl.
  unfold recent_session, recent_query, twentyFourHours in *.
  destruct (newest _) as [m|] eqn:Hnew; simpl.
  - destruct Hspec as (Hin & _).
    rewrite Forall_forall in Hids. specialize (Hids m Hin).
    assert (Htr : truthy_string (m_id m) = true)
      by (destruct (m_id m); [congruence | reflexivity]).
    rewrite Htr. unfold has_files, no_files. simpl.
    destruct (files_of (migration_files w) (m_id m)) as [|f fs]; simpl.
    + unfold delete_migration_by_id, startNewMigration, insert_migration. run.
      destruct (backend w (S (tick w))) as [y|msg]; simpl; rewrite Hu; simpl;
        destruct (backend w (S (S (tick w)))) as [new_id|msg']; simpl;
        rewrite <- ?app_assoc; simpl; auto.
    + rewrite <- ?app_assoc. auto.
  - unfold startNewMigration, insert_migration. run. rewrite Hu. simpl.
    destruct (backend w (S (tick w))) as [new_id|msg]; simpl;
      rewrite <- ?app_assoc; simpl; auto.
Qed.

(** ** handleCodeUpload *)

Lemma loop_frame_refl w : loop_frame w w.
Proof. unfold loop_frame. repeat split; reflexivity. Qed.

Lemma loop_frame_trans w1 w2 w3 :
  loop_frame w1 w2 -> loop_frame w2 w3 -> loop_frame w1 w3.
Proof.
  unfold loop_frame.
  intros (?&?&?&?&?&?&?&?) (?&?&?&?&?&?&?&?).
  repeat split; congruence.
Qed.

Section UploadLoop.

Variable toLowerCase : string -> string.
Variable mid : string.

Lemma saveFiles_spec (items : list FileItem) :
  forall (seen : gset string) (w : world) (seen' : gset string) (w' : world),
  saveFiles toLowerCase mid items seen w = (seen', w') ->
  exists (added : list migration_file) (sent_items : list FileItem),
    migration_files w' = migration_files w ++ added
    /\ requests w' = requests w ++ map (insert_request mid) sent_items
    /\ tick w' = (tick w + length sent_items)%nat
    /\ loop_frame w w'
    /\ sublist sent_items items
    /\ seen ⊆ seen'
    /\ Forall (fun f => toLowerCase (fi_name f) ∉ seen) sent_items
    /\ Forall (fun r => mf_migration_id r = mid
                        /\ exists f, f ∈ sent_items /\ mf_file_name r = fi_name f)
         added
    /\ (forall i f y, sent_items !! i = Some f ->
          backend w (tick w + i)%nat = Accept y ->
          toLowerCase (fi_name f) ∈ seen')
    /\ (forall i j f g y, (i < j)%nat ->
          sent_items !! i = Some f -> sent_items !! j = Some g ->
          backend w (tick w + i)%nat = Accept y ->
          toLowerCase (fi_name f) <> toLowerCase (fi_name g)).
Proof.
  induction items as [|file rest IH]; intros seen w seen' w' Hrun; simpl in Hrun.
  - inversion Hrun; subst. exists [], []. simpl.
    rewrite !app_nil_r, Nat.add_0_r.
    split_and!.
    + reflexivity.
    + reflexivity.
    + reflexivity.
    + apply loop_frame_refl.
    + constructor.
    + reflexivity.
    + constructor.
    + constructor.
    + intros i f y Hi. rewrite lookup_nil in Hi. discriminate.
    + intros i j f g y _ Hi. rewrite lookup_nil in Hi. discriminate.
  - case_bool_decide as Hin.
    + (* the name is known: skipped *)
      unfold bind, consoleLog, modify in Hrun.
      apply IH in Hrun
        as (added & sent_items & Hf & Hr & Ht & Hfr & Hsub & HS & Hns & Had & Hacc & Hno).
      exists added, sent_items.
      split_and!.
      * exact Hf.
      * exact Hr.
      * exact Ht.
      * exact Hfr.
      * apply sublist_cons, Hsub.
      * exact HS.
      * exact Hns.
      * exact Had.
      * exact Hacc.
      * exact Hno.
    + (* the name is new: one insert request *)
      unfold insert_file in Hrun.
      unfold bind, await, get, modify, ret, consoleLog in Hrun.
      simpl in Hrun.
      destruct (backend w (tick w)) as [new_id|msg] eqn:Hv; simpl in Hrun.
      * apply IH in Hrun
          as (added & sent_items & Hf & Hr & Ht & Hfr & Hsub & HS & Hns & Had & Hacc & Hno).
        simpl in Hf, Hr, Ht, Hacc, Hno.
        eexists (_ :: added), (file :: sent_items).
        split_and!.
        -- rewrite Hf, <- app_assoc. reflexivity.
        -- rewrite Hr, <- app_assoc. reflexivity.
        -- rewrite Ht. simpl. lia.
        -- exact Hfr.
        -- apply sublist_skip, Hsub.
        -- set_solver.
        -- constructor; [exact Hin |].
           eapply Forall_impl; [exact Hns |]. simpl. set_solver.
        -- constructor.
           ++ simpl. split; [reflexivity |]. exists file. split; [left | reflexivity].
           ++ eapply Forall_impl; [exact Had |]. simpl.
              intros r (Hm & f & Hfin & Hname). split; [exact Hm |].
              exists f. split; [right; exact Hfin | exact Hname].
        -- intros [|i] f y Hi Hy; simpl in Hi.
           ++ inversion Hi; subst. apply HS. set_solver.
           ++ eapply Hacc; [exact Hi |].
              rewrite Nat.add_succ_r in Hy. exact Hy.
        -- intros [|i] [|j] f g y Hij Hi Hj Hy; simpl in Hi, Hj; try lia.
           ++ inversion Hi; subst.
              apply list_elem_of_lookup_2 in Hj.
              rewrite Forall_forall in Hns. specialize (Hns g Hj).
              intros Heq. apply Hns. rewrite <- Heq. set_solver.
           ++ eapply (Hno i j f g y); [lia | exact Hi | exact Hj |].
              rewrite Nat.add_succ_r in Hy. exact Hy.
      * apply IH in Hrun
          as (added & sent_items & Hf & Hr & Ht & Hfr & Hsub & HS & Hns & Had & Hacc & Hno).
        simpl in Hf, Hr, Ht, Hacc, Hno.
        exists added, (file :: sent_items).
        split_and!.
        -- exact Hf.
        -- rewrite Hr, <- app_assoc. reflexivity.
        -- rewrite Ht. simpl. lia.
        -- exact Hfr.
        -- apply sublist_skip, Hsub.
        -- exact HS.
        -- constructor; [exact Hin | exact Hns].
        -- eapply Forall_impl; [exact Had |]. simpl.
           intros r (Hm & f & Hfin & Hname). split; [exact Hm |].
           exists f. split; [right; exact Hfin | exact Hname].
        -- intros [|i] f y Hi Hy; simpl in Hi.
           ++ rewrite Nat.add_0_r in Hy. congruence.
           ++ eapply Hacc; [exact Hi |].
              rewrite Nat.add_succ_r in Hy. exact Hy.
        -- intros [|i] [|j] f g y Hij Hi Hj Hy; simpl in Hi, Hj; try lia.
           ++ rewrite Nat.add_0_r in Hy. congruence.
           ++ eapply (Hno i j f g y); [lia | exact Hi | exact Hj |].
              rewrite Nat.add_succ_r in Hy. exact Hy.
Qed.

End UploadLoop.

Section Upload.

Variable toLowerCase : string -> string.

(** With a signed-in user and a session id in hand, an upload is the name
    query, the loop, and the closing toast. *)
Lemma handleCodeUpload_steps (w w1 : world) (u mid : string)
    (uploadedFiles : list FileItem) :
  user w = Some u ->
  getOrCreateMigrationId w = (Some mid, w1) ->
  mid <> EmptyString ->
  handleCodeUpload toLowerCase uploadedFiles w
  = (let (r, w2) := select_file_names mid w1 in
     let (_, w3) :=
       saveFiles toLowerCase mid (map toPendingItem uploadedFiles)
         (list_to_set (map toLowerCase (default [] (data r)))) w2 in
     (map toPendingItem uploadedFiles,
      push_toast (uploaded_toast (length (map toPendingItem uploadedFiles))) w3)).
Proof.
  intros Hu Hget Hmid.
  unfold handleCodeUpload, bind, get. simpl. rewrite Hu, Hget.
  rewrite (truthy_Some mid Hmid). simpl.
  destruct (select_file_names mid w1) as [r w2].
  destruct (saveFiles _ _ _ _ w2) as [seen w3].
  reflexivity.
Qed.

(** C5. For a signed-in user and an obtainable session id, the call
    returns one item per input file, in order, each a copy of the input
    with the status forced to [pending], the path set to the name and the
    auxiliary fields cleared; and it ends with the success toast.  This
    holds for every sequence of verdicts of the store, hence however
    many of the inserts are rejected. *)
Theorem handleCodeUpload_returns_all (w w1 : world) (u mid : string)
    (uploadedFiles : list FileItem) :
  user w = Some u ->
  getOrCreateMigrationId w = (Some mid, w1) ->
  mid <> EmptyString ->
  let '(result, w') := handleCodeUpload toLowerCase uploadedFiles w in
  result = map toPendingItem uploadedFiles
  /\ Forall2 pending_copy uploadedFiles result
  /\ toasts w' = toasts w1 ++ [uploaded_toast (length uploadedFiles)]
  /\ Forall (fun t => destructive t = false) (drop (length (toasts w1)) (toasts w')).
Proof.
  intros Hu Hget Hmid.
  rewrite (handleCodeUpload_steps w w1 u mid uploadedFiles Hu Hget Hmid).
  assert (Hsel : toasts (snd (select_file_names mid w1)) = toasts w1).
  { unfold select_file_names. run. destruct (backend w1 (tick w1)); reflexivity. }
  destruct (select_file_names mid w1) as [r w2]. simpl in Hsel.
  destruct (saveFiles _ _ _ _ w2) as [seen w3] eqn:Hloop.
  apply saveFiles_spec in Hloop as (_ & _ & _ & _ & _ & Hfr & _).
  destruct Hfr as (_ & _ & _ & _ & _ & _ & _ & Htoasts).
  assert (Hfinal : toasts (push_toast (uploaded_toast
                     (length (map toPendingItem uploadedFiles))) w3)
                   = toasts w1 ++ [uploaded_toast (length uploadedFiles)]).
  { simpl. rewrite Htoasts, Hsel, length_map. reflexivity. }
  split_and!.
  - reflexivity.
  - apply Forall2_fmap_r, Forall_Forall2_diag, Forall_forall.
    intros file _. unfold pending_copy. simpl. split_and!; reflexivity.
  - exact Hfinal.
  - rewrite Hfinal, drop_app_length. repeat constructor.
Qed.

(** C1 (amended). For a signed-in user with a session id in hand whose
    name query is answered: the rows already stored are kept as they are;
    no insert is sent and no row is created under a name the session
    already has up to case; and once an insert has been accepted no later
    insert of the batch is sent for a name equal to it up to case - the
    later file is skipped. *)
Theorem handleCodeUpload_skips_known_names (w w1 : world) (u mid x : string)
    (uploadedFiles : list FileItem) :
  user w = Some u ->
  getOrCreateMigrationId w = (Some mid, w1) ->
  mid <> EmptyString ->
  backend w1 (tick w1) = Accept x ->
  let w' := snd (handleCodeUpload toLowerCase uploadedFiles w) in
  let known := map toLowerCase (session_names w1 mid) in
  exists (added : list migration_file) (sent_items : list FileItem),
    migration_files w' = migration_files w ++ added
    /\ migrations w' = migrations w1
    /\ requests w'
       = requests w1 ++ (SelectFileNames mid :: map (insert_request mid) sent_items)
    /\ sublist sent_items (map toPendingItem uploadedFiles)
    /\ Forall (fun f => toLowerCase (fi_name f) ∉ known) sent_items
    /\ Forall (fun r => mf_migration_id r = mid
                        /\ (toLowerCase (mf_file_name r) ∉ known)
                        /\ exists f, f ∈ sent_items /\ mf_file_name r = fi_name f)
         added
    /\ (forall i j f g y, (i < j)%nat ->
          sent_items !! i = Some f -> sent_items !! j = Some g ->
          backend w1 (S (tick w1) + i)%nat = Accept y ->
          toLowerCase (fi_name f) <> toLowerCase (fi_name g)).
Proof.
  intros Hu Hget Hmid Hsel w' known. subst w'.
  rewrite (handleCodeUpload_steps w w1 u mid uploadedFiles Hu Hget Hmid).
  unfold select_file_names, bind, await, get, ret. simpl. rewrite Hsel. simpl.
  fold (session_names w1 mid). fold known.
  destruct (saveFiles _ _ _ _ _) as [seen w3] eqn:Hloop.
  apply saveFiles_spec in Hloop
    as (added & sent_items & Hf & Hr & Ht & Hfr & Hsub & HS & Hns & Had & Hacc & Hno).
  simpl in Hf, Hr, Ht, Hno.
  destruct Hfr as (_ & _ & _ & Hmig & _ & _ & _ & _). simpl in Hmig.
  assert (Hns' : Forall (fun f => toLowerCase (fi_name f) ∉ known) sent_items).
  { eapply Forall_impl; [exact Hns |]. simpl.
    intros f Hf' Hk. apply Hf'. apply elem_of_list_to_set. exact Hk. }
  assert (Hkeep : migration_files w1 = migration_files w).
  { rewrite <- (getOrCreateMigrationId_keeps_files w), Hget. reflexivity. }
  exists added, sent_items. simpl. split_and!.
  - rewrite <- Hkeep. exact Hf.
  - exact Hmig.
  - rewrite Hr, <- app_assoc. reflexivity.
  - exact Hsub.
  - exact Hns'.
  - eapply Forall_impl; [exact Had |]. simpl.
    intros r (Hm & f & Hfin & Hname). split_and!.
    + exact Hm.
    + rewrite Hname. rewrite Forall_forall in Hns'. apply Hns', Hfin.
    + exists f. split; assumption.
  - exact Hno.
Qed.

End Upload.

(** ** updateFileStatus *)

Lemma updateData_lookup (t : Z) (status : conversion_status)
    (cc em : option string) (dtm pm iss : option json) :
  let payload := updateData t status cc em dtm pm iss in
  payload !! "conversion_status" = Some (JStr (status_text status))
  /\ payload !! "updated_at" = Some (JTime t)
  /\ payload !! "converted_content" = JStr <$> cc
  /\ payload !! "error_message" = JStr <$> em
  /\ payload !! "data_type_mapping" = dtm
  /\ payload !! "performance_metrics" = pm
  /\ payload !! "issues" = iss
  /\ payload !! "deployment_timestamp" = None.
Proof.
  unfold updateData.
  destruct cc, em, dtm, pm, iss; simpl; repeat split; by simplify_map_eq.
Qed.

Lemma update_frame_refl cc em dtm pm iss r : update_frame cc em dtm pm iss r r.
Proof. unfold update_frame. repeat split; reflexivity. Qed.

Lemma apply_update_frame (t : Z) (status : conversion_status)
    (cc em : option string) (dtm pm iss : option json) (r : migration_file) :
  update_frame cc em dtm pm iss r
    (apply_update (updateData t status cc em dtm pm iss) r).
Proof.
  destruct (updateData_lookup t status cc em dtm pm iss)
    as (_ & _ & Hcc & Hem & Hdtm & Hpm & Hiss & Hdep).
  unfold update_frame, apply_update, column; simpl.
  rewrite Hcc, Hem, Hdtm, Hpm, Hiss, Hdep.
  repeat split; try reflexivity; intros ->; reflexivity.
Qed.

Lemma dom_insert_within (k : string) (v : json) (m : gmap string json)
    (X : gset string) :
  k ∈ X -> dom m ⊆ X -> dom (<[k:=v]> m) ⊆ X.
Proof.
  intros Hk Hm j Hj. rewrite dom_insert_L in Hj.
  apply elem_of_union in Hj as [Hj | Hj]; [| apply Hm, Hj].
  apply elem_of_singleton in Hj. subst j. exact Hk.
Qed.

Lemma updateData_dom (t : Z) (status : conversion_status)
    (cc em : option string) (dtm pm iss : option json) :
  dom (updateData t status cc em dtm pm iss)
  ⊆ {[ "conversion_status"; "updated_at"; "converted_content";
       "error_message"; "data_type_mapping";
       "performance_metrics"; "issues" ]}.
Proof.
  unfold updateData.
  repeat first
    [ apply dom_insert_within; [set_solver |]
    | match goal with
      | |- dom (match ?o with Some _ => _ | None => _ end) ⊆ _ => destruct o
      end ].
  all: rewrite dom_empty_L; apply empty_subseteq.
Qed.

(** C6. The payload sent by [updateFileStatus] always carries the status
    and the timestamp; it carries each optional field exactly when the
    argument was passed (and then with the passed value), and no other
    field.  Whatever the store decides, every stored row keeps the value
    of each column whose argument was omitted. *)
Theorem updateFileStatus_partial_update (w : world) (fileId : string)
    (status : conversion_status) (convertedContent errorMessage : option string)
    (dataTypeMapping performanceMetrics issues : option json) :
  let payload := updateData (now w) status convertedContent errorMessage
                   dataTypeMapping performanceMetrics issues in
  let w' := snd (updateFileStatus fileId status convertedContent errorMessage
                   dataTypeMapping performanceMetrics issues w) in
  requests w' = requests w ++ [UpdateFile fileId payload]
  /\ payload !! "conversion_status" = Some (JStr (status_text status))
  /\ payload !! "updated_at" = Some (JTime (now w))
  /\ (is_Some (payload !! "converted_content") <-> is_Some convertedContent)
  /\ (is_Some (payload !! "error_message") <-> is_Some errorMessage)
  /\ (is_Some (payload !! "data_type_mapping") <-> is_Some dataTypeMapping)
  /\ (is_Some (payload !! "performance_metrics") <-> is_Some performanceMetrics)
  /\ (is_Some (payload !! "issues") <-> is_Some issues)
  /\ payload !! "converted_content" = JStr <$> convertedContent
  /\ payload !! "error_message" = JStr <$> errorMessage
  /\ payload !! "data_type_mapping" = dataTypeMapping
  /\ payload !! "performance_metrics" = performanceMetrics
  /\ payload !! "issues" = issues
  /\ dom payload ⊆ {[ "conversion_status"; "updated_at"; "converted_content";
                      "error_message"; "data_type_mapping";
                      "performance_metrics"; "issues" ]}
  /\ Forall2 (update_frame convertedContent errorMessage dataTypeMapping
                performanceMetrics issues)
       (migration_files w) (migration_files w').
Proof.
  intros payload w'.
  destruct (updateData_lookup (now w) status convertedContent errorMessage
              dataTypeMapping performanceMetrics issues)
    as (Hst & Hup & Hcc & Hem & Hdtm & Hpm & Hiss & _).
  fold payload in Hst, Hup, Hcc, Hem, Hdtm, Hpm, Hiss.
  assert (Hreq : requests w' = requests w ++ [UpdateFile fileId payload]).
  { subst w'. unfold updateFileStatus, update_file. run.
    destruct (backend w (tick w)); reflexivity. }
  assert (Hframe : Forall2 (update_frame convertedContent errorMessage
                              dataTypeMapping performanceMetrics issues)
                     (migration_files w) (migration_files w')).
  { subst w'. unfold updateFileStatus, update_file. run.
    destruct (backend w (tick w)); simpl.
    - apply Forall2_fmap_r, Forall_Forall2_diag, Forall_forall.
      intros r _. unfold compose. cbv beta.
      destruct (bool_decide (mf_id r = fileId)).
      + exact (apply_update_frame (now w) status convertedContent errorMessage
                 dataTypeMapping performanceMetrics issues r).
      + apply update_frame_refl.
    - apply Forall_Forall2_diag, Forall_forall.
      intros r _. apply update_frame_refl. }
  repeat split; try assumption;
    try (rewrite ?Hcc, ?Hem, ?Hdtm, ?Hpm, ?Hiss, ?fmap_is_Some; done).
  apply updateData_dom.
Qed.

(** ** cleanupEmptyMigrations *)

Lemma filter_ext_in {A} (P Q : A -> Prop)
    `{!forall x, Decision (P x)} `{!forall x, Decision (Q x)} (l : list A) :
  (forall x, x ∈ l -> P x <-> Q x) -> filter P l = filter Q l.
Proof.
  induction l as [|a l IH]; intros Hpq; [reflexivity |].
  rewrite !filter_cons.
  assert (Ha : P a <-> Q a) by (apply Hpq; left).
  rewrite IH by (intros x Hx; apply Hpq; right; exact Hx).
  destruct (decide (P a)), (decide (Q a)); tauto || reflexivity.
Qed.

Lemma filter_all {A} (P : A -> Prop) `{!forall x, Decision (P x)} (l : list A) :
  (forall x, x ∈ l -> P x) -> filter P l = l.
Proof.
  induction l as [|a l IH]; intros Hp; [reflexivity |].
  rewrite filter_cons, decide_True by (apply Hp; left).
  rewrite IH by (intros x Hx; apply Hp; right; exact Hx). reflexivity.
Qed.

(** A primary key identifies its row. *)
Lemma same_id_same_row (ms : list migration) (m m' : migration) :
  NoDup (map m_id ms) -> m ∈ ms -> m' ∈ ms -> m_id m = m_id m' -> m = m'.
Proof.
  intros Hnd Hm Hm' Hid.
  apply list_elem_of_lookup in Hm as [i Hi].
  apply list_elem_of_lookup in Hm' as [j Hj].
  assert (i = j).
  { eapply (NoDup_lookup _ i j (m_id m) Hnd).
    - rewrite list_lookup_fmap, Hi. reflexivity.
    - rewrite list_lookup_fmap, Hj. simpl. congruence. }
  subst j. congruence.
Qed.

Lemma migrationsToDelete_spec (w : world) (u : string) (m : migration) :
  user w = Some u ->
  NoDup (map m_id (migrations w)) ->
  m ∈ migrations w ->
  m_id m ∈ migrationsToDelete w <-> stale w u m.
Proof.
  intros Hu Hnd Hm. unfold migrationsToDelete, stale. rewrite Hu. split.
  - intros Hin.
    apply list_elem_of_fmap in Hin as (mw & Hid & Hmw).
    apply list_elem_of_In, filter_In in Hmw as [Hmw Hno].
    apply list_elem_of_In, list_elem_of_fmap in Hmw as (m' & -> & Hm').
    apply list_elem_of_filter in Hm' as [[Hown Hold] Hin'].
    simpl in Hid.
    assert (m = m') by (eapply same_id_same_row; eauto). subst m'.
    unfold owned_by in Hown. apply bool_decide_eq_true in Hown.
    split_and!; [congruence | exact Hold |].
    unfold no_files, with_files in Hno. simpl in Hno.
    rewrite length_map in Hno. apply Nat.eqb_eq, Hno.
  - intros (Hown & Hold & Hlen).
    apply list_elem_of_fmap. exists (with_files (migration_files w) m).
    split; [reflexivity |].
    apply list_elem_of_In, filter_In. split.
    + apply list_elem_of_In, list_elem_of_fmap. exists m. split; [reflexivity |].
      apply list_elem_of_filter. split; [| exact Hm]. split; [| exact Hold].
      unfold owned_by. apply bool_decide_eq_true. congruence.
    + unfold no_files, with_files. simpl. rewrite length_map.
      apply Nat.eqb_eq, Hlen.
Qed.

(** C4 (amended). For a signed-in user over a store whose session ids are
    unique: when the store answers the query and carries the delete out,
    the sessions that remain are exactly those that are not the user's,
    or not older than 24 hours, or have a file row; when it rejects
    either request no session is deleted.  In every case the file rows
    are untouched and a session that has a file row, or is not older
    than 24 hours, or belongs to someone else, is still there
    afterwards. *)
Theorem cleanupEmptyMigrations_effect (w : world) (u : string) :
  user w = Some u ->
  NoDup (map m_id (migrations w)) ->
  let w' := snd (cleanupEmptyMigrations w) in
  migration_files w' = migration_files w
  /\ migrations w'
     = match backend w (tick w), backend w (S (tick w)) with
       | Accept _, Accept _ => filter (fun m => ~ stale w u m) (migrations w)
       | _, _ => migrations w
       end
  /\ (forall m, m ∈ migrations w ->
        files_of (migration_files w) (m_id m) <> [] -> m ∈ migrations w')
  /\ (forall m, m ∈ migrations w -> ~ stale w u m -> m ∈ migrations w').
Proof.
  intros Hu Hnd w'.
  assert (Hfiles : migration_files w' = migration_files w).
  { subst w'. unfold cleanupEmptyMigrations, select_old_migrations,
      delete_migrations_in. run.
    destruct (backend w (tick w)); simpl; [| reflexivity].
    destruct (0 <? _)%nat; simpl; [| reflexivity].
    destruct (backend w (S (tick w))); reflexivity. }
  assert (Hmig : migrations w'
     = match backend w (tick w), backend w (S (tick w)) with
       | Accept _, Accept _ => filter (fun m => ~ stale w u m) (migrations w)
       | _, _ => migrations w
       end).
  { assert (Hsame : filter (fun m => m_id m ∉ migrationsToDelete w) (migrations w)
                    = filter (fun m => ~ stale w u m) (migrations w)).
    { apply filter_ext_in. intros m Hm.
      rewrite (migrationsToDelete_spec w u m Hu Hnd Hm). reflexivity. }
    subst w'. unfold cleanupEmptyMigrations, select_old_migrations,
      delete_migrations_in. run.
    destruct (backend w (tick w)) as [x|msg]; simpl; [| reflexivity].
    fold twentyFourHours. fold (migrationsToDelete w).
    destruct (0 <? length (migrationsToDelete w))%nat eqn:Hlen; simpl.
    - destruct (backend w (S (tick w))); simpl; [exact Hsame | reflexivity].
    - apply Nat.ltb_ge in Hlen.
      assert (Hnil : migrationsToDelete w = [])
        by (destruct (migrationsToDelete w); [reflexivity | simpl in Hlen; lia]).
      assert (Hall : filter (fun m => ~ stale w u m) (migrations w) = migrations w).
      { rewrite <- Hsame. apply filter_all. intros m _. rewrite Hnil.
        apply not_elem_of_nil. }
      rewrite Hall. destruct (backend w (S (tick w))); reflexivity. }
  assert (Hkeep : forall m, m ∈ migrations w -> ~ stale w u m -> m ∈ migrations w').
  { intros m Hm Hns. rewrite Hmig.
    destruct (backend w (tick w)); [| exact Hm].
    destruct (backend w (S (tick w))); [| exact Hm].
    apply list_elem_of_filter. split; assumption. }
  split_and!; [exact Hfiles | exact Hmig | | exact Hkeep].
  intros m Hm Hhas. apply Hkeep; [exact Hm |].
  intros (_ & _ & Hlen). apply Hhas.
  destruct (files_of _ _); [reflexivity | discriminate].
Qed.

(** ** deleteMigration *)

(** C7. The file rows are deleted first, then the session row.  When the
    store rejects the first request the second is not sent; when it
    rejects either one the call returns [false] and the current-session
    pointer keeps its value.  When both are carried out the call returns
    [true] and the pointer is cleared exactly when it held the deleted
    id. *)
Theorem deleteMigration_outcome (w : world) (migrationId : string) :
  let '(ok, w') := deleteMigration migrationId w in
  match backend w (tick w) with
  | Reject _ =>
      ok = false
      /\ currentMigrationId w' = currentMigrationId w
      /\ requests w' = requests w ++ [DeleteFilesOf migrationId]
      /\ migration_files w' = migration_files w
      /\ migrations w' = migrations w
  | Accept _ =>
      requests w' = requests w
                      ++ [DeleteFilesOf migrationId; DeleteMigrationById migrationId]
      /\ migration_files w'
         = filter (fun f => mf_migration_id f <> migrationId) (migration_files w)
      /\ match backend w (S (tick w)) with
         | Reject _ =>
             ok = false
             /\ currentMigrationId w' = currentMigrationId w
             /\ migrations w' = migrations w
         | Accept _ =>
             ok = true
             /\ migrations w' = filter (fun m => m_id m <> migrationId) (migrations w)
             /\ currentMigrationId w'
                = (if bool_decide (currentMigrationId w = Some migrationId)
                   then None else currentMigrationId w)
         end
  end.
Proof.
  unfold deleteMigration, delete_files_of, delete_migration_by_id. run.
  destruct (backend w (tick w)) as [x|msg]; simpl.
  - destruct (backend w (S (tick w))) as [y|msg]; simpl.
    + destruct (bool_decide (currentMigrationId w = Some migrationId)); simpl;
        rewrite <- ?app_assoc; auto.
    + rewrite <- ?app_assoc. auto.
  - auto.
Qed.

(** ** handleManualEdit *)

(** C9. After a manual edit of the selected file, the selected-file cell
    holds the edited copy, and every entry of the file list that carries
    the selected id is that same object: both hold the new converted
    content.  An entry with the selected id exists after the edit
    whenever one existed before, the list keeps its length, and entries
    with another id are untouched. *)
Theorem handleManualEdit_mirrors {CR CP : Type} (d : @dashboard CR CP)
    (sel : FileItem) (newContent : string) :
  selectedFile d = Some sel ->
  let d' := handleManualEdit newContent d in
  exists sel',
    selectedFile d' = Some sel'
    /\ fi_id sel' = fi_id sel
    /\ fi_convertedContent sel' = Some newContent
    /\ (forall i f, files d !! i = Some f ->
          files d' !! i = Some (if bool_decide (fi_id f = fi_id sel) then sel' else f))
    /\ (forall f, f ∈ files d' -> fi_id f = fi_id sel' ->
          f = sel' /\ fi_convertedContent f = fi_convertedContent sel')
    /\ ((exists f, f ∈ files d /\ fi_id f = fi_id sel) ->
        exists f', f' ∈ files d' /\ fi_id f' = fi_id sel'
                   /\ fi_convertedContent f' = fi_convertedContent sel')
    /\ length (files d') = length (files d).
Proof.
  intros Hsel d'. subst d'. unfold handleManualEdit. rewrite Hsel. simpl.
  set (upd := withConvertedContent sel newContent).
  set (swap := fun file : FileItem =>
                 if bool_decide (fi_id file = fi_id sel) then upd else file).
  assert (Hsame : forall f, f ∈ map swap (files d) -> fi_id f = fi_id upd -> f = upd).
  { intros f Hin Hid. apply list_elem_of_fmap in Hin as (g & -> & _).
    unfold swap in *. case_bool_decide; [reflexivity | ].
    simpl in Hid. congruence. }
  exists upd. repeat split.
  - intros i f Hi. rewrite list_lookup_fmap, Hi. reflexivity.
  - apply Hsame; assumption.
  - f_equal. apply Hsame; assumption.
  - intros (f & Hin & Hid). exists upd. repeat split.
    apply list_elem_of_fmap. exists f. split; [| exact Hin].
    unfold swap. rewrite bool_decide_eq_true_2 by exact Hid. reflexivity.
  - apply length_fmap.
Qed.

(** ** getMigrationStats *)

Lemma summarize_total (rows : list json) :
  Forall known_status rows ->
  (st_total (summarize rows)
   = st_success (summarize rows) + st_failed (summarize rows)
     + st_pending (summarize rows) + st_deployed (summarize rows))%nat.
Proof.
  unfold summarize; simpl.
  induction 1 as [|v rows Hv _ IH]; simpl; [reflexivity |].
  destruct Hv as [-> | [-> | [-> | ->]]]; simpl; lia.
Qed.

(** C10. When the status query is answered and every row of the session
    carries one of the four known statuses, [getMigrationStats] returns a
    summary whose total is the sum of the four counts; for a session
    without file rows the summary returned is the all-zero one, not
    [null].  When the store rejects the query the call logs the error
    and returns [null], whatever the rows. *)
Theorem getMigrationStats_summary (w : world) (migrationId : string) :
  Forall known_status
    (map mf_conversion_status (files_of (migration_files w) migrationId)) ->
  match backend w (tick w) with
  | Accept _ =>
      exists s,
        fst (getMigrationStats migrationId w) = Some s
        /\ st_total s = length (files_of (migration_files w) migrationId)
        /\ (st_total s
            = st_success s + st_failed s + st_pending s + st_deployed s)%nat
        /\ (files_of (migration_files w) migrationId = [] ->
            s = {| st_total := 0; st_success := 0; st_failed := 0;
                   st_pending := 0; st_deployed := 0 |})
  | Reject msg =>
      getMigrationStats migrationId w
      = (None,
         push_console ("Error fetching migration stats: " +:+ msg)
           (sent (SelectStatuses migrationId) w))
  end.
Proof.
  intros Hknown.
  destruct (backend w (tick w)) as [x|msg] eqn:Hverdict.
  - exists (summarize (map mf_conversion_status
                         (files_of (migration_files w) migrationId))).
    repeat split.
    + unfold getMigrationStats, select_statuses. run. rewrite Hverdict. reflexivity.
    + simpl. apply length_map.
    + apply summarize_total, Hknown.
    + intros ->. reflexivity.
  - unfold getMigrationStats, select_statuses. run. rewrite Hverdict. reflexivity.
Qed.

Lemma getMigrationStats_summary_witness :
  exists s,
    fst (getMigrationStats "m1"
           (sample_world None []
              [sample_row "f1" "m1" "a.sql"; sample_row "f2" "m2" "b.sql"]
              always_accept)) = Some s
    /\ st_total s = 1%nat
    /\ (st_total s = st_success s + st_failed s + st_pending s + st_deployed s)%nat.
Proof.
  assert (Hknown : Forall known_status
            (map mf_conversion_status
               (files_of [sample_row "f1" "m1" "a.sql"; sample_row "f2" "m2" "b.sql"]
                  "m1")))
    by (cbv; constructor; [right; left; reflexivity | constructor]).
  pose proof (getMigrationStats_summary
                (sample_world None []
                   [sample_row "f1" "m1" "a.sql"; sample_row "f2" "m2" "b.sql"]
                   always_accept) "m1" Hknown) as Hsum.
  simpl in Hsum. destruct Hsum as (s & Hs & Ht & Hsum & _).
  exists s. repeat split; assumption.
Defined.

(** The claim of C10 as stated fails when the store rejects the status
    query: for a session with zero file rows, all of whose statuses are
    trivially known, the call returns [null], not the all-zero summary. *)
Lemma getMigrationStats_may_return_null :
  let w := sample_world (Some "m1") [m1] [] (reject_at 0) in
  files_of (migration_files w) "m1" = []
  /\ Forall known_status
       (map mf_conversion_status (files_of (migration_files w) "m1"))
  /\ fst (getMigrationStats "m1" w) = None.
Proof. split_and!; [reflexivity | constructor | reflexivity]. Qed.

(** ** handleResetMigration *)

(** Whenever a current session id is held, a reset clears the client-side
    cells, asks the store for the session's file names and nothing else,
    and leaves the sessions and the current-session pointer as they
    were. *)
Lemma handleResetMigration_held {CR CP : Type} (lower : string -> string)
    (d : dashboard CR CP) (w : world) (u id : string) :
  user w = Some u ->
  currentMigrationId w = Some id ->
  id <> EmptyString ->
  let '(d', w') := handleResetMigration lower d w in
  files d' = [] /\ conversionResults d' = [] /\ selectedFile d' = None
  /\ report d' = None /\ activeTab d' = tab_upload
  /\ migrations w' = migrations w
  /\ currentMigrationId w' = Some id
  /\ requests w' = requests w ++ [SelectFileNames id].
Proof.
  intros Hu Hcur Hid.
  assert (Hget : getOrCreateMigrationId w = (Some id, w)).
  { unfold getOrCreateMigrationId. run.
    rewrite Hcur, (truthy_Some id Hid). reflexivity. }
  unfold handleResetMigration, bind, showToast, modify, ret.
  rewrite (handleCodeUpload_steps lower w w u id [] Hu Hget Hid).
  unfold select_file_names. run.
  destruct (backend w (tick w)); simpl; rewrite Hcur; auto 10.
Qed.

(** C8. The reset clears the file list, the conversion results, the
    selected file and the report and returns to the upload tab, but the
    upload of the empty list does not start a session while a current
    session id is held: no session row is inserted and the pointer still
    names the old session.  With no id held, a recent session that has
    files is picked up again in the same way. *)
Theorem handleResetMigration_keeps_session :
  (let w := sample_world (Some "m1") [m1] [sample_row "f1" "m1" "orders.sql"]
              always_accept in
   let '(d', w') := handleResetMigration asciiLowerCase busy_dashboard w in
   files d' = [] /\ conversionResults d' = [] /\ selectedFile d' = None
   /\ report d' = None /\ activeTab d' = tab_upload
   /\ migrations w' = [m1]
   /\ currentMigrationId w' = Some "m1"
   /\ requests w' = [SelectFileNames "m1"])
  /\ (let w := sample_world None [m1] [sample_row "f1" "m1" "orders.sql"]
                 always_accept in
      let '(d', w') := handleResetMigration asciiLowerCase busy_dashboard w in
      migrations w' = [m1]
      /\ currentMigrationId w' = Some "m1"
      /\ requests w' = [SelectRecentMigration (Some "u1") (9 * day);
                        SelectFileNames "m1"]).
Proof. split; vm_compute; repeat split; reflexivity. Qed.

(** ** Runs on sample worlds *)

(** Two names equal up to case in one batch, every request carried out:
    the second file is skipped. *)
Example upload_same_name_twice :
  let w := sample_world (Some "m1") [m1] [] always_accept in
  let w' := snd (handleCodeUpload asciiLowerCase
                   [sample_item "orders.sql"; sample_item "Orders.sql"] w) in
  map mf_file_name (migration_files w') = ["orders.sql"]
  /\ requests w' = [SelectFileNames "m1";
                    InsertFile "m1" "orders.sql" "orders.sql" procedure "select 1"]
  /\ console w' = ["Skipping duplicate file: Orders.sql"].
Proof. vm_compute. repeat split; reflexivity. Qed.

Lemma handleCodeUpload_skips_known_names_witness :
  let w := sample_world (Some "m1") [m1] [sample_row "f1" "m1" "orders.sql"]
             always_accept in
  let batch := [sample_item "Orders.sql"; sample_item "users.sql";
                sample_item "USERS.SQL"] in
  user w = Some "u1"
  /\ getOrCreateMigrationId w = (Some "m1", w)
  /\ backend w (tick w) = Accept "id-0"
  /\ exists added sent_items,
       migration_files (snd (handleCodeUpload asciiLowerCase batch w))
       = migration_files w ++ added
       /\ sublist sent_items (map toPendingItem batch)
       /\ Forall (fun f => asciiLowerCase (fi_name f)
                           ∉ map asciiLowerCase (session_names w "m1")) sent_items.
Proof.
  intros w batch. split_and!; try reflexivity.
  destruct (handleCodeUpload_skips_known_names asciiLowerCase w w "u1" "m1" "id-0"
              batch) as (added & sent_items & Hf & _ & _ & Hsub & Hns & _).
  - reflexivity.
  - reflexivity.
  - discriminate.
  - reflexivity.
  - exists added, sent_items. split_and!; assumption.
Defined.

(** The claim of C1 as stated fails when the store rejects a request:
    with the first insert rejected, the later file of the same name is
    inserted, not skipped; with the name query rejected, a row is
    created under a name the session already has. *)
Lemma handleCodeUpload_duplicate_not_skipped :
  (let w := sample_world (Some "m1") [m1] [] (reject_at 1) in
   let w' := snd (handleCodeUpload asciiLowerCase
                    [sample_item "orders.sql"; sample_item "Orders.sql"] w) in
   map mf_file_name (migration_files w') = ["Orders.sql"]
   /\ requests w'
      = [SelectFileNames "m1";
         InsertFile "m1" "orders.sql" "orders.sql" procedure "select 1";
         InsertFile "m1" "Orders.sql" "Orders.sql" procedure "select 1"])
  /\ (let w := sample_world (Some "m1") [m1] [sample_row "f1" "m1" "orders.sql"]
                 (reject_at 0) in
      let w' := snd (handleCodeUpload asciiLowerCase [sample_item "Orders.sql"] w) in
      map mf_file_name (migration_files w') = ["orders.sql"; "Orders.sql"]).
Proof. split; vm_compute; repeat split; reflexivity. Qed.

Lemma handleCodeUpload_returns_all_witness :
  let w := sample_world (Some "m1") [m1] [] (fun n => Reject "unavailable") in
  let batch := [sample_item "orders.sql"; sample_item "users.sql"] in
  user w = Some "u1"
  /\ getOrCreateMigrationId w = (Some "m1", w)
  /\ (let '(result, w') := handleCodeUpload asciiLowerCase batch w in
      result = map toPendingItem batch
      /\ Forall2 pending_copy batch result
      /\ toasts w' = toasts w ++ [uploaded_toast (length batch)]
      /\ Forall (fun t => destructive t = false)
           (drop (length (toasts w)) (toasts w'))).
Proof.
  intros w batch. split_and!; try reflexivity.
  apply (handleCodeUpload_returns_all asciiLowerCase w w "u1" "m1" batch);
    [reflexivity | reflexivity | discriminate].
Defined.

Lemma getOrCreateMigrationId_cases_witness :
  let w := sample_world None
             [m1; session "m0" "u1" (10 * day - 7200000)]
             [sample_row "f1" "m1" "orders.sql"] always_accept in
  truthy (currentMigrationId w) = false
  /\ user w = Some "u1"
  /\ backend w (tick w) = Accept "id-0"
  /\ Forall (fun m => m_id m <> EmptyString) (migrations w)
  /\ (let '(r, w') := getOrCreateMigrationId w in
      migration_files w' = migration_files w
      /\ r = Some "m1"
      /\ currentMigrationId w' = Some "m1"
      /\ migrations w' = migrations w
      /\ requests w' = requests w ++ [recent_query w]).
Proof.
  intros w.
  assert (Hids : Forall (fun m => m_id m <> EmptyString) (migrations w))
    by (repeat constructor; discriminate).
  split_and!; try reflexivity; [exact Hids |].
  exact (getOrCreateMigrationId_cases w "u1" "id-0" eq_refl eq_refl eq_refl Hids).
Defined.

(** The claim of C2 as stated fails when no session can be created: with
    the insert rejected, or with nobody signed in, the call returns
    [null] and the store has no new session row. *)
Lemma getOrCreateMigrationId_may_return_null :
  (let w := sample_world None [] [] (reject_at 1) in
   let '(r, w') := getOrCreateMigrationId w in
   r = None /\ migrations w' = [] /\ currentMigrationId w' = None)
  /\ (let w := signed_out (sample_world None [] [] always_accept) in
      let '(r, w') := getOrCreateMigrationId w in
      r = None /\ migrations w' = [] /\ currentMigrationId w' = None).
Proof. split; vm_compute; repeat split; reflexivity. Qed.

Lemma cleanupEmptyMigrations_effect_witness :
  let w := sample_world None cleanup_store
             [sample_row "f1" "old-full" "orders.sql"] always_accept in
  user w = Some "u1"
  /\ NoDup (map m_id (migrations w))
  /\ migration_files (snd (cleanupEmptyMigrations w)) = migration_files w
  /\ migrations (snd (cleanupEmptyMigrations w))
     = [session "old-full" "u1" (8 * day);
        session "young-empty" "u1" (10 * day - 3600000);
        session "theirs" "u2" (8 * day)].
Proof.
  intros w.
  assert (Hnd : NoDup (map m_id (migrations w)))
    by (apply (bool_decide_unpack _); vm_compute; exact I).
  split_and!; [reflexivity | exact Hnd | |];
    destruct (cleanupEmptyMigrations_effect w "u1" eq_refl Hnd) as (Hf & Hm & _).
  - exact Hf.
  - rewrite Hm. reflexivity.
Defined.

(** The claim of C4 as stated fails when the store rejects the query: the
    user's old empty session is still there after the cleanup. *)
Lemma cleanupEmptyMigrations_may_delete_nothing :
  let w := sample_world None cleanup_store
             [sample_row "f1" "old-full" "orders.sql"] (reject_at 0) in
  migrations (snd (cleanupEmptyMigrations w)) = cleanup_store
  /\ session "old-empty" "u1" (8 * day) ∈ migrations (snd (cleanupEmptyMigrations w)).
Proof. split; [reflexivity | left]. Qed.

Lemma handleManualEdit_mirrors_witness :
  selectedFile busy_dashboard = Some (sample_item "orders.sql")
  /\ exists sel',
       selectedFile (handleManualEdit "SELECT 2 FROM dual" busy_dashboard) = Some sel'
       /\ fi_convertedContent sel' = Some "SELECT 2 FROM dual"
       /\ files (handleManualEdit "SELECT 2 FROM dual" busy_dashboard)
          = [sel'; sample_item "users.sql"].
Proof.
  split; [reflexivity |].
  destruct (handleManualEdit_mirrors busy_dashboard (sample_item "orders.sql")
              "SELECT 2 FROM dual" eq_refl)
    as (sel' & Hsel & _ & Hcc & Hpos & _).
  exists sel'. split_and!; [exact Hsel | exact Hcc |].
  apply list_eq. intros [|[|i]].
  - apply (Hpos 0%nat (sample_item "orders.sql")). reflexivity.
  - apply (Hpos 1%nat (sample_item "users.sql")). reflexivity.
  - reflexivity.
Defined.

(** * Further properties *)

(** ** startNewMigration and createFailedFileMigration *)

(** X1. [startNewMigration] never touches a file row.  Signed out, it
    sends nothing, writes nothing and shows one destructive toast.
    Signed in, it sends exactly one insert, carrying the chosen project
    name, and leaves the creating flag off whatever the store answers;
    an accepted insert adds the one row, returns its id and makes it the
    current session, a rejected one returns [null] and leaves the
    sessions and the current session as they were. *)
Theorem startNewMigration_outcome (projectName : option string) (w : world) :
  let '(r, w') := startNewMigration projectName w in
  migration_files w' = migration_files w
  /\ match user w with
     | None =>
         r = None
         /\ requests w' = requests w
         /\ tick w' = tick w
         /\ migrations w' = migrations w
         /\ currentMigrationId w' = currentMigrationId w
         /\ isCreatingMigration w' = isCreatingMigration w
         /\ exists t, toasts w' = toasts w ++ [t] /\ destructive t = true
     | Some uid =>
         requests w' = requests w
                         ++ [InsertMigration uid (project_name_for projectName w)]
         /\ isCreatingMigration w' = false
         /\ match backend w (tick w) with
            | Accept id =>
                r = Some id
                /\ currentMigrationId w' = Some id
                /\ migrations w'
                   = migrations w
                       ++ [{| m_id := id; m_user_id := uid;
                              m_project_name := project_name_for projectName w;
                              m_created_at := now w |}]
                /\ exists t, toasts w' = toasts w ++ [t] /\ destructive t = false
            | Reject _ =>
                r = None
                /\ currentMigrationId w' = currentMigrationId w
                /\ migrations w' = migrations w
                /\ exists t, toasts w' = toasts w ++ [t] /\ destructive t = true
            end
     end.
Proof.
  unfold startNewMigration, insert_migration, project_name_for. run.
  destruct (user w) as [uid|]; simpl.
  - destruct (backend w (tick w)) as [id|msg]; simpl;
      split_and!; try reflexivity; eexists; split; reflexivity.
  - split_and!; try reflexivity. eexists; split; reflexivity.
Qed.

Lemma remove_colons_no_colon (s : string) : has_colon (remove_colons s) = false.
Proof.
  induction s as [|c s IH]; simpl; [reflexivity |].
  destruct (Ascii.eqb c ":") eqn:Hc; simpl; [exact IH |].
  rewrite Hc, IH. reflexivity.
Qed.

Lemma remove_colons_length (s : string) :
  (String.length (remove_colons s) <= String.length s)%nat.
Proof.
  induction s as [|c s IH]; simpl; [lia |].
  destruct (Ascii.eqb c ":"); simpl; lia.
Qed.

Lemma has_colon_app (s t : string) :
  has_colon (s +:+ t) = has_colon s || has_colon t.
Proof.
  induction s as [|c s IH]; simpl; [reflexivity |].
  rewrite IH, orb_assoc. reflexivity.
Qed.

(** X2. The project name of a new session: a non-empty name passed in is
    used as it is; with no name, or the empty one, the name is
    [Migration_] followed by the local time with every colon taken out,
    so it contains no colon at all. *)
Theorem project_name_for_cases (projectName : option string) (w : world) :
  (forall p, projectName = Some p -> p <> EmptyString ->
     project_name_for projectName w = p)
  /\ (truthy projectName = false ->
      has_colon (project_name_for projectName w) = false
      /\ exists t, project_name_for projectName w = "Migration_" +:+ t
                   /\ t = remove_colons (localTime w)
                   /\ (String.length t <= String.length (localTime w))%nat).
Proof.
  unfold project_name_for, or_else. split.
  - intros p -> Hp. destruct p; [congruence | reflexivity].
  - intros Hf.
    assert (Hname : match projectName with
                    | Some s => if truthy_string s then s
                                else "Migration_" +:+ remove_colons (localTime w)
                    | None => "Migration_" +:+ remove_colons (localTime w)
                    end = "Migration_" +:+ remove_colons (localTime w)).
    { destruct projectName as [p|]; [| reflexivity].
      simpl in Hf. rewrite Hf. reflexivity. }
    rewrite Hname. split.
    + rewrite has_colon_app, remove_colons_no_colon. reflexivity.
    + eexists. split_and!; [reflexivity | reflexivity |].
      apply remove_colons_length.
Qed.

(** X5. [createFailedFileMigration] never changes the current session
    and never touches a file row.  Signed out, it sends nothing and shows
    one destructive toast.  Signed in, it sends one insert named
    [Failed: ] followed by the file name and leaves the creating flag
    off; an accepted insert adds the one row and returns its id, a
    rejected one returns [null] and adds nothing. *)
Theorem createFailedFileMigration_outcome (fileName : string)
    (originalMigrationId : option string) (w : world) :
  let '(r, w') := createFailedFileMigration fileName originalMigrationId w in
  currentMigrationId w' = currentMigrationId w
  /\ migration_files w' = migration_files w
  /\ match user w with
     | None =>
         r = None
         /\ requests w' = requests w
         /\ migrations w' = migrations w
         /\ exists t, toasts w' = toasts w ++ [t] /\ destructive t = true
     | Some uid =>
         requests w' = requests w ++ [InsertMigration uid ("Failed: " +:+ fileName)]
         /\ isCreatingMigration w' = false
         /\ match backend w (tick w) with
            | Accept id =>
                r = Some id
                /\ migrations w' = migrations w ++ [failed_session w uid fileName id]
                /\ exists t, toasts w' = toasts w ++ [t] /\ destructive t = false
            | Reject _ =>
                r = None
                /\ migrations w' = migrations w
                /\ exists t, toasts w' = toasts w ++ [t] /\ destructive t = true
            end
     end.
Proof.
  unfold createFailedFileMigration, insert_migration, failed_session. run.
  destruct (user w) as [uid|]; simpl.
  - destruct (backend w (tick w)) as [id|msg]; simpl;
      split_and!; try reflexivity; eexists; split; reflexivity.
  - split_and!; try reflexivity. eexists; split; reflexivity.
Qed.

Lemma project_name_for_cases_witness :
  let w := sample_world None [] [] always_accept in
  truthy (Some EmptyString) = false
  /\ has_colon (project_name_for (Some EmptyString) w) = false
  /\ project_name_for (Some EmptyString) w = "Migration_134507".
Proof.
  intros w. split; [reflexivity |].
  destruct (project_name_for_cases (Some EmptyString) w) as [_ Hdef].
  destruct (Hdef eq_refl) as [Hno (t & Hname & Ht & _)].
  split; [exact Hno |]. rewrite Hname, Ht. reflexivity.
Defined.

(** ** getOrCreateMigrationId: what calls in a row and every call do *)

Lemma getOrCreateMigrationId_fast (w : world) (id : string) :
  currentMigrationId w = Some id -> id <> EmptyString ->
  getOrCreateMigrationId w = (Some id, w).
Proof.
  intros Hcur Hid. unfold getOrCreateMigrationId. run.
  rewrite Hcur, (truthy_Some id Hid). reflexivity.
Qed.

Lemma startNewMigration_sessions (p : option string) (w : world) :
  let w' := snd (startNewMigration p w) in
  (exists extra, migrations w' = migrations w ++ extra /\ (length extra <= 1)%nat)
  /\ (tick w' <= tick w + 1)%nat.
Proof.
  unfold startNewMigration, insert_migration. run.
  destruct (user w) as [uid|]; simpl.
  - destruct (backend w (tick w)) as [id|msg]; simpl.
    + split; [eexists [_]; split; [reflexivity | simpl; lia] | lia].
    + split; [exists []; split; [rewrite app_nil_r; reflexivity | simpl; lia] | lia].
  - split; [exists []; split; [rewrite app_nil_r; reflexivity | simpl; lia] | lia].
Qed.

(** The sessions after a call: those before, less at most the sessions
    that carry one id without file rows, plus at most one new row. *)
Lemma getOrCreateMigrationId_sessions (w : world) :
  let w' := snd (getOrCreateMigrationId w) in
  (exists base extra,
     migrations w' = base ++ extra
     /\ (length extra <= 1)%nat
     /\ (base = migrations w
         \/ exists x, files_of (migration_files w) x = []
                      /\ base = filter (fun m => m_id m <> x) (migrations w)))
  /\ (tick w' <= tick w + 3)%nat.
Proof.
  cbv zeta.
  unfold getOrCreateMigrationId, select_recent_migration, delete_migration_by_id.
  unfold bind, ret, get, modify, await. simpl.
  destruct (truthy (currentMigrationId w)) eqn:Hcur; simpl.
  { split; [| lia]. exists (migrations w), [].
    split_and!; [rewrite app_nil_r; reflexivity | simpl; lia | left; reflexivity]. }
  assert (Hstart : forall w0 : world,
            migrations w0 = migrations w -> (tick w0 <= tick w + 2)%nat ->
            (exists base extra,
               migrations (snd (startNewMigration None w0)) = base ++ extra
               /\ (length extra <= 1)%nat
               /\ (base = migrations w
                   \/ exists x, files_of (migration_files w) x = []
                                /\ base = filter (fun m => m_id m <> x) (migrations w)))
            /\ (tick (snd (startNewMigration None w0)) <= tick w + 3)%nat).
  { intros w0 Hm Ht.
    destruct (startNewMigration_sessions None w0) as [(extra & He & Hl) Htick].
    split; [| lia]. exists (migrations w), extra.
    split_and!; [rewrite He, Hm; reflexivity | exact Hl | left; reflexivity]. }
  destruct (backend w (tick w)) as [x|msg]; simpl.
  - destruct (newest _) as [m|]; simpl.
    + unfold has_files, no_files, with_files. simpl.
      destruct (truthy_string (m_id m)); simpl.
      * destruct (files_of (migration_files w) (m_id m)) as [|f fs] eqn:Hfiles; simpl.
        -- destruct (backend w (S (tick w))) as [y|msg]; simpl.
           ++ match goal with
              | |- context [startNewMigration None ?w0] =>
                  destruct (startNewMigration_sessions None w0)
                    as [(extra & He & Hl) Htick]
              end.
              simpl in He, Htick. split; [| lia].
              eexists _, extra. split_and!; [exact He | exact Hl |].
              right. exists (m_id m). split; [exact Hfiles | reflexivity].
           ++ apply Hstart; simpl; [reflexivity | lia].
        -- split; [| lia]. exists (migrations w), [].
           split_and!; [rewrite app_nil_r; reflexivity | simpl; lia | left; reflexivity].
      * apply Hstart; simpl; [reflexivity | lia].
    + apply Hstart; simpl; [reflexivity | lia].
  - apply Hstart; simpl; [reflexivity | lia].
Qed.

(** X4. For every world and every answer of the store, a call to
    [getOrCreateMigrationId] leaves the file rows alone, keeps every
    session that has a file row, adds at most one session and makes at
    most three round trips. *)
Theorem getOrCreateMigrationId_is_safe (w : world) :
  let w' := snd (getOrCreateMigrationId w) in
  migration_files w' = migration_files w
  /\ (forall m, m ∈ migrations w ->
        files_of (migration_files w) (m_id m) <> [] -> m ∈ migrations w')
  /\ (length (migrations w') <= S (length (migrations w)))%nat
  /\ (tick w' <= tick w + 3)%nat.
Proof.
  intros w'. subst w'.
  destruct (getOrCreateMigrationId_sessions w)
    as [(base & extra & Hm & Hl & Hbase) Htick].
  split_and!.
  - apply getOrCreateMigrationId_keeps_files.
  - intros m Hin Hfiles. rewrite Hm. apply elem_of_app. left.
    destruct Hbase as [-> | (x & Hx & ->)]; [exact Hin |].
    apply list_elem_of_filter. split; [| exact Hin].
    intros Heq. apply Hfiles. rewrite Heq. exact Hx.
  - rewrite Hm, length_app.
    destruct Hbase as [-> | (x & _ & ->)]; [lia |].
    pose proof (length_filter (fun m => m_id m <> x) (migrations w)). lia.
  - exact Htick.
Qed.

Lemma newest_snoc (ms : list migration) (m : migration) :
  (forall m', m' ∈ ms -> m_created_at m' < m_created_at m) ->
  newest (ms ++ [m]) = Some m.
Proof.
  induction ms as [|a ms IH]; intros Hold; simpl; [reflexivity |].
  rewrite IH by (intros m' Hm'; apply Hold; right; exact Hm').
  assert (Ha : m_created_at a < m_created_at m) by (apply Hold; left).
  destruct (Z.gtb_spec (m_created_at m) (m_created_at a)); [reflexivity | lia].
Qed.

(** [getOrCreateMigrationId] is the callback of the render that sees the
    cell as the world has it. *)
Lemma getOrCreateMigrationId_of_state (w : world) :
  getOrCreateMigrationId_of (currentMigrationId w) w = getOrCreateMigrationId w.
Proof. reflexivity. Qed.

(** A callback whose render held an id answers with that id. *)
Lemma getOrCreateMigrationId_of_held (captured : option string) (w : world) :
  truthy captured = true ->
  getOrCreateMigrationId_of captured w = (captured, w).
Proof.
  intros Hheld. unfold getOrCreateMigrationId_of. run.
  rewrite Hheld. reflexivity.
Qed.

Lemma startNewMigration_requests (p : option string) (w : world) :
  exists rest, requests (snd (startNewMigration p w)) = requests w ++ rest.
Proof.
  unfold startNewMigration, insert_migration. run.
  destruct (user w) as [uid|]; simpl.
  - destruct (backend w (tick w)) as [id|msg]; simpl; eexists; reflexivity.
  - exists []. rewrite app_nil_r. reflexivity.
Qed.

(** A callback whose render held no id starts with the recent-session
    query. *)
Lemma getOrCreateMigrationId_of_asks (captured : option string) (w : world) :
  truthy captured = false ->
  exists rest,
    requests (snd (getOrCreateMigrationId_of captured w))
    = requests w ++ recent_query w :: rest.
Proof.
  intros Hnone.
  assert (Hstart : forall w0 : world, forall sent_so_far : list request,
            requests w0 = requests w ++ recent_query w :: sent_so_far ->
            exists rest,
              requests (snd (startNewMigration None w0))
              = requests w ++ recent_query w :: rest).
  { intros w0 sent_so_far Hw0.
    destruct (startNewMigration_requests None w0) as (rest & Hrest).
    exists (sent_so_far ++ rest). rewrite Hrest, Hw0.
    rewrite <- app_assoc. reflexivity. }
  unfold getOrCreateMigrationId_of, select_recent_migration, delete_migration_by_id.
  run. rewrite Hnone. simpl.
  destruct (backend w (tick w)) as [x|msg]; simpl.
  - destruct (newest _) as [m|]; simpl.
    + split_recent.
      * exists []. reflexivity.
      * split_recent; [destruct (backend w (S (tick w))); simpl | ].
        -- apply (Hstart _ [DeleteMigrationById (m_id m)]). simpl.
           rewrite <- app_assoc. reflexivity.
        -- apply (Hstart _ [DeleteMigrationById (m_id m)]). simpl.
           rewrite <- app_assoc. reflexivity.
        -- apply (Hstart _ []). reflexivity.
    + apply (Hstart _ []). reflexivity.
  - apply (Hstart _ []). reflexivity.
Qed.

(** A callback whose render held no id, called while the newest of the
    user's sessions is a recent one without file rows: with query and
    delete carried out, that session is deleted and another one is asked
    for. *)
Lemma slow_path_collects (w0 : world) (captured : option string) (u x y : string)
    (ms : list migration) (row : migration) :
  truthy captured = false ->
  user w0 = Some u ->
  migrations w0 = ms ++ [row] ->
  m_user_id row = u ->
  m_id row <> EmptyString ->
  now w0 - twentyFourHours <= m_created_at row ->
  (forall m, m ∈ ms -> m_user_id m = u -> m_created_at m < m_created_at row) ->
  files_of (migration_files w0) (m_id row) = [] ->
  backend w0 (tick w0) = Accept x ->
  backend w0 (S (tick w0)) = Accept y ->
  let '(r, w2) := getOrCreateMigrationId_of captured w0 in
  requests w2
  = requests w0 ++ [recent_query w0; DeleteMigrationById (m_id row);
                    create_request w0 u]
  /\ migrations w2
     = filter (fun m => m_id m <> m_id row) ms
         ++ match backend w0 (S (S (tick w0))) with
            | Accept new_id => [new_session w0 u new_id]
            | Reject _ => []
            end
  /\ r = match backend w0 (S (S (tick w0))) with
         | Accept new_id => Some new_id
         | Reject _ => None
         end
  /\ currentMigrationId w2
     = match backend w0 (S (S (tick w0))) with
       | Accept new_id => Some new_id
       | Reject _ => currentMigrationId w0
       end.
Proof.
  intros Hnone Hu Hms Hown Hid Hrecent Hold Hnofiles Hsel Hdel.
  assert (Hnew : newest (recent_of (ms ++ [row]) (Some u)
                           (now w0 - 24 * 60 * 60 * 1000)) = Some row).
  { unfold recent_of. rewrite filter_app.
    assert (Hrow : filter (fun m => owned_by (Some u) m = true
                                    /\ now w0 - 24 * 60 * 60 * 1000 <= m_created_at m)
                     [row] = [row]).
    { apply filter_all. intros m Hm. apply list_elem_of_singleton in Hm. subst m.
      split; [unfold owned_by; apply bool_decide_eq_true; congruence |].
      exact Hrecent. }
    rewrite Hrow. apply newest_snoc.
    intros m Hm. apply list_elem_of_filter in Hm as [[Hm_own _] Hm].
    unfold owned_by in Hm_own. apply bool_decide_eq_true in Hm_own.
    apply Hold; [exact Hm | congruence]. }
  assert (Hkeep : filter (fun m => m_id m <> m_id row) (ms ++ [row])
                  = filter (fun m => m_id m <> m_id row) ms).
  { rewrite filter_app.
    assert (Hrow : filter (fun m => m_id m <> m_id row) [row] = []).
    { rewrite filter_cons.
      destruct (decide (m_id row <> m_id row)); [congruence | reflexivity]. }
    rewrite Hrow, app_nil_r. reflexivity. }
  assert (Htr : truthy_string (m_id row) = true)
    by (destruct (m_id row); [congruence | reflexivity]).
  unfold getOrCreateMigrationId_of, select_recent_migration, delete_migration_by_id.
  run. rewrite Hnone. simpl. rewrite Hsel. simpl. rewrite Hu, Hms, Hnew. simpl.
  rewrite Htr. unfold has_files, no_files. simpl. rewrite Hnofiles. simpl.
  rewrite Hdel. simpl.
  unfold startNewMigration, insert_migration. run. rewrite Hu. simpl.
  rewrite Hms, Hkeep.
  unfold recent_query, create_request, twentyFourHours. rewrite Hu.
  destruct (backend w0 (S (S (tick w0)))) as [new_id|msg]; simpl;
    rewrite <- ?app_assoc, ?app_nil_r; simpl; split_and!; reflexivity.
Qed.

(** A callback whose render held no id, called while none of the user's
    sessions is recent: whatever the store answers to the query, the
    call goes on to [startNewMigration()]. *)
Lemma slow_path_nothing_recent (w0 : world) (captured : option string) (u : string) :
  truthy captured = false ->
  user w0 = Some u ->
  (forall m, m ∈ migrations w0 -> m_user_id m = u ->
             m_created_at m < now w0 - twentyFourHours) ->
  getOrCreateMigrationId_of captured w0
  = startNewMigration None (sent (recent_query w0) w0).
Proof.
  intros Hnone Hu Hold.
  assert (Hnothing : recent_of (migrations w0) (Some u)
                       (now w0 - 24 * 60 * 60 * 1000) = []).
  { unfold recent_of.
    destruct (filter _ (migrations w0)) as [|m rest] eqn:Hfound; [reflexivity |].
    assert (Hm : m ∈ m :: rest) by left.
    rewrite <- Hfound in Hm.
    apply list_elem_of_filter in Hm as [[Hm_own Hm_new] Hm].
    unfold owned_by in Hm_own. apply bool_decide_eq_true in Hm_own.
    assert (Hlt : m_created_at m < now w0 - twentyFourHours)
      by (apply Hold; [exact Hm | congruence]).
    unfold twentyFourHours in Hlt. lia. }
  unfold getOrCreateMigrationId_of, select_recent_migration. run.
  rewrite Hnone. simpl. unfold recent_query, twentyFourHours.
  destruct (backend w0 (tick w0)) as [x|msg]; simpl; [| reflexivity].
  rewrite Hu, Hnothing. reflexivity.
Qed.

(** X3. A call that returned a non-empty id gives that id again, with
    nothing sent and nothing changed, through the callback of a render
    that has seen the id, whatever the clock reads by then.  Through the
    callback it was itself made with, a second call does the same only
    when that callback's render already held an id; when it held none,
    the second call goes back to the store, beginning with the
    recent-session query. *)
Theorem getOrCreateMigrationId_twice (w w1 : world) (id : string)
    (t : Z) (lt : string) :
  getOrCreateMigrationId_of (currentMigrationId w) w = (Some id, w1) ->
  id <> EmptyString ->
  let later := clock_at t lt w1 in
  getOrCreateMigrationId_of (currentMigrationId w1) later = (Some id, later)
  /\ (truthy (currentMigrationId w) = true ->
      getOrCreateMigrationId_of (currentMigrationId w) later = (Some id, later))
  /\ (truthy (currentMigrationId w) = false ->
      exists rest,
        requests (snd (getOrCreateMigrationId_of (currentMigrationId w) later))
        = requests w1 ++ recent_query later :: rest).
Proof.
  intros Hfirst Hid later. split_and!.
  - rewrite getOrCreateMigrationId_of_state in Hfirst.
    rewrite (getOrCreateMigrationId_result_is_current w w1 id Hfirst).
    apply getOrCreateMigrationId_of_held, truthy_Some, Hid.
  - intros Hheld.
    rewrite (getOrCreateMigrationId_of_held _ w Hheld) in Hfirst.
    injection Hfirst as Hcur _. rewrite Hcur.
    apply getOrCreateMigrationId_of_held, truthy_Some, Hid.
  - intros Hnone.
    apply (getOrCreateMigrationId_of_asks (currentMigrationId w) later Hnone).
Qed.

(** X7. After [startNewMigration] has returned a non-empty id, the
    callback of a render that has seen that id returns it and sends
    nothing.  A callback whose render held another non-empty id still
    returns that older id.  A callback whose render held none asks the
    store: when that happens within 24 hours, the started session is the
    user's newest and has no file row, and query and delete are carried
    out, the call deletes the session just started and asks for another
    one, so that after a rejected insert the current-session cell still
    names the deleted session. *)
Theorem startNewMigration_then_getOrCreate (projectName : option string)
    (w w1 : world) (u id : string) (captured : option string)
    (t : Z) (lt : string) :
  startNewMigration projectName w = (Some id, w1) ->
  id <> EmptyString ->
  user w = Some u ->
  let later := clock_at t lt w1 in
  (captured = currentMigrationId w1 ->
   getOrCreateMigrationId_of captured later = (Some id, later))
  /\ (truthy captured = true ->
      getOrCreateMigrationId_of captured later = (captured, later))
  /\ (truthy captured = false ->
      t - twentyFourHours <= now w ->
      (forall m, m ∈ migrations w -> m_user_id m = u -> m_created_at m < now w) ->
      files_of (migration_files w) id = [] ->
      (exists x, backend w (S (tick w)) = Accept x) ->
      (exists y, backend w (S (S (tick w))) = Accept y) ->
      let '(r, w2) := getOrCreateMigrationId_of captured later in
      requests w2
      = requests w1 ++ [recent_query later; DeleteMigrationById id;
                        create_request later u]
      /\ started_session projectName w u id ∈ migrations w1
      /\ migrations w2
         = filter (fun m => m_id m <> id) (migrations w)
             ++ match backend w (S (S (S (tick w)))) with
                | Accept new_id => [new_session later u new_id]
                | Reject _ => []
                end
      /\ r = match backend w (S (S (S (tick w)))) with
             | Accept new_id => Some new_id
             | Reject _ => None
             end
      /\ currentMigrationId w2
         = match backend w (S (S (S (tick w)))) with
           | Accept new_id => Some new_id
           | Reject _ => Some id
           end).
Proof.
  intros Hstart Hid Hu later.
  assert (Hcur1 : currentMigrationId w1 = Some id)
    by (eapply startNewMigration_result_is_current, Hstart).
  split_and!.
  - intros ->. rewrite Hcur1.
    apply getOrCreateMigrationId_of_held, truthy_Some, Hid.
  - apply getOrCreateMigrationId_of_held.
  - intros Hnone Hrecent Hold Hnofiles (x & Hsel) (y & Hdel).
    revert Hstart. unfold startNewMigration, insert_migration. run.
    rewrite Hu. simpl.
    destruct (backend w (tick w)) as [id0|msg] eqn:Hins; simpl; [| discriminate].
    intros Hstart. inversion Hstart as [[Hid0 Hw1]]. subst id0.
    subst w1 later.
    match goal with
    | |- context [getOrCreateMigrationId_of captured ?l] => set (later := l)
    end.
    pose proof (slow_path_collects later captured u x y (migrations w)
                  (started_session projectName w u id)
                  Hnone Hu eq_refl eq_refl Hid Hrecent Hold Hnofiles Hsel Hdel)
      as Hcollect.
    destruct (getOrCreateMigrationId_of captured later) as [r w2].
    cbv beta iota in Hcollect.
    destruct Hcollect as (Hreq & Hmig & Hr & Hptr).
    split_and!; [exact Hreq | apply elem_of_app; right; left
                 | exact Hmig | exact Hr | exact Hptr].
Qed.

Lemma getOrCreateMigrationId_twice_witness :
  let w := sample_world None [] [] always_accept in
  let w1 := snd (getOrCreateMigrationId w) in
  let later := clock_at (10 * day + 60000) "13:46:07" w1 in
  getOrCreateMigrationId_of None w = (Some "id-1", w1)
  /\ getOrCreateMigrationId_of (Some "id-1") later = (Some "id-1", later)
  /\ exists rest,
       requests (snd (getOrCreateMigrationId_of None later))
       = requests w1 ++ recent_query later :: rest.
Proof.
  intros w w1 later.
  assert (Hid : "id-1" <> EmptyString) by discriminate.
  destruct (getOrCreateMigrationId_twice w w1 "id-1" (10 * day + 60000) "13:46:07"
              eq_refl Hid) as (Hnext & _ & Hsame).
  split_and!; [reflexivity | exact Hnext | exact (Hsame eq_refl)].
Defined.

Lemma startNewMigration_then_getOrCreate_witness :
  let w := sample_world None [] [] always_accept in
  let w1 := snd (startNewMigration (Some "Payroll") w) in
  let later := clock_at (10 * day + 60000) "13:46:07" w1 in
  startNewMigration (Some "Payroll") w = (Some "id-0", w1)
  /\ getOrCreateMigrationId_of (Some "id-0") later = (Some "id-0", later)
  /\ (let '(r, w2) := getOrCreateMigrationId_of None later in
      r = Some "id-3"
      /\ migrations w2 = [new_session later "u1" "id-3"]
      /\ currentMigrationId w2 = Some "id-3").
Proof.
  intros w w1 later.
  assert (Hid : "id-0" <> EmptyString) by discriminate.
  split_and!; [reflexivity | |].
  - destruct (startNewMigration_then_getOrCreate (Some "Payroll") w w1 "u1" "id-0"
                (Some "id-0") (10 * day + 60000) "13:46:07" eq_refl Hid eq_refl)
      as (Hnext & _ & _).
    exact (Hnext eq_refl).
  - destruct (startNewMigration_then_getOrCreate (Some "Payroll") w w1 "u1" "id-0"
                None (10 * day + 60000) "13:46:07" eq_refl Hid eq_refl)
      as (_ & _ & Hstale).
    assert (Hall : let '(r, w2) := getOrCreateMigrationId_of None later in
                   requests w2
                   = requests w1 ++ [recent_query later; DeleteMigrationById "id-0";
                                     create_request later "u1"]
                   /\ started_session (Some "Payroll") w "u1" "id-0" ∈ migrations w1
                   /\ migrations w2 = [new_session later "u1" "id-3"]
                   /\ r = Some "id-3"
                   /\ currentMigrationId w2 = Some "id-3").
    { apply Hstale.
      - reflexivity.
      - vm_compute. discriminate.
      - intros m Hm. inversion Hm.
      - reflexivity.
      - eexists; reflexivity.
      - eexists; reflexivity. }
    destruct (getOrCreateMigrationId_of None later) as [r w2].
    destruct Hall as (_ & _ & Hmig & Hr & Hptr).
    split_and!; assumption.
Defined.

(** X6. A failed-file session created while no current session is held
    does not survive a [getOrCreateMigrationId] made within the next 24
    hours: it is the user's newest session and has no file row yet, so
    the call asks the store to delete it and then asks for a fresh
    session; with the delete carried out, the failed-file row is gone.
    A call made more than 24 hours later finds no recent session, sends
    no delete and leaves the failed-file row in place. *)
Theorem failed_file_session_is_collected (w : world) (u fileName id x y : string)
    (originalMigrationId : option string) (t : Z) (lt : string) :
  user w = Some u ->
  truthy (currentMigrationId w) = false ->
  backend w (tick w) = Accept id ->
  id <> EmptyString ->
  backend w (S (tick w)) = Accept x ->
  backend w (S (S (tick w))) = Accept y ->
  (forall m, m ∈ migrations w -> m_user_id m = u -> m_created_at m < now w) ->
  files_of (migration_files w) id = [] ->
  let '(r1, w1) := createFailedFileMigration fileName originalMigrationId w in
  let later := clock_at t lt w1 in
  let '(r2, w2) := getOrCreateMigrationId later in
  r1 = Some id
  /\ failed_session w u fileName id ∈ migrations w1
  /\ (t - twentyFourHours <= now w ->
      requests w2
      = requests w ++ [InsertMigration u ("Failed: " +:+ fileName);
                       recent_query later;
                       DeleteMigrationById id;
                       create_request later u]
      /\ migrations w2
         = filter (fun m => m_id m <> id) (migrations w)
             ++ match backend w (S (S (S (tick w)))) with
                | Accept new_id => [new_session later u new_id]
                | Reject _ => []
                end
      /\ failed_session w u fileName id ∉ migrations w2)
  /\ (now w < t - twentyFourHours ->
      requests w2
      = requests w ++ [InsertMigration u ("Failed: " +:+ fileName);
                       recent_query later;
                       create_request later u]
      /\ migrations w2
         = migrations w ++ [failed_session w u fileName id;
                            new_session later u y]
      /\ r2 = Some y).
Proof.
  intros Hu Hcur Hins Hid Hsel Hdel Hold Hnofiles.
  set (row := failed_session w u fileName id).
  unfold createFailedFileMigration, insert_migration. run.
  rewrite Hu. simpl. rewrite Hins. simpl.
  fold (failed_session w u fileName id). fold row.
  match goal with
  | |- context [getOrCreateMigrationId ?l] => set (later := l)
  end.
  rewrite <- (getOrCreateMigrationId_of_state later).
  change (currentMigrationId later) with (currentMigrationId w).
  destruct (getOrCreateMigrationId_of (currentMigrationId w) later)
    as [r2 w2] eqn:Hcall.
  split_and!; [reflexivity | apply elem_of_app; right; left | |].
  - intros Hrecent.
    pose proof (slow_path_collects later (currentMigrationId w) u x y
                  (migrations w) row Hcur Hu eq_refl eq_refl Hid Hrecent
                  Hold Hnofiles Hsel Hdel)
      as Hcollect.
    rewrite Hcall in Hcollect.
    destruct Hcollect as (Hreq & Hmig & _ & _).
    change (backend later (S (S (tick later))))
      with (backend w (S (S (S (tick w))))) in Hmig.
    split_and!.
    + rewrite Hreq. simpl. rewrite <- app_assoc. reflexivity.
    + exact Hmig.
    + rewrite Hmig. intros Hin. apply elem_of_app in Hin as [Hin | Hin].
      * apply list_elem_of_filter in Hin as [Hne _]. apply Hne. reflexivity.
      * destruct (backend w (S (S (S (tick w))))) as [new_id|msg];
          [| inversion Hin].
        apply list_elem_of_singleton in Hin.
        apply (f_equal m_project_name) in Hin. simpl in Hin. discriminate.
  - intros Hlate.
    assert (Hnone : forall m, m ∈ migrations later -> m_user_id m = u ->
                              m_created_at m < now later - twentyFourHours).
    { intros m Hm Hown. simpl in Hm. simpl.
      apply elem_of_app in Hm as [Hm | Hm].
      - pose proof (Hold m Hm Hown). lia.
      - apply list_elem_of_singleton in Hm. subst m. simpl. lia. }
    rewrite (slow_path_nothing_recent later (currentMigrationId w) u Hcur Hu Hnone)
      in Hcall.
    revert Hcall. unfold startNewMigration, insert_migration. run.
    rewrite Hu. simpl. rewrite Hdel. simpl.
    intros Hcall. injection Hcall as <- <-. simpl.
    unfold recent_query, create_request, new_session. simpl.
    rewrite <- !app_assoc. simpl. split_and!; reflexivity.
Qed.

Lemma failed_file_session_is_collected_witness :
  let w := sample_world None [session "m0" "u1" (8 * day)] [] always_accept in
  let '(r1, w1) := createFailedFileMigration "orders.sql" None w in
  (let later := clock_at (10 * day + 60000) "13:46:07" w1 in
   let '(r2, w2) := getOrCreateMigrationId later in
   r1 = Some "id-0"
   /\ requests w2
      = requests w ++ [InsertMigration "u1" "Failed: orders.sql";
                       recent_query later;
                       DeleteMigrationById "id-0";
                       create_request later "u1"]
   /\ migrations w2 = [session "m0" "u1" (8 * day); new_session later "u1" "id-3"])
  /\ (let later := clock_at (12 * day) "13:45:07" w1 in
      let '(r2, w2) := getOrCreateMigrationId later in
      requests w2
      = requests w ++ [InsertMigration "u1" "Failed: orders.sql";
                       recent_query later;
                       create_request later "u1"]
      /\ migrations w2
         = [session "m0" "u1" (8 * day);
            failed_session w "u1" "orders.sql" "id-0";
            new_session later "u1" "id-2"]).
Proof.
  intros w.
  assert (Hid : "id-0" <> EmptyString) by discriminate.
  assert (Hold : forall m, m ∈ migrations w -> m_user_id m = "u1" ->
                           m_created_at m < now w).
  { intros m Hm _. apply list_elem_of_singleton in Hm. subst m. reflexivity. }
  pose proof (failed_file_session_is_collected w "u1" "orders.sql" "id-0" "id-1"
                "id-2" None (10 * day + 60000) "13:46:07"
                eq_refl eq_refl eq_refl Hid eq_refl eq_refl Hold eq_refl) as Hsoon.
  pose proof (failed_file_session_is_collected w "u1" "orders.sql" "id-0" "id-1"
                "id-2" None (12 * day) "13:45:07"
                eq_refl eq_refl eq_refl Hid eq_refl eq_refl Hold eq_refl) as Hlate.
  destruct (createFailedFileMigration "orders.sql" None w) as [r1 w1].
  split.
  - cbv zeta in Hsoon |- *.
    destruct (getOrCreateMigrationId (clock_at (10 * day + 60000) "13:46:07" w1))
      as [r2 w2].
    destruct Hsoon as (Hr1 & _ & Hcollected & _).
    destruct Hcollected as (Hreq & Hmig & _); [vm_compute; discriminate |].
    split_and!; [exact Hr1 | exact Hreq | exact Hmig].
  - cbv zeta in Hlate |- *.
    destruct (getOrCreateMigrationId (clock_at (12 * day) "13:45:07" w1))
      as [r2 w2].
    destruct Hlate as (_ & _ & _ & Hkept).
    destruct Hkept as (Hreq & Hmig & _); [vm_compute; reflexivity |].
    split; [exact Hreq | exact Hmig].
Defined.

(** ** handleCodeUpload: every world *)

Lemma truthy_is_Some (o : option string) :
  truthy o = true -> exists id, o = Some id /\ id <> EmptyString.
Proof.
  destruct o as [[|c s]|]; simpl; try discriminate.
  intros _. eexists. split; [reflexivity | discriminate].
Qed.

Section UploadLoopRows.

Variable toLowerCase : string -> string.
Variable mid : string.

(** The rows the loop adds, for any starting set and any verdicts. *)
Lemma saveFiles_rows (items : list FileItem) :
  forall (seen : gset string) (w : world),
  exists added,
    migration_files (snd (saveFiles toLowerCase mid items seen w))
    = migration_files w ++ added
    /\ (length added <= length items)%nat
    /\ Forall (uploaded_row mid items) added.
Proof.
  induction items as [|file rest IH]; intros seen w; simpl.
  - exists []. split_and!; [rewrite app_nil_r; reflexivity | simpl; lia | constructor].
  - assert (Hweak : forall added, Forall (uploaded_row mid rest) added ->
                      Forall (uploaded_row mid (file :: rest)) added).
    { intros added Hadded. eapply Forall_impl; [exact Hadded |].
      intros r (Hm & Hs & f & Hin & Hrest). split_and!; try assumption.
      exists f. split; [right; exact Hin | exact Hrest]. }
    case_bool_decide as Hin.
    + unfold bind, consoleLog, modify.
      destruct (IH seen (push_console ("Skipping duplicate file: " +:+ fi_name file) w))
        as (added & Hf & Hl & Hrows).
      exists added. split_and!; [exact Hf | simpl; lia | apply Hweak, Hrows].
    + unfold insert_file. unfold bind, await, get, modify, ret, consoleLog. simpl.
      destruct (backend w (tick w)) as [new_id|msg]; simpl.
      * match goal with
        | |- context [saveFiles _ _ rest ?s ?w0] =>
            destruct (IH s w0) as (added & Hf & Hl & Hrows)
        end.
        simpl in Hf. eexists (_ :: added). split_and!.
        -- rewrite Hf, <- app_assoc. reflexivity.
        -- simpl. lia.
        -- constructor; [| apply Hweak, Hrows].
           split_and!; try reflexivity.
           exists file. split_and!; try reflexivity. left.
      * match goal with
        | |- context [saveFiles _ _ rest ?s ?w0] =>
            destruct (IH s w0) as (added & Hf & Hl & Hrows)
        end.
        simpl in Hf. exists added.
        split_and!; [exact Hf | simpl; lia | apply Hweak, Hrows].
Qed.

(** With every name known already, the loop sends nothing and writes no
    row. *)
Lemma saveFiles_all_known (items : list FileItem) :
  forall (seen : gset string) (w : world),
  Forall (fun f => toLowerCase (fi_name f) ∈ seen) items ->
  let w' := snd (saveFiles toLowerCase mid items seen w) in
  migration_files w' = migration_files w
  /\ requests w' = requests w
  /\ tick w' = tick w
  /\ loop_frame w w'.
Proof.
  induction items as [|file rest IH]; intros seen w Hall; simpl.
  - split_and!; try reflexivity. apply loop_frame_refl.
  - inversion Hall as [|? ? Hfile Hrest]; subst.
    rewrite bool_decide_eq_true_2 by exact Hfile.
    unfold bind, consoleLog, modify.
    exact (IH seen (push_console ("Skipping duplicate file: " +:+ fi_name file) w) Hrest).
Qed.

(** Over a store that accepts every insert, the loop ends with every
    name of the batch stored in the session, up to case. *)
Lemma saveFiles_stores_all (items : list FileItem) :
  forall (seen : gset string) (w : world),
  (forall n, exists y, backend w n = Accept y) ->
  (forall x, x ∈ seen -> x ∈ map toLowerCase (session_names w mid)) ->
  let w' := snd (saveFiles toLowerCase mid items seen w) in
  Forall (fun f => toLowerCase (fi_name f) ∈ map toLowerCase (session_names w' mid))
    items.
Proof.
  assert (Hmono : forall (w : world) (row : migration_file) x,
            x ∈ map toLowerCase (session_names w mid) ->
            x ∈ map toLowerCase
                  (map mf_file_name (files_of (migration_files w ++ [row]) mid))).
  { intros w row x Hx. unfold session_names, files_of in *.
    rewrite filter_app, !map_app. apply elem_of_app. left. exact Hx. }
  assert (Hgrow : forall (its : list FileItem) (seen : gset string) (w : world) x,
            x ∈ map toLowerCase (session_names w mid) ->
            x ∈ map toLowerCase
                  (session_names (snd (saveFiles toLowerCase mid its seen w)) mid)).
  { intros its seen w x Hx. unfold session_names.
    destruct (saveFiles_rows its seen w) as (added & -> & _).
    unfold session_names, files_of in *.
    rewrite filter_app, !map_app. apply elem_of_app. left. exact Hx. }
  induction items as [|file rest IH]; intros seen w Hok Hseen; simpl;
    [constructor |].
  case_bool_decide as Hin.
  - unfold bind, consoleLog, modify. constructor.
    + apply Hgrow. apply Hseen, Hin.
    + apply (IH seen (push_console _ w)); [exact Hok | exact Hseen].
  - unfold insert_file. unfold bind, await, get, modify, ret, consoleLog. simpl.
    destruct (Hok (tick w)) as [new_id Hv]. rewrite Hv. simpl.
    match goal with
    | |- context [saveFiles _ _ rest ?s ?w0] =>
        assert (Hhere : toLowerCase (fi_name file)
                          ∈ map toLowerCase (session_names w0 mid));
        [| constructor; [apply Hgrow, Hhere | apply (IH s w0)]]
    end.
    + unfold session_names, files_of. simpl.
      rewrite filter_app, !map_app. apply elem_of_app. right.
      rewrite filter_cons. simpl. rewrite decide_True by reflexivity. left.
    + exact Hok.
    + intros x Hx. apply elem_of_union in Hx as [Hx | Hx].
      * apply elem_of_singleton in Hx. subst x. exact Hhere.
      * apply (Hmono w). apply Hseen, Hx.
Qed.

End UploadLoopRows.

Section UploadEveryWorld.

Variable toLowerCase : string -> string.

(** X8. An upload that is turned away returns the empty list and leaves
    every file row as it was, whatever the batch.  Signed out, it sends
    no request at all and ends with the sign-in toast.  Signed in but
    without a usable session id, it sends only what
    [getOrCreateMigrationId] sent and ends with the upload-failed
    toast. *)
Theorem handleCodeUpload_turned_away (uploadedFiles : list FileItem) (w : world) :
  user w = None \/ truthy (fst (getOrCreateMigrationId w)) = false ->
  let '(result, w') := handleCodeUpload toLowerCase uploadedFiles w in
  result = []
  /\ migration_files w' = migration_files w
  /\ match user w with
     | None =>
         requests w' = requests w
         /\ migrations w' = migrations w
         /\ toasts w' = toasts w ++ [sign_in_toast]
     | Some _ =>
         requests w' = requests (snd (getOrCreateMigrationId w))
         /\ migrations w' = migrations (snd (getOrCreateMigrationId w))
         /\ toasts w' = toasts (snd (getOrCreateMigrationId w)) ++ [no_session_toast]
     end.
Proof.
  intros Hcase. unfold handleCodeUpload, bind, get, showToast, modify, ret. simpl.
  destruct (user w) as [u|] eqn:Hu.
  - destruct Hcase as [Hcase | Hcase]; [discriminate |].
    pose proof (getOrCreateMigrationId_keeps_files w) as Hfiles.
    destruct (getOrCreateMigrationId w) as [r w1]. simpl in Hcase, Hfiles.
    rewrite Hcase. simpl. split_and!; try reflexivity. exact Hfiles.
  - simpl. split_and!; reflexivity.
Qed.

(** X9. In every world and for every answer of the store, an upload
    only appends file rows: the rows stored before are kept, in order;
    at most one row per input file is added; and each added row belongs
    to the session [getOrCreateMigrationId] returned, is [pending], has
    its path equal to its name, and carries the name, type and content of
    one of the input files. *)
Theorem handleCodeUpload_only_appends (uploadedFiles : list FileItem) (w : world) :
  let w' := snd (handleCodeUpload toLowerCase uploadedFiles w) in
  exists added,
    migration_files w' = migration_files w ++ added
    /\ (length added <= length uploadedFiles)%nat
    /\ Forall (fun r =>
                 Some (mf_migration_id r) = fst (getOrCreateMigrationId w)
                 /\ mf_conversion_status r = JStr "pending"
                 /\ mf_file_path r = mf_file_name r
                 /\ exists f, f ∈ uploadedFiles
                      /\ mf_file_name r = fi_name f
                      /\ mf_file_type r = fi_type f
                      /\ mf_original_content r = fi_content f)
         added.
Proof.
  cbv zeta.
  assert (Hnone : forall w0 : world,
            migration_files w0 = migration_files w ->
            exists added : list migration_file,
              migration_files w0 = migration_files w ++ added
              /\ (length added <= length uploadedFiles)%nat
              /\ Forall (fun r =>
                           Some (mf_migration_id r) = fst (getOrCreateMigrationId w)
                           /\ mf_conversion_status r = JStr "pending"
                           /\ mf_file_path r = mf_file_name r
                           /\ exists f, f ∈ uploadedFiles
                                /\ mf_file_name r = fi_name f
                                /\ mf_file_type r = fi_type f
                                /\ mf_original_content r = fi_content f)
                   added).
  { intros w0 Hw0. exists [].
    split_and!; [rewrite app_nil_r; exact Hw0 | simpl; lia | constructor]. }
  destruct (user w) as [u|] eqn:Hu.
  - pose proof (getOrCreateMigrationId_keeps_files w) as Hkeep.
    destruct (getOrCreateMigrationId w) as [r w1] eqn:Hget. simpl in Hkeep.
    destruct (truthy r) eqn:Htr.
    + apply truthy_is_Some in Htr as (mid & -> & Hmid).
      rewrite (handleCodeUpload_steps toLowerCase w w1 u mid uploadedFiles Hu Hget Hmid).
      assert (Hsel : migration_files (snd (select_file_names mid w1))
                     = migration_files w1).
      { unfold select_file_names. run. destruct (backend w1 (tick w1)); reflexivity. }
      destruct (select_file_names mid w1) as [rs w2]. simpl in Hsel.
      destruct (saveFiles_rows toLowerCase mid (map toPendingItem uploadedFiles)
                  (list_to_set (map toLowerCase (default [] (data rs)))) w2)
        as (added & Hf & Hl & Hrows).
      destruct (saveFiles _ _ _ _ w2) as [seen w3]. simpl in Hf. simpl.
      exists added. split_and!.
      * rewrite Hf, Hsel, Hkeep. reflexivity.
      * rewrite length_map in Hl. exact Hl.
      * eapply Forall_impl; [exact Hrows |]. simpl.
        intros row (Hm & Hs & f' & Hin & Hn & Hp & Ht & Hc).
        apply list_elem_of_fmap in Hin as (f & -> & Hin). simpl in Hn, Hp, Ht, Hc.
        split_and!; [congruence | exact Hs | congruence |].
        exists f. split_and!; assumption.
    + unfold handleCodeUpload, bind, get, showToast, modify, ret. simpl.
      rewrite Hu, Hget, Htr. simpl. apply Hnone. exact Hkeep.
  - unfold handleCodeUpload, bind, get, showToast, modify, ret. simpl.
    rewrite Hu. simpl. apply Hnone. reflexivity.
Qed.

(** X10. Uploading a batch a second time into the held session, over a
    store that carries every request out, adds no row: the second call
    sends the name query and nothing else, finds every name stored, and
    still returns the whole mapped list. *)
Theorem handleCodeUpload_again_adds_nothing (uploadedFiles : list FileItem)
    (w : world) (u mid : string) :
  user w = Some u ->
  currentMigrationId w = Some mid ->
  mid <> EmptyString ->
  always_accepts w ->
  let w1 := snd (handleCodeUpload toLowerCase uploadedFiles w) in
  let '(result2, w2) := handleCodeUpload toLowerCase uploadedFiles w1 in
  result2 = map toPendingItem uploadedFiles
  /\ migration_files w2 = migration_files w1
  /\ requests w2 = requests w1 ++ [SelectFileNames mid].
Proof.
  intros Hu Hcur Hmid Hok. cbv zeta.
  set (items := map toPendingItem uploadedFiles).
  set (wa := sent (SelectFileNames mid) w).
  set (seen0 := list_to_set (map toLowerCase (session_names w mid)) : gset string).
  set (wb := snd (saveFiles toLowerCase mid items seen0 wa)).
  set (w1 := push_toast (uploaded_toast (length items)) wb).
  (* the first upload *)
  assert (Hfirst : snd (handleCodeUpload toLowerCase uploadedFiles w) = w1).
  { rewrite (handleCodeUpload_steps toLowerCase w w u mid uploadedFiles Hu
               (getOrCreateMigrationId_fast w mid Hcur Hmid) Hmid).
    unfold select_file_names. unfold bind, await, get, ret. simpl.
    destruct (Hok (tick w)) as [y Hy]. rewrite Hy. simpl.
    fold (session_names w mid). fold items. fold wa. fold seen0.
    subst w1 wb. destruct (saveFiles toLowerCase mid items seen0 wa). reflexivity. }
  rewrite Hfirst.
  assert (Hfr : loop_frame wa wb).
  { subst wb. destruct (saveFiles toLowerCase mid items seen0 wa) as [s0 w0] eqn:Hloop.
    apply saveFiles_spec in Hloop as (_ & _ & _ & _ & _ & Hfr & _). exact Hfr. }
  destruct Hfr as (Hu' & Hcur' & _ & _ & _ & _ & Hb' & _).
  simpl in Hu', Hcur', Hb'.
  assert (Hall : Forall (fun f => toLowerCase (fi_name f)
                                   ∈ map toLowerCase (session_names wb mid)) items).
  { apply (saveFiles_stores_all toLowerCase mid items seen0 wa).
    - intros n. apply Hok.
    - intros x Hx. apply elem_of_list_to_set in Hx. exact Hx. }
  (* the second upload *)
  assert (Hu1 : user w1 = Some u) by (simpl; congruence).
  assert (Hcur1 : currentMigrationId w1 = Some mid) by (simpl; congruence).
  rewrite (handleCodeUpload_steps toLowerCase w1 w1 u mid uploadedFiles Hu1
             (getOrCreateMigrationId_fast w1 mid Hcur1 Hmid) Hmid).
  unfold select_file_names. unfold bind, await, get, ret. simpl.
  rewrite Hb'. destruct (Hok (tick wb)) as [y1 Hy1]. rewrite Hy1. simpl.
  fold (session_names wb mid). fold items.
  match goal with
  | |- context [saveFiles _ _ items ?s ?w0] =>
      destruct (saveFiles_all_known toLowerCase mid items s w0)
        as (Hf2 & Hr2 & _);
      [ eapply Forall_impl; [exact Hall |]; simpl;
        intros f Hf; apply elem_of_list_to_set; exact Hf
      | destruct (saveFiles toLowerCase mid items s w0) as [seen2 w3] ]
  end.
  simpl in Hf2, Hr2. simpl. split_and!; [reflexivity | exact Hf2 | exact Hr2].
Qed.

End UploadEveryWorld.

Lemma handleCodeUpload_turned_away_witness :
  let w := sample_world None [] [] (reject_at 1) in
  let batch := [sample_item "orders.sql"] in
  truthy (fst (getOrCreateMigrationId w)) = false
  /\ (let '(result, w') := handleCodeUpload asciiLowerCase batch w in
      result = [] /\ migration_files w' = migration_files w).
Proof.
  intros w batch. split; [reflexivity |].
  pose proof (handleCodeUpload_turned_away asciiLowerCase batch w (or_intror eq_refl)) as H.
  destruct (handleCodeUpload asciiLowerCase batch w) as [result w'].
  destruct H as (Hr & Hf & _). split; assumption.
Defined.


Lemma handleCodeUpload_again_adds_nothing_witness :
  let w := sample_world (Some "m1") [m1] [] always_accept in
  let batch := [sample_item "orders.sql"; sample_item "Orders.sql";
                sample_item "users.sql"] in
  always_accepts w
  /\ (let w1 := snd (handleCodeUpload asciiLowerCase batch w) in
      let '(result2, w2) := handleCodeUpload asciiLowerCase batch w1 in
      result2 = map toPendingItem batch
      /\ migration_files w2 = migration_files w1
      /\ requests w2 = requests w1 ++ [SelectFileNames "m1"]).
Proof.
  intros w batch.
  assert (Hok : always_accepts w) by (intros n; eexists; reflexivity).
  split; [exact Hok |].
  apply (handleCodeUpload_again_adds_nothing asciiLowerCase batch w "u1" "m1");
    [reflexivity | reflexivity | discriminate | exact Hok].
Defined.

(** ** updateFileStatus and markFileAsDeployed: what is written *)

(** X11. [updateFileStatus] shows no toast and touches neither the
    sessions nor the current session.  When the store carries the
    update out it returns [true], every row with the given id gets the
    status, the timestamp and each value that was passed, and every row
    with another id is left exactly as it was.  When the store rejects
    it, it returns [false], logs one line and changes no row. *)
Theorem updateFileStatus_effect (w : world) (fileId : string)
    (status : conversion_status) (convertedContent errorMessage : option string)
    (dataTypeMapping performanceMetrics issues : option json) :
  let '(ok, w') := updateFileStatus fileId status convertedContent errorMessage
                     dataTypeMapping performanceMetrics issues w in
  toasts w' = toasts w
  /\ migrations w' = migrations w
  /\ currentMigrationId w' = currentMigrationId w
  /\ match backend w (tick w) with
     | Accept _ =>
         ok = true
         /\ console w' = console w
         /\ Forall2 (fun r r' =>
                       if bool_decide (mf_id r = fileId)
                       then status_written (now w) status convertedContent
                              errorMessage dataTypeMapping performanceMetrics
                              issues r r'
                       else r' = r)
              (migration_files w) (migration_files w')
     | Reject _ =>
         ok = false
         /\ length (console w') = S (length (console w))
         /\ migration_files w' = migration_files w
     end.
Proof.
  destruct (updateData_lookup (now w) status convertedContent errorMessage
              dataTypeMapping performanceMetrics issues)
    as (Hst & Hup & Hcc & Hem & Hdtm & Hpm & Hiss & Hdep).
  unfold updateFileStatus, update_file. run.
  destruct (backend w (tick w)) as [x|msg]; simpl.
  - split_and!; try reflexivity.
    apply Forall2_fmap_r, Forall_Forall2_diag, Forall_forall.
    intros r _. unfold compose. cbv beta.
    destruct (bool_decide (mf_id r = fileId)); [| reflexivity].
    unfold status_written, apply_update, column; simpl.
    rewrite Hst, Hup, Hcc, Hem, Hdtm, Hpm, Hiss, Hdep.
    split_and!; reflexivity.
  - split_and!; try reflexivity. rewrite length_app. simpl. lia.
Qed.

Lemma deployedData_lookup (t : Z) :
  deployedData t !! "conversion_status" = Some (JStr "deployed")
  /\ deployedData t !! "deployment_timestamp" = Some (JTime t)
  /\ deployedData t !! "updated_at" = Some (JTime t)
  /\ deployedData t !! "converted_content" = None
  /\ deployedData t !! "error_message" = None
  /\ deployedData t !! "data_type_mapping" = None
  /\ deployedData t !! "performance_metrics" = None
  /\ deployedData t !! "issues" = None.
Proof. unfold deployedData. split_and!; by simplify_map_eq. Qed.

(** X12. [markFileAsDeployed] sends one update for the given id.  When
    the store carries it out it returns [true]; every row with that id
    becomes [deployed] and gets the deployment and update timestamps,
    while its converted content, error message, mappings, metrics and
    issues stay as they were, and rows with another id are untouched.
    When the store rejects it, it returns [false] and changes no row. *)
Theorem markFileAsDeployed_effect (w : world) (fileId : string) :
  let '(ok, w') := markFileAsDeployed fileId w in
  requests w' = requests w ++ [UpdateFile fileId (deployedData (now w))]
  /\ toasts w' = toasts w
  /\ match backend w (tick w) with
     | Accept _ =>
         ok = true
         /\ Forall2 (fun r r' =>
                       if bool_decide (mf_id r = fileId)
                       then marked_deployed (now w) r r'
                       else r' = r)
              (migration_files w) (migration_files w')
     | Reject _ =>
         ok = false /\ migration_files w' = migration_files w
     end.
Proof.
  destruct (deployedData_lookup (now w))
    as (Hst & Hdep & Hup & Hcc & Hem & Hdtm & Hpm & Hiss).
  unfold markFileAsDeployed, update_file. run.
  destruct (backend w (tick w)) as [x|msg]; simpl.
  - split_and!; try reflexivity.
    apply Forall2_fmap_r, Forall_Forall2_diag, Forall_forall.
    intros r _. unfold compose. cbv beta.
    destruct (bool_decide (mf_id r = fileId)); [| reflexivity].
    unfold marked_deployed, apply_update, column; simpl.
    rewrite Hst, Hup, Hcc, Hem, Hdtm, Hpm, Hiss, Hdep.
    split_and!; reflexivity.
  - split_and!; reflexivity.
Qed.

(** ** getMigrationStats: rows with any status *)

Lemma status_buckets (v : json) :
  let n := ((if status_is "success" v then 1 else 0)
            + (if status_is "failed" v then 1 else 0)
            + (if status_is "pending" v then 1 else 0)
            + (if status_is "deployed" v then 1 else 0))%nat in
  (n <= 1)%nat /\ (n = 1%nat <-> known_status v).
Proof.
  unfold known_status.
  destruct v as [| | |s| | |]; simpl;
    try (split; [lia | split; [lia | intros [H|[H|[H|H]]]; discriminate]]).
  destruct (String.eqb_spec s "success") as [->|Hs]; simpl.
  { split; [lia | split; [auto | reflexivity]]. }
  destruct (String.eqb_spec s "failed") as [->|Hf]; simpl.
  { split; [lia | split; [auto | reflexivity]]. }
  destruct (String.eqb_spec s "pending") as [->|Hp]; simpl.
  { split; [lia | split; [auto | reflexivity]]. }
  destruct (String.eqb_spec s "deployed") as [->|Hd]; simpl.
  { split; [lia | split; [auto | reflexivity]]. }
  split; [lia | split; [lia |]].
  intros [H|[H|[H|H]]]; inversion H; congruence.
Qed.

Lemma summarize_buckets (rows : list json) :
  (counted (summarize rows) <= st_total (summarize rows))%nat
  /\ (counted (summarize rows) = st_total (summarize rows) <-> Forall known_status rows).
Proof.
  unfold counted, summarize; simpl.
  induction rows as [|v rows [IHle IHeq]]; simpl.
  - split; [lia | split; [constructor | reflexivity]].
  - destruct (status_buckets v) as [Hle Heq]. cbv zeta in Hle, Heq.
    destruct (status_is "success" v), (status_is "failed" v),
      (status_is "pending" v), (status_is "deployed" v); simpl in *;
      (split; [lia |]); rewrite Forall_cons;
      (split; [intros Hsum; split; [apply Heq; lia | apply IHeq; lia]
              | intros [Hv Hrows]; apply Heq in Hv; apply IHeq in Hrows; lia]).
Qed.

(** X13. For rows with any status values at all, an answered
    [getMigrationStats] returns a summary whose total is the number of
    rows of the session and whose four counts add up to at most the
    total; they add up to exactly the total if and only if every row
    carries one of the four known statuses. *)
Theorem getMigrationStats_buckets (w : world) (migrationId x : string) :
  backend w (tick w) = Accept x ->
  exists s,
    fst (getMigrationStats migrationId w) = Some s
    /\ st_total s = length (files_of (migration_files w) migrationId)
    /\ (counted s <= st_total s)%nat
    /\ (counted s = st_total s
        <-> Forall known_status
              (map mf_conversion_status (files_of (migration_files w) migrationId))).
Proof.
  intros Hok.
  exists (summarize (map mf_conversion_status
                       (files_of (migration_files w) migrationId))).
  split_and!.
  - unfold getMigrationStats, select_statuses. run. rewrite Hok. reflexivity.
  - simpl. apply length_map.
  - apply summarize_buckets.
  - apply summarize_buckets.
Qed.

Lemma getMigrationStats_buckets_witness :
  let odd := {| mf_id := "f2"; mf_migration_id := "m1"; mf_file_name := "b.sql";
                mf_file_path := "b.sql"; mf_file_type := table;
                mf_original_content := "x";
                mf_conversion_status := JStr "converting";
                mf_converted_content := JNull; mf_error_message := JNull;
                mf_data_type_mapping := JNull; mf_performance_metrics := JNull;
                mf_issues := JNull; mf_deployment_timestamp := JNull;
                mf_updated_at := JNull |} in
  let w := sample_world None [m1] [sample_row "f1" "m1" "a.sql"; odd] always_accept in
  backend w (tick w) = Accept "id-0"
  /\ exists s, fst (getMigrationStats "m1" w) = Some s
               /\ st_total s = 2%nat /\ (counted s <= st_total s)%nat.
Proof.
  intros odd w. split; [reflexivity |].
  destruct (getMigrationStats_buckets w "m1" "id-0" eq_refl)
    as (s & Hs & Ht & Hle & _).
  exists s. split_and!; [exact Hs | rewrite Ht; reflexivity | exact Hle].
Defined.

(** ** deleteMigration: other sessions, and the statistics afterwards *)

Lemma files_of_removed (fs : list migration_file) (mid : string) :
  files_of (filter (fun f => mf_migration_id f <> mid) fs) mid = [].
Proof.
  unfold files_of. induction fs as [|f fs IH]; [reflexivity |].
  rewrite filter_cons. destruct (decide (mf_migration_id f <> mid)) as [Hne|Heq].
  - rewrite filter_cons, decide_False by exact Hne. exact IH.
  - exact IH.
Qed.

Lemma files_of_other (fs : list migration_file) (mid other : string) :
  other <> mid ->
  files_of (filter (fun f => mf_migration_id f <> mid) fs) other = files_of fs other.
Proof.
  intros Hne. unfold files_of. induction fs as [|f fs IH]; [reflexivity |].
  rewrite !filter_cons.
  destruct (decide (mf_migration_id f <> mid)) as [Hf|Hf].
  - rewrite filter_cons. destruct (decide (mf_migration_id f = other));
      rewrite IH; reflexivity.
  - rewrite decide_False by (intros Heq; apply Hf; congruence). exact IH.
Qed.

Lemma filter_twice {A} (P : A -> Prop) `{!forall x, Decision (P x)} (l : list A) :
  filter P (filter P l) = filter P l.
Proof.
  apply filter_all. intros x Hx. apply list_elem_of_filter in Hx as [Hx _]. exact Hx.
Qed.

(** X15. Whatever the store answers, [deleteMigration] leaves the rows
    of every other session alone: the sessions with another id and the
    file rows of every other session are the same before and after, in
    the same order. *)
Theorem deleteMigration_spares_others (w : world) (migrationId : string) :
  let w' := snd (deleteMigration migrationId w) in
  filter (fun m => m_id m <> migrationId) (migrations w')
  = filter (fun m => m_id m <> migrationId) (migrations w)
  /\ filter (fun f => mf_migration_id f <> migrationId) (migration_files w')
     = filter (fun f => mf_migration_id f <> migrationId) (migration_files w)
  /\ forall other, other <> migrationId ->
       files_of (migration_files w') other = files_of (migration_files w) other.
Proof.
  unfold deleteMigration, delete_files_of, delete_migration_by_id. run.
  destruct (backend w (tick w)) as [a|msg]; simpl.
  - destruct (backend w (S (tick w))) as [b|msg]; simpl;
      try destruct (bool_decide (currentMigrationId w = Some migrationId)); simpl;
      split_and!; try reflexivity;
      try apply filter_twice; intros other Hne; apply files_of_other; exact Hne.
  - split_and!; reflexivity.
Qed.

(** X14. Once the store has carried out the first request of
    [deleteMigration], the session has no file row left, so an answered
    [getMigrationStats] for it returns the all-zero summary - also when
    the deletion of the session row itself was rejected. *)
Theorem deleteMigration_then_stats (w : world) (migrationId a c : string) :
  backend w (tick w) = Accept a ->
  backend w (S (S (tick w))) = Accept c ->
  let w1 := snd (deleteMigration migrationId w) in
  files_of (migration_files w1) migrationId = []
  /\ fst (getMigrationStats migrationId w1) = Some no_stats.
Proof.
  intros Ha Hc. cbv zeta.
  unfold deleteMigration, delete_files_of, delete_migration_by_id. run.
  rewrite Ha. simpl.
  unfold getMigrationStats, select_statuses. run.
  destruct (backend w (S (tick w))) as [b|msg]; simpl;
    try destruct (bool_decide (currentMigrationId w = Some migrationId)); simpl;
    rewrite ?Hc; simpl; rewrite files_of_removed; split; reflexivity.
Qed.

Lemma deleteMigration_then_stats_witness :
  let w := sample_world (Some "m1") [m1]
             [sample_row "f1" "m1" "a.sql"; sample_row "f2" "m2" "b.sql"]
             (reject_at 1) in
  let w1 := snd (deleteMigration "m1" w) in
  m1 ∈ migrations w1
  /\ files_of (migration_files w1) "m1" = []
  /\ fst (getMigrationStats "m1" w1) = Some no_stats.
Proof.
  intros w w1. split; [left |].
  apply (deleteMigration_then_stats w "m1" "id-0" "id-2"); reflexivity.
Defined.

(** ** cleanupEmptyMigrations: running it again, and the current session *)

Lemma cleanup_steps (w : world) (x : string) :
  backend w (tick w) = Accept x ->
  cleanupEmptyMigrations w
  = (if (0 <? length (migrationsToDelete w))%nat
     then
       bind (delete_migrations_in (migrationsToDelete w))
         (fun _ => consoleLog ("Cleaned up " +:+ pretty (length (migrationsToDelete w))
                                 +:+ " empty migrations"))
     else ret tt) (sent (old_query w) w).
Proof.
  intros Hok. unfold cleanupEmptyMigrations, select_old_migrations.
  unfold bind at 1 2 3, get at 1 2, await at 1, ret at 1. simpl. rewrite Hok. simpl.
  reflexivity.
Qed.

Lemma stale_is_listed (w : world) (u : string) (m : migration) :
  user w = Some u -> m ∈ migrations w -> stale w u m ->
  m_id m ∈ migrationsToDelete w.
Proof.
  intros Hu Hm (Hown & Hold & Hlen). unfold migrationsToDelete. rewrite Hu.
  apply list_elem_of_fmap. exists (with_files (migration_files w) m).
  split; [reflexivity |].
  apply list_elem_of_In, filter_In. split.
  - apply list_elem_of_In, list_elem_of_fmap. exists m. split; [reflexivity |].
    apply list_elem_of_filter. split; [| exact Hm]. split; [| exact Hold].
    unfold owned_by. apply bool_decide_eq_true. congruence.
  - unfold no_files, with_files. simpl. rewrite length_map. apply Nat.eqb_eq, Hlen.
Qed.

Lemma listed_is_stale (w : world) (u x : string) :
  user w = Some u -> x ∈ migrationsToDelete w ->
  exists m, m ∈ migrations w /\ m_id m = x /\ stale w u m.
Proof.
  intros Hu Hin. unfold migrationsToDelete in Hin. rewrite Hu in Hin.
  apply list_elem_of_fmap in Hin as (mw & -> & Hmw).
  apply list_elem_of_In, filter_In in Hmw as [Hmw Hno].
  apply list_elem_of_In, list_elem_of_fmap in Hmw as (m & -> & Hm).
  apply list_elem_of_filter in Hm as [[Hown Hold] Hin].
  exists m. split_and!; [exact Hin | reflexivity |].
  unfold owned_by in Hown. apply bool_decide_eq_true in Hown.
  unfold stale. split_and!; [congruence | exact Hold |].
  unfold no_files, with_files in Hno. simpl in Hno.
  rewrite length_map in Hno. apply Nat.eqb_eq, Hno.
Qed.

(** A cleanup whose two requests are carried out. *)
Lemma cleanup_carried_out (w : world) (x y : string) :
  backend w (tick w) = Accept x ->
  backend w (S (tick w)) = Accept y ->
  let w' := snd (cleanupEmptyMigrations w) in
  migrations w' = filter (fun m => m_id m ∉ migrationsToDelete w) (migrations w)
  /\ migration_files w' = migration_files w
  /\ now w' = now w /\ user w' = user w /\ backend w' = backend w
  /\ currentMigrationId w' = currentMigrationId w
  /\ toasts w' = toasts w.
Proof.
  intros Hx Hy. cbv zeta. rewrite (cleanup_steps w x Hx).
  destruct (0 <? length (migrationsToDelete w))%nat eqn:Hlen.
  - unfold delete_migrations_in. run. rewrite Hy. simpl.
    split_and!; reflexivity.
  - unfold ret. simpl. split_and!; try reflexivity.
    apply Nat.ltb_ge in Hlen.
    destruct (migrationsToDelete w); [| simpl in Hlen; lia].
    symmetry. apply filter_all. intros m _. apply not_elem_of_nil.
Qed.

(** X16. Over a store that carries every request out, a second cleanup
    right after the first finds nothing to delete: it sends its query
    and no delete request, and the sessions stay as the first cleanup
    left them. *)
Theorem cleanupEmptyMigrations_twice (w : world) (u : string) :
  user w = Some u ->
  always_accepts w ->
  let w1 := snd (cleanupEmptyMigrations w) in
  let w2 := snd (cleanupEmptyMigrations w1) in
  migrationsToDelete w1 = []
  /\ migrations w2 = migrations w1
  /\ requests w2 = requests w1 ++ [old_query w].
Proof.
  intros Hu Hok. cbv zeta.
  destruct (Hok (tick w)) as [x Hx]. destruct (Hok (S (tick w))) as [y Hy].
  destruct (cleanup_carried_out w x y Hx Hy)
    as (Hm & Hf & Hnow & Hu1 & Hb & _).
  set (w1 := snd (cleanupEmptyMigrations w)) in *.
  assert (Hnone : migrationsToDelete w1 = []).
  { destruct (migrationsToDelete w1) as [|z zs] eqn:Hlist; [reflexivity | exfalso].
    destruct (listed_is_stale w1 u z) as (m & Hin & _ & Hown & Hold & Hlen).
    - congruence.
    - rewrite Hlist. left.
    - rewrite Hm in Hin. apply list_elem_of_filter in Hin as [Hnot Hin].
      apply Hnot. apply (stale_is_listed w u m Hu Hin).
      unfold stale. rewrite <- Hnow, <- Hf. split_and!; assumption. }
  destruct (Hok (tick w1)) as [x1 Hx1]. rewrite <- Hb in Hx1.
  rewrite (cleanup_steps w1 x1 Hx1), Hnone. unfold ret. simpl.
  split_and!; try reflexivity.
  unfold old_query. rewrite Hnow, Hu1. reflexivity.
Qed.

Lemma cleanupEmptyMigrations_twice_witness :
  let w := sample_world None cleanup_store
             [sample_row "f1" "old-full" "orders.sql"] always_accept in
  let w1 := snd (cleanupEmptyMigrations w) in
  let w2 := snd (cleanupEmptyMigrations w1) in
  always_accepts w
  /\ length (migrations w1) = 3%nat
  /\ migrations w2 = migrations w1
  /\ requests w2 = requests w1 ++ [old_query w].
Proof.
  intros w w1 w2.
  assert (Hok : always_accepts w) by (intros n; eexists; reflexivity).
  destruct (cleanupEmptyMigrations_twice w "u1" eq_refl Hok) as (_ & Hm & Hr).
  split_and!; [exact Hok | reflexivity | exact Hm | exact Hr].
Defined.

(** X17. A cleanup does not look at the current session: when the
    session the pointer names is the user's, older than 24 hours and
    without file rows, a cleanup that is carried out deletes it and
    leaves the pointer naming it, and the next
    [getOrCreateMigrationId] still returns that id without asking the
    store. *)
Theorem cleanupEmptyMigrations_leaves_pointer (w : world) (u id x y : string)
    (m : migration) :
  user w = Some u ->
  currentMigrationId w = Some id ->
  id <> EmptyString ->
  m ∈ migrations w -> m_id m = id -> stale w u m ->
  backend w (tick w) = Accept x ->
  backend w (S (tick w)) = Accept y ->
  let w1 := snd (cleanupEmptyMigrations w) in
  currentMigrationId w1 = Some id
  /\ (forall m', m' ∈ migrations w1 -> m_id m' <> id)
  /\ getOrCreateMigrationId w1 = (Some id, w1).
Proof.
  intros Hu Hcur Hid Hin Hmid Hstale Hx Hy. cbv zeta.
  destruct (cleanup_carried_out w x y Hx Hy) as (Hm & _ & _ & _ & _ & Hc & _).
  assert (Hcur1 : currentMigrationId (snd (cleanupEmptyMigrations w)) = Some id)
    by congruence.
  split_and!.
  - exact Hcur1.
  - intros m' Hm' Heq. rewrite Hm in Hm'.
    apply list_elem_of_filter in Hm' as [Hnot _]. apply Hnot.
    rewrite Heq, <- Hmid. apply (stale_is_listed w u m Hu Hin Hstale).
  - apply getOrCreateMigrationId_fast; [exact Hcur1 | exact Hid].
Qed.

Lemma cleanupEmptyMigrations_leaves_pointer_witness :
  let w := sample_world (Some "old-empty") cleanup_store
             [sample_row "f1" "old-full" "orders.sql"] always_accept in
  let w1 := snd (cleanupEmptyMigrations w) in
  stale w "u1" (session "old-empty" "u1" (8 * day))
  /\ currentMigrationId w1 = Some "old-empty"
  /\ (forall m', m' ∈ migrations w1 -> m_id m' <> "old-empty")
  /\ getOrCreateMigrationId w1 = (Some "old-empty", w1).
Proof.
  intros w w1.
  assert (Hstale : stale w "u1" (session "old-empty" "u1" (8 * day)))
    by (unfold stale; split_and!; reflexivity).
  split; [exact Hstale |].
  apply (cleanupEmptyMigrations_leaves_pointer w "u1" "old-empty" "id-0" "id-1"
           (session "old-empty" "u1" (8 * day)));
    try reflexivity; [discriminate | left | exact Hstale].
Defined.

(** ** saveDeploymentLog *)

(** X18. [saveDeploymentLog] never shows a toast and never touches the
    sessions, the file rows or the current session.  Signed out, it
    returns [null] without a round trip.  Signed in, it makes one round
    trip; an accepted insert appends one row and returns it, filed under
    the given session id when that is a non-empty text and under the
    current session otherwise, with an empty or missing error message
    stored as [null]; a rejected insert returns [null], logs one line
    and appends nothing. *)
Theorem saveDeploymentLog_outcome (status : deployment_status)
    (linesOfSql fileCount : Z) (errorMessage migrationId : option string)
    (logs : list deployment_log) (w : world) :
  let '(r, logs', w') :=
    saveDeploymentLog status linesOfSql fileCount errorMessage migrationId logs w in
  toasts w' = toasts w
  /\ migrations w' = migrations w
  /\ migration_files w' = migration_files w
  /\ currentMigrationId w' = currentMigrationId w
  /\ match user w with
     | None => r = None /\ logs' = logs /\ w' = w
     | Some uid =>
         tick w' = S (tick w)
         /\ match backend w (tick w) with
            | Accept id =>
                let row :=
                  {| dl_id := id; dl_user_id := uid;
                     dl_migration_id :=
                       if truthy migrationId then migrationId
                       else currentMigrationId w;
                     dl_status := status;
                     dl_lines_of_sql := linesOfSql;
                     dl_file_count := fileCount;
                     dl_error_message :=
                       if truthy errorMessage then errorMessage else None;
                     dl_created_at := now w |} in
                r = Some row /\ logs' = logs ++ [row] /\ console w' = console w
            | Reject _ =>
                r = None /\ logs' = logs
                /\ length (console w') = S (length (console w))
            end
     end.
Proof.
  unfold saveDeploymentLog, insert_deployment_log, or_option. run.
  destruct (user w) as [uid|]; simpl.
  - destruct (backend w (tick w)) as [id|msg]; simpl.
    + split_and!; reflexivity.
    + split_and!; try reflexivity. rewrite length_app. simpl. lia.
  - split_and!; reflexivity.
Qed.

(** ** The dashboard: issues, selection, wizard, upload and reset *)

Lemma findIndex_Some {A} (p : A -> bool) (l : list A) (k : nat) :
  findIndex p l = Some k ->
  exists x, l !! k = Some x /\ p x = true
            /\ forall j y, (j < k)%nat -> l !! j = Some y -> p y = false.
Proof.
  revert k. induction l as [|a l IH]; intros k; simpl; [discriminate |].
  destruct (p a) eqn:Ha.
  - intros H. inversion H; subst. exists a. split_and!; [reflexivity | exact Ha |].
    intros j y Hj. lia.
  - destruct (findIndex p l) as [k'|]; simpl; [| discriminate].
    intros H. inversion H; subst.
    destruct (IH k' eq_refl) as (x & Hx & Hp & Hbefore).
    exists x. split_and!; [exact Hx | exact Hp |].
    intros [|j] y Hj Hy; simpl in Hy.
    + inversion Hy; subst. exact Ha.
    + apply (Hbefore j y); [lia | exact Hy].
Qed.

Lemma findIndex_None {A} (p : A -> bool) (l : list A) :
  findIndex p l = None <-> forall x, x ∈ l -> p x = false.
Proof.
  induction l as [|a l IH]; simpl.
  - split; [intros _ x Hx; inversion Hx | reflexivity].
  - destruct (p a) eqn:Ha.
    + split; [discriminate |]. intros H. specialize (H a (list_elem_of_here a l)).
      congruence.
    + destruct (findIndex p l) as [k|]; simpl.
      * split; [discriminate |]. intros H.
        assert (Hnone : @None nat = None) by reflexivity.
        destruct IH as [_ IH]. discriminate IH.
        intros x Hx. apply H. right. exact Hx.
      * split; [| reflexivity]. intros _ x Hx.
        apply elem_of_cons in Hx as [-> | Hx]; [exact Ha |].
        destruct IH as [IH _]. apply IH; [reflexivity | exact Hx].
Qed.

Lemma filterIssues_spec (issueId : string) (issues : list json) :
  match filterIssues issueId issues with
  | Some kept =>
      Forall (fun i => i <> JNull) issues
      /\ sublist kept issues
      /\ Forall (fun i => ~ has_id issueId i) kept
      /\ (forall i, i ∈ issues -> ~ has_id issueId i -> i ∈ kept)
      /\ filterIssues issueId kept = Some kept
  | None => JNull ∈ issues
  end.
Proof.
  assert (Hdiff : forall i v, issue_id i = Some v ->
            (differs_from issueId v = true <-> ~ has_id issueId i)).
  { intros i v Hv. unfold has_id. rewrite Hv. unfold differs_from.
    destruct v as [[| | |s| | |]|]; simpl;
      try (split; [intros _ H; discriminate | reflexivity]).
    destruct (String.eqb_spec s issueId) as [->|Hne]; simpl.
    - split; [discriminate | intros H; exfalso; apply H; reflexivity].
    - split; [intros _ H; inversion H; congruence | reflexivity]. }
  induction issues as [|i rest IH]; simpl.
  - split_and!; try constructor. intros i Hi. inversion Hi.
  - destruct (issue_id i) as [v|] eqn:Hv.
    + destruct (filterIssues issueId rest) as [kept|].
      * destruct IH as (Hnn & Hsub & Hno & Hall & Hidem).
        assert (Hi : i <> JNull) by (intros ->; discriminate).
        destruct (differs_from issueId v) eqn:Hd.
        -- split_and!.
           ++ constructor; assumption.
           ++ apply sublist_skip, Hsub.
           ++ constructor; [apply (Hdiff i v Hv), Hd | exact Hno].
           ++ intros j Hj Hnot. apply elem_of_cons in Hj as [-> | Hj];
                [left | right; apply Hall; assumption].
           ++ simpl. rewrite Hv, Hidem, Hd. reflexivity.
        -- split_and!.
           ++ constructor; assumption.
           ++ apply sublist_cons, Hsub.
           ++ exact Hno.
           ++ intros j Hj Hnot. apply elem_of_cons in Hj as [-> | Hj];
                [| apply Hall; assumption].
              exfalso. apply (Hdiff i v Hv) in Hnot. congruence.
           ++ exact Hidem.
      * right. exact IH.
    + destruct i; try discriminate. left.
Qed.

Section DashboardProperties.

Variables ConversionResult ConversionReport : Type.

Local Abbreviation board := (dashboard ConversionResult ConversionReport).

(** X19. Dismissing an issue of the selected file, when that file is in
    the list and every issue can be read: the selected file and the
    first list entry with its id both get the selected file's issues
    without the dismissed one - the same list, in the old order, with
    every other issue still there - and all other entries, later ones
    with the same id included, are left as they were. *)
Theorem handleDismissIssue_effect (d : board) (sel : FileItem)
    (issueId : string) (k : nat) :
  selectedFile d = Some sel ->
  findIndex (fun f => String.eqb (fi_id f) (fi_id sel)) (files d) = Some k ->
  Forall (fun i => i <> JNull) (default [] (fi_issues sel)) ->
  let d' := handleDismissIssue issueId d in
  exists kept,
    selectedFile d' = Some (withIssues sel kept)
    /\ (forall i f, files d !! i = Some f ->
          files d' !! i = Some (if (i =? k)%nat then withIssues f kept else f))
    /\ (exists f, files d !! k = Some f /\ fi_id f = fi_id sel
                  /\ forall j g, (j < k)%nat -> files d !! j = Some g ->
                       fi_id g <> fi_id sel)
    /\ sublist kept (default [] (fi_issues sel))
    /\ Forall (fun i => ~ has_id issueId i) kept
    /\ (forall i, i ∈ default [] (fi_issues sel) -> ~ has_id issueId i -> i ∈ kept).
Proof.
  intros Hsel Hidx Hread d'. subst d'.
  unfold handleDismissIssue. rewrite Hsel, Hidx.
  assert (Hkept : exists kept,
            match fi_issues sel with
            | Some issues => filterIssues issueId issues
            | None => Some []
            end = Some kept
            /\ sublist kept (default [] (fi_issues sel))
            /\ Forall (fun i => ~ has_id issueId i) kept
            /\ (forall i, i ∈ default [] (fi_issues sel) ->
                  ~ has_id issueId i -> i ∈ kept)).
  { destruct (fi_issues sel) as [issues|]; simpl in *.
    - pose proof (filterIssues_spec issueId issues) as Hspec.
      destruct (filterIssues issueId issues) as [kept|].
      + destruct Hspec as (_ & Hsub & Hno & Hall & _).
        exists kept. split_and!; [reflexivity | assumption..].
      + exfalso. rewrite Forall_forall in Hread. apply (Hread JNull Hspec). reflexivity.
    - exists []. split_and!; [reflexivity | constructor | constructor |].
      intros i Hi. inversion Hi. }
  destruct Hkept as (kept & -> & Hsub & Hno & Hall).
  exists kept. simpl. rewrite Hsel, String.eqb_refl.
  split_and!; try assumption; try reflexivity.
  - intros i f Hi. rewrite list_lookup_imap, Hi. reflexivity.
  - destruct (findIndex_Some _ _ _ Hidx) as (f & Hf & Hp & Hbefore).
    exists f. split_and!; [exact Hf | apply String.eqb_eq, Hp |].
    intros j g Hj Hg Heq. specialize (Hbefore j g Hj Hg).
    apply String.eqb_neq in Hbefore. contradiction.
Qed.

(** X20. Dismissing an issue changes nothing at all - neither the list
    nor the selected file - when no file is selected, when the selected
    file is not in the list, or when one of the selected file's issues
    is [null]. *)
Theorem handleDismissIssue_nothing (d : board) (issueId : string) :
  selectedFile d = None
  \/ (exists sel, selectedFile d = Some sel
                  /\ forall f, f ∈ files d -> fi_id f <> fi_id sel)
  \/ (exists sel issues, selectedFile d = Some sel
                         /\ fi_issues sel = Some issues /\ JNull ∈ issues) ->
  handleDismissIssue issueId d = d.
Proof.
  unfold handleDismissIssue.
  intros [Hnone | [(sel & Hsel & Hnot) | (sel & issues & Hsel & Hiss & Hnull)]].
  - rewrite Hnone. reflexivity.
  - rewrite Hsel.
    assert (Hidx : findIndex (fun f => String.eqb (fi_id f) (fi_id sel)) (files d)
                   = None).
    { apply findIndex_None. intros f Hf. apply String.eqb_neq, Hnot, Hf. }
    rewrite Hidx. reflexivity.
  - rewrite Hsel, Hiss.
    destruct (findIndex _ (files d)); [| reflexivity].
    pose proof (filterIssues_spec issueId issues) as Hspec.
    destruct (filterIssues issueId issues) as [kept|]; [| reflexivity].
    destruct Hspec as (Hnn & _). rewrite Forall_forall in Hnn.
    exfalso. apply (Hnn JNull Hnull). reflexivity.
Qed.

Lemma find_first (p : FileItem -> bool) (l : list FileItem) :
  match List.find p l with
  | Some f =>
      p f = true
      /\ exists k, l !! k = Some f
                   /\ forall j g, (j < k)%nat -> l !! j = Some g -> p g = false
  | None => Forall (fun g => p g = false) l
  end.
Proof.
  induction l as [|a l IH]; simpl; [constructor |].
  destruct (p a) eqn:Ha.
  - split; [exact Ha |]. exists 0%nat. split; [reflexivity |]. intros j g Hj. lia.
  - destruct (List.find p l) as [f|].
    + destruct IH as (Hf & k & Hk & Hbefore). split; [exact Hf |].
      exists (S k). split; [exact Hk |].
      intros [|j] g Hj Hg; simpl in Hg.
      * inversion Hg; subst. exact Ha.
      * apply (Hbefore j g); [lia | exact Hg].
    + constructor; assumption.
Qed.

(** X21. The auto-select effect on a dashboard with files and no
    selection picks a file of the list: the first one whose converted
    content is a non-empty text if there is one, and the first file of
    the list otherwise.  It never changes the list, it changes nothing
    when a file is selected already, and running it again changes
    nothing more. *)
Theorem autoSelect_choice (d : board) :
  selectedFile d = None ->
  files d <> [] ->
  exists f,
    selectedFile (autoSelect d) = Some f
    /\ f ∈ files d
    /\ ((converted f = true
         /\ exists k, files d !! k = Some f
                      /\ forall j g, (j < k)%nat -> files d !! j = Some g ->
                           converted g = false)
        \/ (Forall (fun g => converted g = false) (files d)
            /\ head (files d) = Some f))
    /\ files (autoSelect d) = files d
    /\ autoSelect (autoSelect d) = autoSelect d
    /\ forall g, autoSelect (setSelectedFile _ _ (Some g) d)
                 = setSelectedFile _ _ (Some g) d.
Proof.
  intros Hsel Hfiles. unfold autoSelect. rewrite Hsel.
  destruct (files d) as [|a l] eqn:Hl; [congruence |].
  pose proof (find_first converted (a :: l)) as Hfind. unfold converted in *.
  destruct (List.find _ (a :: l)) as [f|].
  - destruct Hfind as (Hf & k & Hk & Hbefore).
    exists f. simpl. rewrite Hl. split_and!; try reflexivity.
    + apply list_elem_of_lookup. exists k. exact Hk.
    + left. split; [exact Hf |]. exists k. split; assumption.
  - exists a. simpl. rewrite Hl. split_and!; try reflexivity.
    + left.
    + right. split; [exact Hfind | reflexivity].
Qed.

(** X22. The wizard's [Next] button never takes the step past 3: after
    one or more presses the step is the smaller of 3 and the old step
    plus the number of presses, and no other cell of the page changes. *)
Theorem wizardNext_presses (d : board) (n : nat) :
  let d' := Nat.iter (S n) wizardNext d in
  wizardStep _ _ d' = Nat.min (wizardStep _ _ d + S n) 3
  /\ (wizardStep _ _ d' <= 3)%nat
  /\ files d' = files d
  /\ selectedFile d' = selectedFile d
  /\ activeTab d' = activeTab d
  /\ showWizard _ _ d' = showWizard _ _ d.
Proof.
  induction n as [|n IH].
  - simpl. unfold wizardNext. simpl. split_and!; try reflexivity; lia.
  - destruct IH as (Hstep & Hle & Hf & Hs & Ha & Hw).
    change (Nat.iter (S (S n)) wizardNext d)
      with (wizardNext (Nat.iter (S n) wizardNext d)).
    set (d1 := Nat.iter (S n) wizardNext d) in *.
    cbv zeta.
    assert (Hone : wizardStep _ _ (wizardNext d1) = Nat.min (wizardStep _ _ d1 + 1) 3)
      by reflexivity.
    rewrite Hone, Hstep.
    split_and!; [lia | lia | exact Hf | exact Hs | exact Ha | exact Hw].
Qed.

(** X24. Of two manual edits in a row the last one wins: editing to one
    text and then to another leaves the page exactly as editing to the
    second text alone. *)
Theorem handleManualEdit_last_wins (d : board) (first second : string) :
  handleManualEdit second (handleManualEdit first d) = handleManualEdit second d.
Proof.
  unfold handleManualEdit.
  destruct (selectedFile d) as [sel|] eqn:Hsel; simpl; [| rewrite Hsel; reflexivity].
  unfold setSelectedFile, setFiles. simpl. f_equal.
  rewrite <- list_fmap_compose. apply list_fmap_ext.
  intros i f _. unfold compose.
  destruct (bool_decide (fi_id f = fi_id sel)) eqn:Hid; simpl.
  - rewrite bool_decide_eq_true_2 by reflexivity. reflexivity.
  - rewrite Hid. reflexivity.
Qed.

Lemma findIndex_imap {A} (p : A -> bool) (l : list A) :
  forall g : nat -> A -> A,
  (forall i x, p (g i x) = p x) -> findIndex p (imap g l) = findIndex p l.
Proof.
  induction l as [|a l IH]; intros g Hg; simpl; [reflexivity |].
  rewrite Hg. destruct (p a); [reflexivity |].
  rewrite IH by (intros i x; apply Hg). reflexivity.
Qed.

(** X25. Dismissing the same issue twice is the same as dismissing it
    once. *)
Theorem handleDismissIssue_twice (d : board) (issueId : string) :
  handleDismissIssue issueId (handleDismissIssue issueId d)
  = handleDismissIssue issueId d.
Proof.
  destruct (selectedFile d) as [sel|] eqn:Hsel.
  2: { assert (Hd : handleDismissIssue issueId d = d)
         by (unfold handleDismissIssue; rewrite Hsel; reflexivity).
       rewrite Hd. exact Hd. }
  destruct (findIndex (fun f => String.eqb (fi_id f) (fi_id sel)) (files d))
    as [k|] eqn:Hidx.
  2: { assert (Hd : handleDismissIssue issueId d = d)
         by (unfold handleDismissIssue; rewrite Hsel, Hidx; reflexivity).
       rewrite Hd. exact Hd. }
  destruct (match fi_issues sel with
            | Some issues => filterIssues issueId issues
            | None => Some []
            end) as [kept|] eqn:Hkept.
  2: { assert (Hd : handleDismissIssue issueId d = d)
         by (unfold handleDismissIssue; rewrite Hsel, Hidx, Hkept; reflexivity).
       rewrite Hd. exact Hd. }
  assert (Hidem : filterIssues issueId kept = Some kept).
  { destruct (fi_issues sel) as [issues|].
    - pose proof (filterIssues_spec issueId issues) as Hspec.
      rewrite Hkept in Hspec. apply Hspec.
    - inversion Hkept; subst. reflexivity. }
  set (h := fun (idx : nat) (f : FileItem) =>
              if (idx =? k)%nat then withIssues f kept else f).
  assert (Hd : handleDismissIssue issueId d
               = setSelectedFile _ _ (Some (withIssues sel kept))
                   (setFiles _ _ (imap h (files d)) d)).
  { unfold handleDismissIssue. rewrite Hsel, Hidx, Hkept. simpl.
    rewrite Hsel, String.eqb_refl. reflexivity. }
  rewrite Hd. unfold handleDismissIssue at 1. simpl.
  assert (Hidx' : findIndex (fun f => String.eqb (fi_id f) (fi_id sel))
                    (imap h (files d)) = Some k).
  { rewrite findIndex_imap; [exact Hidx |].
    intros i x. unfold h. destruct (i =? k)%nat; reflexivity. }
  rewrite Hidx', Hidem. simpl. rewrite String.eqb_refl.
  unfold setSelectedFile, setFiles. simpl. f_equal.
  apply list_eq. intros i. rewrite !list_lookup_imap.
  destruct (files d !! i) as [f|]; simpl; [| reflexivity].
  unfold h. destruct (i =? k)%nat; reflexivity.
Qed.

Variable toLowerCase : string -> string.

Lemma turned_away_result (uploadedFiles : list FileItem) (w : world) :
  user w = None \/ truthy (fst (getOrCreateMigrationId w)) = false ->
  fst (handleCodeUpload toLowerCase uploadedFiles w) = [].
Proof.
  intros Hcase. unfold handleCodeUpload, bind, get, showToast, modify, ret. simpl.
  destruct (user w) as [u|] eqn:Hu; [| reflexivity].
  destruct Hcase as [Hcase | Hcase]; [discriminate |].
  destruct (getOrCreateMigrationId w) as [r w1]. simpl in Hcase.
  rewrite Hcase. reflexivity.
Qed.

(** X23. An upload that is turned away (nobody signed in, or no session
    id to be had) still moves the page to the conversion tab and
    replaces the file list by the empty list; the selected file is kept,
    so it is then a file that is not in the list, and the auto-select
    effect leaves it in place. *)
Theorem handleCodeUploadWrapper_turned_away (uploadedFiles : list FileItem)
    (d : board) (w : world) :
  user w = None \/ truthy (fst (getOrCreateMigrationId w)) = false ->
  let d' := fst (handleCodeUploadWrapper toLowerCase _ _ uploadedFiles d w) in
  files d' = []
  /\ activeTab d' = tab_conversion
  /\ selectedFile d' = selectedFile d
  /\ autoSelect d' = d'.
Proof.
  intros Hcase. cbv zeta.
  pose proof (turned_away_result uploadedFiles w Hcase) as Hnil.
  unfold handleCodeUploadWrapper, bind, ret.
  destruct (handleCodeUpload toLowerCase uploadedFiles w) as [result w'].
  simpl in Hnil. subst result. simpl. split_and!; reflexivity.
Qed.

Lemma find_pending (l : list FileItem) :
  List.find (fun f => truthy (fi_convertedContent f)) (map toPendingItem l) = None.
Proof. induction l as [|a l IH]; simpl; [reflexivity | exact IH]. Qed.

(** X27. After an upload by a signed-in user with a session id in hand,
    the page shows the conversion tab and the mapped input files, and
    the auto-select effect keeps a file that was selected before the
    upload and otherwise selects the first uploaded file, since no
    uploaded file has converted content. *)
Theorem handleCodeUploadWrapper_then_autoSelect (uploadedFiles : list FileItem)
    (d : board) (w w1 : world) (u mid : string) :
  user w = Some u ->
  getOrCreateMigrationId w = (Some mid, w1) ->
  mid <> EmptyString ->
  let d' := fst (handleCodeUploadWrapper toLowerCase _ _ uploadedFiles d w) in
  files d' = map toPendingItem uploadedFiles
  /\ activeTab d' = tab_conversion
  /\ selectedFile (autoSelect d')
     = match selectedFile d with
       | Some f => Some f
       | None => head (map toPendingItem uploadedFiles)
       end.
Proof.
  intros Hu Hget Hmid. cbv zeta.
  unfold handleCodeUploadWrapper, bind, ret.
  rewrite (handleCodeUpload_steps toLowerCase w w1 u mid uploadedFiles Hu Hget Hmid).
  destruct (select_file_names mid w1) as [r w2].
  destruct (saveFiles _ _ _ _ w2) as [seen w3]. simpl.
  split_and!; try reflexivity.
  pose proof (find_pending uploadedFiles) as Hfind.
  unfold autoSelect. simpl.
  destruct (map toPendingItem uploadedFiles) as [|a l] eqn:Hl;
    destruct (selectedFile d) as [f|] eqn:Hs; simpl; rewrite ?Hs; try reflexivity.
  simpl in Hfind. rewrite Hfind. reflexivity.
Qed.

Lemma upload_nothing_keeps_files (w : world) :
  migration_files (snd (handleCodeUpload toLowerCase [] w)) = migration_files w.
Proof.
  unfold handleCodeUpload, bind, get, showToast, modify, ret. simpl.
  destruct (user w) as [u|]; [| reflexivity].
  pose proof (getOrCreateMigrationId_keeps_files w) as Hkeep.
  destruct (getOrCreateMigrationId w) as [r w1]. simpl in Hkeep.
  destruct (truthy r); simpl; [| exact Hkeep].
  unfold select_file_names, bind, await, get, ret.
  destruct (backend w1 (tick w1)); simpl; exact Hkeep.
Qed.

(** X26. A reset always ends with the [Migration Reset] toast, also when
    the upload of the empty list was turned away, and never writes a
    file row.  It clears the file list, the conversion results, the
    selection and the report and shows the upload tab, but leaves the
    report switch, the custom prompt, the chosen model and the wizard as
    they were.  Signed out, it sends nothing and shows the sign-in toast
    just before the reset toast. *)
Theorem handleResetMigration_always_reports (d : board) (w : world) :
  let '(d', w') := handleResetMigration toLowerCase d w in
  files d' = [] /\ conversionResults d' = [] /\ selectedFile d' = None
  /\ report d' = None /\ activeTab d' = tab_upload
  /\ showReport _ _ d' = showReport _ _ d
  /\ customPrompt _ _ d' = customPrompt _ _ d
  /\ selectedAiModel _ _ d' = selectedAiModel _ _ d
  /\ wizardStep _ _ d' = wizardStep _ _ d
  /\ toasts w' = toasts (snd (handleCodeUpload toLowerCase [] w)) ++ [reset_toast]
  /\ migration_files w' = migration_files w
  /\ match user w with
     | None =>
         toasts w' = toasts w ++ [sign_in_toast; reset_toast]
         /\ requests w' = requests w
     | Some _ => True
     end.
Proof.
  pose proof (upload_nothing_keeps_files w) as Hkeep.
  assert (Hout : user w = None ->
            snd (handleCodeUpload toLowerCase [] w) = push_toast sign_in_toast w).
  { intros Hu. unfold handleCodeUpload, bind, get, showToast, modify, ret. simpl.
    rewrite Hu. reflexivity. }
  unfold handleResetMigration, bind, showToast, modify, ret.
  destruct (handleCodeUpload toLowerCase [] w) as [result w1]. simpl in *.
  split_and!; try reflexivity; [exact Hkeep |].
  destruct (user w); [exact I |].
  rewrite (Hout eq_refl). simpl. rewrite <- app_assoc. split; reflexivity.
Qed.

End DashboardProperties.

Lemma handleDismissIssue_effect_witness :
  let issue (n : string) := JObj [("id", JStr n); ("text", JStr "check")] in
  let sel := withIssues (sample_item "orders.sql") [issue "i1"; issue "i2"] in
  let d : dashboard unit unit :=
    setSelectedFile _ _ (Some sel)
      (setFiles _ _ [sample_item "users.sql"; sample_item "orders.sql";
                     sample_item "orders.sql"] busy_dashboard) in
  selectedFile (handleDismissIssue "i1" d) = Some (withIssues sel [issue "i2"])
  /\ files (handleDismissIssue "i1" d)
     = [sample_item "users.sql";
        withIssues (sample_item "orders.sql") [issue "i2"];
        sample_item "orders.sql"].
Proof.
  intros issue sel d.
  destruct (handleDismissIssue_effect unit unit d sel "i1" 1%nat)
    as (kept & Hsel & Hfiles & _ & _ & _ & _).
  - reflexivity.
  - reflexivity.
  - repeat constructor; discriminate.
  - split; reflexivity.
Defined.

Lemma handleDismissIssue_nothing_witness :
  let d : dashboard unit unit :=
    setFiles _ _ [sample_item "users.sql"] busy_dashboard in
  (forall f, f ∈ files d -> fi_id f <> fi_id (sample_item "orders.sql"))
  /\ handleDismissIssue "i1" d = d.
Proof.
  intros d.
  assert (Hnot : forall f, f ∈ files d -> fi_id f <> fi_id (sample_item "orders.sql")).
  { intros f Hf. apply list_elem_of_singleton in Hf. subst f. discriminate. }
  split; [exact Hnot |].
  apply handleDismissIssue_nothing. right. left.
  exists (sample_item "orders.sql"). split; [reflexivity | exact Hnot].
Defined.

Lemma autoSelect_choice_witness :
  let blank := toPendingItem (sample_item "a.sql") in
  let d : dashboard unit unit :=
    setSelectedFile _ _ None
      (setFiles _ _ [blank; sample_item "b.sql"; sample_item "c.sql"] busy_dashboard) in
  selectedFile d = None
  /\ files d <> []
  /\ selectedFile (autoSelect d) = Some (sample_item "b.sql").
Proof.
  intros blank d. split_and!; [reflexivity | discriminate |].
  destruct (autoSelect_choice unit unit d eq_refl) as (f & Hf & _).
  - discriminate.
  - rewrite Hf. inversion Hf. reflexivity.
Defined.

Lemma handleCodeUploadWrapper_turned_away_witness :
  let w := signed_out (sample_world None [] [] always_accept) in
  let d' := fst (handleCodeUploadWrapper asciiLowerCase unit unit
                   [sample_item "users.sql"] busy_dashboard w) in
  user w = None
  /\ files d' = []
  /\ activeTab d' = tab_conversion
  /\ selectedFile d' = Some (sample_item "orders.sql")
  /\ autoSelect d' = d'.
Proof.
  intros w d'. split; [reflexivity |].
  apply (handleCodeUploadWrapper_turned_away unit unit asciiLowerCase
           [sample_item "users.sql"] busy_dashboard w).
  left. reflexivity.
Defined.

Lemma handleCodeUploadWrapper_then_autoSelect_witness :
  let w := sample_world (Some "m1") [m1] [] always_accept in
  let d := setSelectedFile _ _ None busy_dashboard in
  let batch := [sample_item "a.sql"; sample_item "b.sql"] in
  let d' := fst (handleCodeUploadWrapper asciiLowerCase unit unit batch d w) in
  files d' = map toPendingItem batch
  /\ activeTab d' = tab_conversion
  /\ selectedFile (autoSelect d') = Some (toPendingItem (sample_item "a.sql")).
Proof.
  intros w d batch d'.
  apply (handleCodeUploadWrapper_then_autoSelect unit unit asciiLowerCase
           batch d w w "u1" "m1"); [reflexivity | reflexivity | discriminate].
Defined.
